(** * Residue-colouring script of ProGSNN: [pdb_color_generic.py]

    A shallow embedding of the score reader [read_generic_data], of the
    chain reader [get_chains_only] and of the score binner and script
    emitter [make_output_script], followed by the properties of the
    specification that were checked against them and by further properties
    of the three functions.

    Conventions of the embedding.
    - The reader's [float] gives the binary64 value of the decimal it reads
      (nearest, halves to even, an infinity beyond the range), as a rational
      or as one of the two infinities or NaN ([pyfloat]).
    - The arithmetic of the bin derivation (lines 176 to 235) is that of
      exact rationals ([Q]); the script computes in binary64, where the
      quotient that gives [numpy.arange] its length and the sums that give
      it its values are rounded.  What is stated of the script about it is
      therefore either a matter of control flow and of comparisons, which
      rounding does not touch, or restricted to scores whose minimum and
      maximum are whole numbers, on which every operation is exact, or said
      to hold over exact arithmetic.  Every concrete input used below is a
      small dyadic rational, on which the operations of the script are
      exact.
    - Python [dict]s keep insertion order, and the script depends on it, so
      they are association lists ([dict_set] keeps the position of a key that
      is already present).
    - The script writes directives to [wayout] and messages to [sys.stderr],
      and may raise an exception at any point: this is a small monad [M] over
      a [world] holding both streams.  The chain reader, which writes its own
      messages and can also raise [TypeError], threads its local variables
      through a [run] of its own (module [Pdb]).
    - Strings are strings of ASCII characters: the lines of both input files
      are taken to hold no other character. *)

From Stdlib Require Import ZArith QArith Qround Qabs Qpower List Sorted String Ascii Bool Lia Lqa.
Import ListNotations.

Local Open Scope string_scope.
Local Open Scope list_scope.
Local Open Scope Z_scope.

(** ** Streams, exceptions and the monad of the script *)

(** The Python exceptions the two functions can raise. *)
Inductive exn : Type :=
| IndexError
| ValueError
| OverflowError
| KeyError
| UnboundLocalError.

Inductive result (A : Type) : Type :=
| Return (a : A)
| Raise (e : exn).
Arguments Return {A} a.
Arguments Raise {A} e.

(** The lines written to [wayout]; a field is kept for every value the
    format string receives ([{:02d}] receives the truncated scaled bin
    value). *)
Inductive directive : Type :=
| HideEverything
| ShowCartoon
| SetColorDefault (rgb : list Q)
| ColorDefaultAll
| SetColor (basecolor : string) (scaled : Z) (rgb : list Q)
| ColorChain (basecolor : string) (scaled : Z) (chain : string)
| Select (scaled : Z) (groupname : string) (ordinal : Z) (chain : string)
         (residues : list Z)
| ColorSelection (basecolor : string) (scaled : Z) (groupname : string)
                 (ordinal : Z) (chain : string).

(** The lines written to [sys.stderr]. *)
Inductive message : Type :=
| MsgReadingScores (scorecolumn : Z) (delimiter : string)
| MsgCounted (linecounter foundscores : Z)
| WarnNoScores
| MsgGeneratingBins
| MsgDataRange (lowest highest range median : Q)
| MsgDefaultOverride (defaultindex : Z)
| MsgCorrectingLower (old new : Q)
| MsgAdjustDecimals (magnitude : Z)
| MsgSequential
| MsgMedianLow (median : Q)
| MsgDiverging
| MsgAllNegative
| MsgAllNegativeAdvice
| MsgGeneratingScript (basecolor : string) (binvalues : list Q).

(** The only message of the script whose text carries [WARNING]. *)
Definition is_warning (m : message) : bool :=
  match m with
  | WarnNoScores => true
  | _ => false
  end.

Record world : Type := mkWorld {
  stdout : list directive;
  stderr : list message
}.

Definition empty_world : world := mkWorld [] [].

Definition M (A : Type) : Type := world -> world * result A.

Definition ret {A} (a : A) : M A := fun w => (w, Return a).

Definition bind {A B} (c : M A) (k : A -> M B) : M B :=
  fun w =>
    match c w with
    | (w', Return a) => k a w'
    | (w', Raise e) => (w', Raise e)
    end.

Definition raise {A} (e : exn) : M A := fun w => (w, Raise e).

Definition wayout_write (d : directive) : M unit :=
  fun w => (mkWorld (stdout w ++ [d]) (stderr w), Return tt).

Definition stderr_write (m : message) : M unit :=
  fun w => (mkWorld (stdout w) (stderr w ++ [m]), Return tt).

(** [try: body / except ValueError: handler]. *)
Definition try_except_ValueError {A} (body : M A) (handler : M A) : M A :=
  fun w =>
    match body w with
    | (w', Raise ValueError) => handler w'
    | r => r
    end.

Declare Scope py_scope.
Delimit Scope py_scope with py.
Notation "x <- c ;; k" := (bind c (fun x => k))
  (at level 61, c at next level, right associativity) : py_scope.
Notation "c ;; k" := (bind c (fun _ => k))
  (at level 61, right associativity) : py_scope.
Local Open Scope py_scope.

Definition when (b : bool) (c : M unit) : M unit :=
  if b then c else ret tt.

(** Lift a pure fallible computation. *)
Definition lift {A} (r : result A) : M A := fun w => (w, r).

(** ** Python built-ins used by the script *)

Module Py.

(** [l[i]], with negative indices counted from the end. *)
Definition index {A} (l : list A) (i : Z) : result A :=
  let n := Z.of_nat (List.length l) in
  let j := if i <? 0 then i + n else i in
  if (0 <=? j) && (j <? n)
  then match nth_error l (Z.to_nat j) with
       | Some a => Return a
       | None => Raise IndexError
       end
  else Raise IndexError.

(** [l[:-1]]. *)
Definition init {A} (l : list A) : list A := removelast l.

(** White space of [str.strip] and of [float], among the ASCII characters. *)
Definition is_space (c : ascii) : bool :=
  let n := N_of_ascii c in
  ((9 <=? n) && (n <=? 13) || (28 <=? n) && (n <=? 32))%N.

Fixpoint lstrip (s : string) : string :=
  match s with
  | String c s' => if is_space c then lstrip s' else s
  | EmptyString => EmptyString
  end.

Fixpoint rstrip (s : string) : string :=
  match s with
  | String c s' =>
      match rstrip s' with
      | EmptyString => if is_space c then EmptyString else String c EmptyString
      | r => String c r
      end
  | EmptyString => EmptyString
  end.

Definition strip (s : string) : string := rstrip (lstrip s).

(** White space of C's [isspace], which [float] and [int] skip at both ends
    of an ASCII string: [str.strip] also takes the four separators 28 to
    31, these two do not. *)
Definition is_c_space (c : ascii) : bool :=
  let n := N_of_ascii c in
  ((9 <=? n) && (n <=? 13) || (n =? 32))%N.

Fixpoint lstrip_c (s : string) : string :=
  match s with
  | String c s' => if is_c_space c then lstrip_c s' else s
  | EmptyString => EmptyString
  end.

Fixpoint rstrip_c (s : string) : string :=
  match s with
  | String c s' =>
      match rstrip_c s' with
      | EmptyString => if is_c_space c then EmptyString else String c EmptyString
      | r => String c r
      end
  | EmptyString => EmptyString
  end.

Definition strip_c (s : string) : string := rstrip_c (lstrip_c s).

(** [s.split(sep)] for a non-empty [sep]: [skip] counts the characters of a
    separator occurrence still to be passed over. *)
Fixpoint split_from (sep : string) (skip : nat) (cur : string) (s : string)
  : list string :=
  match s with
  | EmptyString => [cur]
  | String c s' =>
      match skip with
      | S k => split_from sep k cur s'
      | O =>
          if String.prefix sep s
          then cur :: split_from sep (String.length sep - 1)%nat EmptyString s'
          else split_from sep 0 (cur ++ String c EmptyString)%string s'
      end
  end.

Definition split (s sep : string) : result (list string) :=
  match sep with
  | EmptyString => Raise ValueError
  | _ => Return (split_from sep 0 EmptyString s)
  end.

(** A Python [float]: a finite value, an infinity or NaN. *)
Inductive pyfloat : Type :=
| Fin (q : Q)
| PosInf
| NegInf
| NaN.

Definition digit_of (c : ascii) : option Z :=
  let n := N_of_ascii c in
  if ((48 <=? n) && (n <=? 57))%N then Some (Z.of_N n - 48) else None.

Definition to_lower (c : ascii) : ascii :=
  let n := N_of_ascii c in
  if ((65 <=? n) && (n <=? 90))%N then ascii_of_N (n + 32) else c.

Fixpoint lower (s : string) : string :=
  match s with
  | String c s' => String (to_lower c) (lower s')
  | EmptyString => EmptyString
  end.

(** The rest of a [digitpart ::= digit (["_"] digit)*] after its first
    digit: the value read so far, the number of digits, and what is left. *)
Fixpoint digits_tail (acc : Z) (n : Z) (s : string) : Z * Z * string :=
  match s with
  | String c s' =>
      match digit_of c with
      | Some d => digits_tail (10 * acc + d) (n + 1) s'
      | None =>
          if Ascii.eqb c "_"
          then match s' with
               | String c2 s'' =>
                   match digit_of c2 with
                   | Some d => digits_tail (10 * acc + d) (n + 1) s''
                   | None => (acc, n, s)
                   end
               | EmptyString => (acc, n, s)
               end
          else (acc, n, s)
      end
  | EmptyString => (acc, n, s)
  end.

Definition digitpart (s : string) : option (Z * Z * string) :=
  match s with
  | String c s' =>
      match digit_of c with
      | Some d => Some (digits_tail d 1 s')
      | None => None
      end
  | EmptyString => None
  end.

(** [sign ::= "+" | "-"], optional: the sign and what is left. *)
Definition sign_of (s : string) : bool * string :=
  match s with
  | String c s' =>
      if Ascii.eqb c "-" then (true, s')
      else if Ascii.eqb c "+" then (false, s')
      else (false, s)
  | EmptyString => (false, s)
  end.

(** [number ::= [digitpart] "." digitpart | digitpart ["."]]: the integer
    part, the fraction digits, their number, and what is left. *)
Definition number (s : string) : option (Z * Z * Z * string) :=
  match digitpart s with
  | Some (ip, _, rest) =>
      match rest with
      | String c rest' =>
          if Ascii.eqb c "."
          then match digitpart rest' with
               | Some (fp, fn, rest'') => Some (ip, fp, fn, rest'')
               | None => Some (ip, 0, 0, rest')
               end
          else Some (ip, 0, 0, rest)
      | EmptyString => Some (ip, 0, 0, rest)
      end
  | None =>
      match s with
      | String c rest' =>
          if Ascii.eqb c "."
          then match digitpart rest' with
               | Some (fp, fn, rest'') => Some (0, fp, fn, rest'')
               | None => None
               end
          else None
      | EmptyString => None
      end
  end.

(** [exponent ::= ("e" | "E") [sign] digitpart], optional. *)
Definition exponent (s : string) : option (Z * string) :=
  match s with
  | String c s' =>
      if Ascii.eqb (to_lower c) "e"
      then let (neg, s1) := sign_of s' in
           match digitpart s1 with
           | Some (e, _, rest) => Some (if neg then - e else e, rest)
           | None => None
           end
      else Some (0, s)
  | EmptyString => Some (0, s)
  end.

Definition pow10 (e : Z) : Q := Qpower (10 # 1) e.

Definition pow2 (e : Z) : Q := Qpower (2 # 1) e.

(** The [e] with [2 ** e <= x < 2 ** (e + 1)], for [0 < x]: the difference
    of the bit lengths of numerator and denominator, or one less. *)
Definition floor_log2 (x : Q) : Z :=
  let e := Z.log2 (Qnum x) - Z.log2 (Z.pos (Qden x)) in
  if Qle_bool (pow2 e) x then e else e - 1.

(** To the nearest integer, halves to the even one. *)
Definition nearest_even (x : Q) : Z :=
  let f := Qfloor x in
  match (x - inject_Z f ?= 1 # 2)%Q with
  | Lt => f
  | Gt => f + 1
  | Eq => if Z.even f then f else f + 1
  end.

(** The binary64 value nearest to a rational, halves to the even
    significand, as the conversion of a decimal string gives it: 53
    significant bits, exponents from -1022 (below it the spacing stays
    [2 ** -1074]) to 1023, and an infinity from [2 ** 1024] on. *)
Definition binary64 (q : Q) : pyfloat :=
  let a := Qabs q in
  if Qeq_bool a 0 then Fin 0
  else
    let e := Z.max (floor_log2 a) (-1022) in
    let quantum := pow2 (e - 52) in
    let r := Qred (inject_Z (nearest_even (a / quantum)) * quantum) in
    if Qle_bool (pow2 1024) r
    then (if Qle_bool 0 q then PosInf else NegInf)
    else Fin (if Qle_bool 0 q then r else Qred (- r)).

(** [float(s)] on a string: C white space is stripped, then
    [[sign] (floatnumber | "inf" | "infinity" | "nan")], letters in either
    case.  The decimal value is rounded to binary64. *)
Definition float (s : string) : result pyfloat :=
  let (neg, body) := sign_of (strip_c s) in
  let low := lower body in
  if String.eqb low "inf" || String.eqb low "infinity"
  then Return (if neg then NegInf else PosInf)
  else if String.eqb low "nan" then Return NaN
  else
    match number body with
    | Some (ip, fp, fn, rest) =>
        match exponent rest with
        | Some (e, EmptyString) =>
            let m := ((inject_Z ip + inject_Z fp * pow10 (- fn)) * pow10 e)%Q in
            Return (binary64 (if neg then - m else m)%Q)
        | _ => Raise ValueError
        end
    | None => Raise ValueError
    end.

(** Truncation toward zero of a rational. *)
Definition trunc (q : Q) : Z := Z.quot (Qnum q) (Z.pos (Qden q)).

(** [int(x)] on a float. *)
Definition int (x : pyfloat) : result Z :=
  match x with
  | Fin q => Return (trunc q)
  | PosInf | NegInf => Raise OverflowError
  | NaN => Raise ValueError
  end.

End Py.

(** ** Insertion-ordered dictionaries *)

Section Dict.
Context {K V : Type} (eqb : K -> K -> bool).

Fixpoint dict_get (k : K) (d : list (K * V)) : option V :=
  match d with
  | [] => None
  | (k', v) :: d' => if eqb k' k then Some v else dict_get k d'
  end.

(** [d[k] = v]: a key already present keeps its place. *)
Fixpoint dict_set (k : K) (v : V) (d : list (K * V)) : list (K * V) :=
  match d with
  | [] => [(k, v)]
  | (k', v') :: d' =>
      if eqb k' k then (k', v) :: d' else (k', v') :: dict_set k v d'
  end.

Definition dict_keys (d : list (K * V)) : list K := map fst d.
Definition dict_values (d : list (K * V)) : list V := map snd d.
End Dict.

(** ScoreTable: chain identifier to (residue index to score). *)
Definition ScoreTable (V : Type) : Type := list (string * list (Z * V)).

(** A [defaultdict(dict)] read at a missing chain gives an empty mapping. *)
Definition chain_scores {V} (d : ScoreTable V) (chain : string) : list (Z * V) :=
  match dict_get String.eqb chain d with
  | Some rd => rd
  | None => []
  end.

(** ** [read_generic_data] *)

Record reader_state : Type := mkReader {
  rawscore_dict : ScoreTable Py.pyfloat;
  linecounter : Z;
  foundscores : Z;
  columnmax : Z
}.

Section Reader.
Variables (delimiter : string) (scorecolumn sitecolumn : Z)
          (chaincolumn : option Z) (defaultchain : string).

(** The part of the loop body after the site has been read. *)
Definition store_row (lsplits : list string) (st : reader_state) (site : Z)
  : M reader_state :=
  scoretext <- lift (Py.index lsplits scorecolumn) ;;
  score <- lift (Py.float scoretext) ;;
  chain <- match chaincolumn with
           | Some c => lift (Py.index lsplits c)
           | None => ret defaultchain
           end ;;
  let rd := chain_scores (rawscore_dict st) chain in
  ret (mkReader
         (dict_set String.eqb chain (dict_set Z.eqb site score rd)
                   (rawscore_dict st))
         (linecounter st) (foundscores st + 1) (columnmax st)).

(** One iteration of [for line in open(datafile, 'r')]. *)
Definition read_line (st : reader_state) (rawline : string) : M reader_state :=
  let line := Py.strip rawline in
  match line with
  | EmptyString => ret st
  | String c _ =>
      if Ascii.eqb c "#" then ret st
      else
        let st1 := mkReader (rawscore_dict st) (linecounter st + 1)
                            (foundscores st) (columnmax st) in
        lsplits <- lift (Py.split line delimiter) ;;
        let len := Z.of_nat (List.length lsplits) in
        let st2 := mkReader (rawscore_dict st1) (linecounter st1)
                            (foundscores st1)
                            (if columnmax st1 <? len then len else columnmax st1) in
        sitecol <- lift (Py.index lsplits sitecolumn) ;;
        checked <- try_except_ValueError
                     (x <- lift (Py.float sitecol) ;;
                      site <- lift (Py.int x) ;;
                      ret (Some site))
                     (ret None) ;;
        match checked with
        | None => ret st2
        | Some site => store_row lsplits st2 site
        end
  end.

Fixpoint read_lines (st : reader_state) (lines : list string) : M reader_state :=
  match lines with
  | [] => ret st
  | line :: rest => st' <- read_line st line ;; read_lines st' rest
  end.

Definition read_generic_data (lines : list string) : M (ScoreTable Py.pyfloat) :=
  stderr_write (MsgReadingScores scorecolumn delimiter) ;;
  st <- read_lines (mkReader [] 0 0 0) lines ;;
  stderr_write (MsgCounted (linecounter st) (foundscores st)) ;;
  when ((foundscores st =? 0) && (columnmax st <? 2))
       (stderr_write WarnNoScores) ;;
  ret (rawscore_dict st).
End Reader.

(** ** numpy functions used by the script *)

Module Np.

Definition Qltb (x y : Q) : bool := negb (Qle_bool y x).

(** [floor(log10(x))] for [1 <= x]: how often [x] can be divided by ten
    before it drops below ten. *)
Fixpoint log10_up (fuel : nat) (x : Q) : Z :=
  match fuel with
  | O => 0
  | S f => if Qle_bool (10 # 1) x then log10_up f (x / (10 # 1)) + 1 else 0
  end.

(** [floor(log10(x))] for [0 < x < 1]: minus the number of times [x] must be
    multiplied by ten to reach one. *)
Fixpoint log10_down (fuel : nat) (x : Q) : Z :=
  match fuel with
  | O => 0
  | S f => if Qle_bool 1 x then 0 else log10_down f (x * (10 # 1)) - 1
  end.

(** [floor(log10(x))] for [0 < x]; the number of binary digits of the
    numerator (of the denominator) bounds the number of steps. *)
Definition floor_log10 (x : Q) : Z :=
  if Qle_bool 1 x
  then log10_up (Pos.size_nat (Z.to_pos (Qnum x))) x
  else log10_down (S (Pos.size_nat (Qden x))) x.

(** [int(numpy.floor(numpy.log10(x)))]: [log10] is [-inf] at zero and NaN
    below, and [int] refuses both. *)
Definition int_floor_log10 (x : Q) : result Z :=
  if Qeq_bool x 0 then Raise OverflowError
  else if Qltb x 0 then Raise ValueError
  else Return (floor_log10 x).

(** [numpy.rint]: to the nearest integer, halves to the even one. *)
Definition rint (x : Q) : Z :=
  let f := Qfloor x in
  match (x - inject_Z f ?= 1 # 2)%Q with
  | Lt => f
  | Gt => f + 1
  | Eq => if Z.even f then f else f + 1
  end.

(** [numpy.around(x, decimals)] for [0 <= decimals]. *)
Definition around (decimals : Z) (x : Q) : Q :=
  (inject_Z (rint (x * Py.pow10 decimals)) / Py.pow10 decimals)%Q.

(** [numpy.arange(start, stop, step).tolist()]: [ceil((stop - start) / step)]
    values [start + i * step]; a zero step has no length. *)
Definition ramp (start step : Q) (n : nat) : list Q :=
  map (fun i => (start + inject_Z (Z.of_nat i) * step)%Q) (seq 0 n).

Definition arange (start stop step : Q) : result (list Q) :=
  if Qeq_bool step 0 then Raise ValueError
  else Return (ramp start step (Z.to_nat (Qceiling ((stop - start) / step)))).

Fixpoint insert_sorted (x : Q) (l : list Q) : list Q :=
  match l with
  | [] => [x]
  | y :: l' => if Qle_bool x y then x :: l else y :: insert_sorted x l'
  end.

Definition sort (l : list Q) : list Q := fold_right insert_sorted [] l.

(** [numpy.median] of a non-empty list (on the empty list numpy gives NaN;
    the script has raised in [min] before it gets there). *)
Definition median (l : list Q) : Q :=
  let s := sort l in
  let n := List.length s in
  if Nat.even n
  then ((nth (n / 2 - 1) s 0 + nth (n / 2) s 0) / (2 # 1))%Q
  else nth (n / 2) s 0%Q.

End Np.

(** [min(l)] and [max(l)]: the first smallest (largest) element. *)
Definition py_min (l : list Q) : result Q :=
  match l with
  | [] => Raise ValueError
  | x :: l' => Return (fold_left (fun m y => if Np.Qltb y m then y else m) l' x)
  end.

Definition py_max (l : list Q) : result Q :=
  match l with
  | [] => Raise ValueError
  | x :: l' => Return (fold_left (fun m y => if Np.Qltb m y then y else m) l' x)
  end.

(** ** Colour schemes *)

Local Open Scope Q_scope.

Definition colors : list (string * list (list Q)) :=
  [ ("red",
     [ [0.63; 0.63; 0.63]; [0.73; 0.55; 0.55]; [0.75; 0.47; 0.47];
       [0.77; 0.38; 0.38]; [0.79; 0.29; 0.29]; [0.82; 0.21; 0.21];
       [0.84; 0.13; 0.13]; [0.88; 0; 0]; [1; 0; 0.55] ]);
    ("yellow",
     [ [0.63; 0.63; 0.63]; [0.66; 0.67; 0.51]; [0.68; 0.71; 0.43];
       [0.70; 0.73; 0.36]; [0.72; 0.76; 0.28]; [0.74; 0.80; 0.20];
       [0.76; 0.83; 0.12]; [0.79; 0.87; 0.00]; [1; 0.8; 0.16] ]);
    ("blue",
     [ [0.63; 0.63; 0.63]; [0.50; 0.58; 0.68]; [0.42; 0.55; 0.71];
       [0.35; 0.52; 0.73]; [0.28; 0.49; 0.76]; [0.20; 0.46; 0.80];
       [0.12; 0.43; 0.83]; [0.00; 0.38; 0.87]; [0.6; 0; 1] ]);
    ("green",
     [ [0.63; 0.63; 0.63]; [0.50; 0.68; 0.56]; [0.42; 0.71; 0.53];
       [0.35; 0.74; 0.49]; [0.26; 0.77; 0.44]; [0.19; 0.80; 0.41];
       [0.12; 0.83; 0.37]; [0.01; 0.87; 0.31]; [0; 1; 0.83] ]);
    ("div1w",
     [ [0.55; 0.32; 0.04]; [0.75; 0.51; 0.18]; [0.87; 0.76; 0.49];
       [0.96; 0.91; 0.76]; [0.96; 0.96; 0.96]; [0.78; 0.92; 0.90];
       [0.50; 0.80; 0.76]; [0.21; 0.59; 0.56]; [0.00; 0.40; 0.37] ]);
    ("div1b",
     [ [0.87; 0.76; 0.49]; [0.75; 0.51; 0.18]; [0.55; 0.32; 0.04];
       [0.33; 0.19; 0.02]; [0.24; 0.24; 0.24]; [0.00; 0.40; 0.37];
       [0.21; 0.59; 0.56]; [0.50; 0.80; 0.76]; [0.78; 0.92; 0.90] ]);
    ("div2w",
     [ [0.70; 0.09; 0.17]; [0.84; 0.38; 0.30]; [0.96; 0.65; 0.51];
       [0.99; 0.86; 0.78]; [0.97; 0.97; 0.97]; [0.82; 0.90; 0.94];
       [0.57; 0.77; 0.87]; [0.26; 0.58; 0.76]; [0.13; 0.40; 0.67] ]);
    ("div2b",
     [ [0.96; 0.65; 0.51]; [0.84; 0.38; 0.30]; [0.70; 0.09; 0.17];
       [0.40; 0.00; 0.12]; [0.24; 0.24; 0.24]; [0.02; 0.19; 0.38];
       [0.13; 0.40; 0.67]; [0.26; 0.58; 0.76]; [0.57; 0.77; 0.87] ]) ].

Definition insuf_color : list Q := [0.75; 0.75; 0.58].

Local Close Scope Q_scope.

(** ** [make_output_script] *)

(** What the first half of the function leaves behind for the second: the
    local variables [binvalues] and [defaultindex] ([None] while unbound) and
    the naming factor. *)
Record binning : Type := mkBinning {
  binvalues : option (list Q);
  defaultindex : option Z;
  magnitude : Z;
  binname_correction : Q
}.

(** [list(itertools.chain(list(rd.values()) for rd in scoredict.values()))[0]]:
    [chain] receives one iterable, the generator, and yields its items, the
    per-chain lists. *)
Definition all_scores_of (scoredict : ScoreTable Q) : result (list Q) :=
  Py.index (map (fun rd => dict_values rd) (dict_values scoredict)) 0.

Section Binner.
Variables (exclude_common : bool) (default_chain_grp : option Z)
          (reverse_colors : bool) (ZEROOVERRIDE : Q).

(** [if default_chain_grp is None: defaultindex = k]. *)
Definition default_unless_overridden (current : option Z) (k : Z) : option Z :=
  match default_chain_grp with
  | None => Some k
  | Some _ => current
  end.

(** Lines 173 to 235: the bin values from the data. *)
Definition derive_bins (all_scores : list Q) : M binning :=
  stderr_write MsgGeneratingBins ;;
  lowest_val <- lift (py_min all_scores) ;;
  highest_val <- lift (py_max all_scores) ;;
  let val_range := (highest_val - lowest_val)%Q in
  magnitude <- lift (Np.int_floor_log10 val_range) ;;
  let decimals := Z.abs (Z.min magnitude 0) in
  let round_lo := Np.around decimals lowest_val in
  let round_hi := Np.around decimals highest_val in
  let rounded_diff := (round_hi - round_lo)%Q in
  let median_val := Np.median all_scores in
  stderr_write (MsgDataRange lowest_val highest_val val_range median_val) ;;
  defaultindex <- match default_chain_grp with
                  | Some g => stderr_write (MsgDefaultOverride g) ;; ret (Some g)
                  | None => ret None
                  end ;;
  let round_correction := Py.pow10 magnitude in
  round_lo <- (if Np.Qltb lowest_val round_lo
               then stderr_write (MsgCorrectingLower round_lo
                                    (round_lo - round_correction)%Q) ;;
                    ret (round_lo - round_correction)%Q
               else ret round_lo) ;;
  magnitude <- (if Np.Qltb 1 val_range && Np.Qltb val_range (8 # 1)
                then stderr_write (MsgAdjustDecimals (magnitude - 1)) ;;
                     ret (magnitude - 1)
                else ret magnitude) ;;
  let binname_correction := ((10 # 1) / Py.pow10 magnitude)%Q in
  if Qle_bool 0 lowest_val then
    stderr_write MsgSequential ;;
    let last_bin := (round_hi + round_correction)%Q in
    let rounded_step := (rounded_diff / (8 # 1))%Q in
    steps <- lift (Np.arange round_lo (round_hi + rounded_step)%Q rounded_step) ;;
    let binvalues := steps ++ [last_bin] in
    second <- lift (Py.index binvalues 1) ;;
    when (Np.Qltb median_val second && negb exclude_common)
         (stderr_write (MsgMedianLow median_val)) ;;
    ret (mkBinning (Some binvalues) (default_unless_overridden defaultindex 0)
                   magnitude binname_correction)
  else if Np.Qltb lowest_val 0 && Np.Qltb 0 highest_val then
    stderr_write MsgDiverging ;;
    let low_step := Qabs (round_lo / (4 # 1)) in
    low_set <- lift (Np.arange round_lo
                       (ZEROOVERRIDE + round_correction / (10 # 1))%Q low_step) ;;
    let high_step := (round_hi / (4 # 1))%Q in
    high_set <- lift (Np.arange (ZEROOVERRIDE + round_correction / (10 # 1))%Q
                        (round_hi + high_step)%Q high_step) ;;
    ret (mkBinning (Some (low_set ++ high_set))
                   (default_unless_overridden defaultindex 4)
                   magnitude binname_correction)
  else if Qle_bool highest_val 0 then
    stderr_write (if reverse_colors then MsgAllNegative else MsgAllNegativeAdvice) ;;
    ret (mkBinning None (default_unless_overridden defaultindex 8)
                   magnitude binname_correction)
  else
    ret (mkBinning None defaultindex magnitude binname_correction).

(** Reading a local variable that may not have been assigned. *)
Definition local {A} (v : option A) : M A :=
  match v with
  | Some a => ret a
  | None => raise UnboundLocalError
  end.

(** [int(value * binname_correction)]. *)
Definition scaled (correction value : Q) : Z := Py.trunc (value * correction).

(** Lines 251 to 253: one colour definition per palette entry. *)
Fixpoint emit_colors (basecolor : string) (binvalues : list Q) (correction : Q)
         (i : Z) (targetcolors : list (list Q)) : M unit :=
  match targetcolors with
  | [] => ret tt
  | rgb :: rest =>
      value <- lift (Py.index binvalues i) ;;
      wayout_write (SetColor basecolor (scaled correction value) rgb) ;;
      emit_colors basecolor binvalues correction (i + 1) rest
  end.

(** Lines 262 to 266: the first [(i, value)] of [enumerate(binvalues[:-1])]
    with [residuescore < binvalues[i+1]], if the loop reaches its [break]. *)
Fixpoint find_bin (i : Z) (binvalues : list Q) (residuescore : Q)
  : option (Z * Q) :=
  match binvalues with
  | value :: ((upper :: _) as rest) =>
      if Np.Qltb residuescore upper then Some (i, value)
      else find_bin (i + 1) rest residuescore
  | _ => None
  end.

(** [scoregroups[value].append(x)] on a [defaultdict(list)]. *)
Definition group_append (value : Q) (x : Z) (scoregroups : list (Q * list Z))
  : list (Q * list Z) :=
  match dict_get Qeq_bool value scoregroups with
  | Some l => dict_set Qeq_bool value (l ++ [x]) scoregroups
  | None => dict_set Qeq_bool value [x] scoregroups
  end.

Definition group_get (value : Q) (scoregroups : list (Q * list Z)) : list Z :=
  match dict_get Qeq_bool value scoregroups with
  | Some l => l
  | None => []
  end.

(** Lines 260 to 266: every residue of the chain, in the order of the
    mapping, goes to the bin [find_bin] gives, or to none. *)
Definition assign_residue (binvalues : list Q) (rd : list (Z * Q)) (chainoffset : Z)
           (scoregroups : list (Q * list Z)) (residue : Z) : list (Q * list Z) :=
  let residuescore := match dict_get Z.eqb residue rd with
                      | Some s => s
                      | None => 0%Q
                      end in
  match find_bin 0 binvalues residuescore with
  | Some (_, value) => group_append value (residue - chainoffset) scoregroups
  | None => scoregroups
  end.

Definition assign_chain (binvalues : list Q) (rd : list (Z * Q)) (chainoffset : Z)
  : list (Q * list Z) :=
  fold_left (assign_residue binvalues rd chainoffset) (dict_keys rd) [].

(** Lines 271 to 279: the selections of one chain. *)
Fixpoint emit_bins (basecolor groupname chain : string) (correction : Q)
         (defaultindex : Z) (scoregroups : list (Q * list Z))
         (i : Z) (lowers : list Q) : M unit :=
  match lowers with
  | [] => ret tt
  | value :: rest =>
      (if (i =? defaultindex) && exclude_common then ret tt
       else
         match group_get value scoregroups with
         | [] => ret tt
         | resilist =>
             wayout_write (Select (scaled correction value) groupname (i + 1)
                                  chain resilist) ;;
             wayout_write (ColorSelection basecolor (scaled correction value)
                                          groupname (i + 1) chain)
         end) ;;
      emit_bins basecolor groupname chain correction defaultindex scoregroups
                (i + 1) rest
  end.

(** Lines 256 to 279: one chain. *)
Definition emit_chain (scoredict : ScoreTable Q) (refoffsets : list (string * Z))
           (basecolor groupname : string) (b : binning) (binvalues : list Q)
           (chain : string) : M unit :=
  let chainoffset := match dict_get String.eqb chain refoffsets with
                     | Some o => o
                     | None => 0
                     end in
  let scoregroups := assign_chain binvalues (chain_scores scoredict chain)
                                  chainoffset in
  defaultindex <- local (defaultindex b) ;;
  value <- lift (Py.index binvalues defaultindex) ;;
  wayout_write (ColorChain basecolor (scaled (binname_correction b) value) chain) ;;
  emit_bins basecolor groupname chain (binname_correction b) defaultindex
            scoregroups 0 (Py.init binvalues).

Fixpoint emit_chains (scoredict : ScoreTable Q) (refoffsets : list (string * Z))
         (basecolor groupname : string) (b : binning) (binvalues : list Q)
         (chains : list string) : M unit :=
  match chains with
  | [] => ret tt
  | chain :: rest =>
      emit_chain scoredict refoffsets basecolor groupname b binvalues chain ;;
      emit_chains scoredict refoffsets basecolor groupname b binvalues rest
  end.

(** The whole function; [keepchains] is the key list of the dictionary of
    that name. *)
Definition make_output_script (scoredict : ScoreTable Q) (keepchains : list string)
           (refoffsets : list (string * Z)) (groupname basecolor : string)
  : M unit :=
  all_scores <- lift (all_scores_of scoredict) ;;
  b <- derive_bins all_scores ;;
  binvalues <- local (binvalues b) ;;
  stderr_write (MsgGeneratingScript basecolor binvalues) ;;
  wayout_write HideEverything ;;
  wayout_write ShowCartoon ;;
  wayout_write (SetColorDefault insuf_color) ;;
  wayout_write ColorDefaultAll ;;
  targetcolors <- match dict_get String.eqb basecolor colors with
                  | Some c => ret c
                  | None => raise KeyError
                  end ;;
  let targetcolors := if reverse_colors then rev targetcolors else targetcolors in
  emit_colors basecolor binvalues (binname_correction b) 0 targetcolors ;;
  emit_chains scoredict refoffsets basecolor groupname b binvalues keepchains.
End Binner.

(** ** Vocabulary of the properties *)

(** The score collection of the specification: the scores of every chain,
    flattened. *)
Definition score_collection (scoredict : ScoreTable Q) : list Q :=
  List.concat (map (fun rd => dict_values rd) (dict_values scoredict)).

(** The palette names the help text of [--base-color] lists. *)
Definition palette_names : list string :=
  ["red"; "yellow"; "blue"; "green"; "div1w"; "div1b"; "div2w"; "div2b"].

(** The four directives written before the palette is looked up. *)
Definition preamble : list directive :=
  [HideEverything; ShowCartoon; SetColorDefault insuf_color; ColorDefaultAll].

(** A value rounded as line 179 rounds the two ends of the range [lo, hi]. *)
Definition rounded (lo hi x : Q) : Q :=
  Np.around (Z.abs (Z.min (Np.floor_log10 (hi - lo)) 0)) x.

(** The fields of a data row: a line that is neither blank nor a comment,
    split at the delimiter. *)
Definition row_fields (delimiter rawline : string) : option (list string) :=
  match Py.strip rawline with
  | EmptyString => None
  | String c rest =>
      if Ascii.eqb c "#" then None
      else match Py.split (String c rest) delimiter with
           | Return lsplits => Some lsplits
           | Raise _ => None
           end
  end.

(** The reader's state once the counters of a data row have been updated
    (lines 67 to 70), before its site is looked at. *)
Definition counted (st : reader_state) (lsplits : list string) : reader_state :=
  mkReader (rawscore_dict st) (linecounter st + 1) (foundscores st)
           (if columnmax st <? Z.of_nat (List.length lsplits)
            then Z.of_nat (List.length lsplits) else columnmax st).

(** [int(float(sitecol))]. *)
Definition int_of_site (sitecol : string) : result Z :=
  match Py.float sitecol with
  | Return x => Py.int x
  | Raise e => Raise e
  end.

(** What a run of the reading loop leaves of interest to its caller: the
    table and the number of scores, or the exception. *)
Definition outcome (r : world * result reader_state)
  : result (ScoreTable Py.pyfloat * Z) :=
  match snd r with
  | Return st => Return (rawscore_dict st, foundscores st)
  | Raise e => Raise e
  end.

(** The chain a directive is about. *)
Definition directive_chain (d : directive) : option string :=
  match d with
  | ColorChain _ _ chain => Some chain
  | Select _ _ _ chain _ => Some chain
  | ColorSelection _ _ _ _ chain => Some chain
  | _ => None
  end.

Definition chain_directives (chain : string) (out : list directive)
  : list directive :=
  filter (fun d => match directive_chain d with
                   | Some c => String.eqb c chain
                   | None => false
                   end) out.

(** ** Inputs of the worked examples; every score is a small dyadic
    rational, so the script computes on them without rounding. *)

Definition one_chain : ScoreTable Q := [("A", [(1, 0%Q); (2, 8%Q)])].

Definition two_chains : ScoreTable Q :=
  [("A", [(1, 0%Q); (2, 8%Q)]); ("B", [(1, 100%Q)])].

Definition spanning_chain : ScoreTable Q := [("A", [(1, (-10)%Q); (2, 4%Q)])].

Definition negative_chain : ScoreTable Q :=
  [("A", [(1, (-10)%Q); (2, (-4)%Q)])].


Definition header_file : list string := ["site,score"; "1,0.5"].

Definition nan_file : list string := ["nan,0.5"; "2,0.25"].

Definition mixed_sign_chains : ScoreTable Q :=
  [("A", [(1, 1%Q); (2, 2%Q)]); ("B", [(1, (-5)%Q)])].

Definition low_second_chain : ScoreTable Q :=
  [("A", [(1, 5%Q); (2, 8%Q)]); ("B", [(1, 1%Q)])].

(** ** [get_chains_only] *)

(** More built-ins: the ones the chain reader applies to the lines of the
    structure file. *)
Module PyText.

(** [s[a:b]] for [0 <= a <= b]: short strings give short slices. *)
Definition slice (a b : nat) (s : string) : string :=
  String.substring a (b - a) s.

(** [s[i]] for [0 <= i], a string of one character. *)
Definition char_at (i : nat) (s : string) : result string :=
  match String.get i s with
  | Some c => Return (String c EmptyString)
  | None => Raise IndexError
  end.

(** [s.find(sub) > -1]: [sub] occurs in [s]. *)
Fixpoint contains (sub s : string) : bool :=
  if String.prefix sub s then true
  else match s with
       | String _ s' => contains sub s'
       | EmptyString => false
       end.

(** [int(s)] on a string, base ten: C white space is stripped, then
    [[sign] digitpart]. *)
Definition int (s : string) : result Z :=
  let (neg, body) := Py.sign_of (Py.strip_c s) in
  match Py.digitpart body with
  | Some (v, _, EmptyString) => Return (if neg then - v else v)
  | _ => Raise ValueError
  end.

End PyText.

Module Pdb.

(** [for seqid in seqidlist] raises [TypeError] when [--sequence] was not
    given and [seqidlist] is [None]; the built-ins raise the other
    exceptions. *)
Inductive pdb_exn : Type :=
| TypeError
| Builtin (e : exn).

(** The lines the function writes to [sys.stderr]. *)
Inductive chain_message : Type :=
| MsgReadingChain
| MsgKeepingChain (chain proteinid : string) (chainoffset : Z)
| MsgUsingDefault (chain : string).

(** The local variables: the two dictionaries, [defaultchain] (a string, or
    [None] once it has been set to [False]), and what was written. *)
Record state : Type := mkState {
  keepchains : list (string * string);
  refoffsets : list (string * Z);
  defaultchain : option string;
  chainlog : list chain_message
}.

(** Where the function stands: still running or returned, or stopped by an
    exception. *)
Inductive run : Type :=
| Done (st : state)
| Failed (e : pdb_exn) (st : state).

Definition and_then (r : run) (k : state -> run) : run :=
  match r with
  | Done st => k st
  | Failed e st => Failed e st
  end.

(** Lines 102 to 108: the body of [if seqid.find(proteinid) > -1]. *)
Definition keep_chain (line proteinid : string) (st : state) : run :=
  match PyText.char_at 12 line with
  | Raise e => Failed (Builtin e) st
  | Return chaintarget =>
      match PyText.int (Py.strip (PyText.slice 14 18 line)) with
      | Raise e => Failed (Builtin e) st
      | Return chainstart =>
          match PyText.int (Py.strip (PyText.slice 55 60 line)) with
          | Raise e => Failed (Builtin e) st
          | Return dbstart =>
              let chainoffset := dbstart - chainstart in
              Done (mkState
                      (dict_set String.eqb chaintarget proteinid (keepchains st))
                      (dict_set String.eqb chaintarget chainoffset (refoffsets st))
                      (defaultchain st)
                      (chainlog st
                       ++ [MsgKeepingChain chaintarget proteinid chainoffset]))
          end
      end
  end.

(** Lines 100 to 108: [for seqid in seqidlist], over a list. *)
Fixpoint each_seqid (line proteinid : string) (seqids : list string)
         (st : state) : run :=
  match seqids with
  | [] => Done st
  | seqid :: rest =>
      and_then (if PyText.contains proteinid seqid
                then keep_chain line proteinid st
                else Done st)
               (each_seqid line proteinid rest)
  end.

(** Lines 95 to 108: one line of the file. *)
Definition read_record (seqidlist : option (list string)) (st : state)
           (line : string) : run :=
  let record := Py.strip (PyText.slice 0 6 line) in
  if String.eqb record "DBREF" then
    let st := mkState (keepchains st) (refoffsets st) None (chainlog st) in
    let proteinid := Py.strip (PyText.slice 42 56 line) in
    match seqidlist with
    | None => Failed TypeError st
    | Some seqids => each_seqid line proteinid seqids st
    end
  else Done st.

Fixpoint read_records (seqidlist : option (list string)) (st : state)
         (lines : list string) : run :=
  match lines with
  | [] => Done st
  | line :: rest =>
      and_then (read_record seqidlist st line) (fun st' =>
      read_records seqidlist st' rest)
  end.

(** Lines 109 to 115: [if defaultchain:], true of a non-empty string. *)
Definition use_default (seqidlist : option (list string)) (st : state) : state :=
  match defaultchain st with
  | None | Some EmptyString => st
  | Some chain =>
      let seqid := match seqidlist with
                   | Some (first :: _) => first
                   | _ => "UNKNOWN"
                   end in
      mkState (dict_set String.eqb chain seqid (keepchains st))
              (dict_set String.eqb chain 0 (refoffsets st))
              (defaultchain st)
              (chainlog st ++ [MsgUsingDefault chain])
  end.

(** The whole function, on the lines of the structure file; a [Done] state
    holds the two dictionaries it returns. *)
Definition get_chains_only (defaultchain : string)
           (seqidlist : option (list string)) (lines : list string) : run :=
  and_then (read_records seqidlist
              (mkState [] [] (Some defaultchain) [MsgReadingChain]) lines)
           (fun st => Done (use_default seqidlist st)).

End Pdb.

(** ** Vocabulary of the further properties *)

(** [d[chain][site]], when both keys are present. *)
Definition lookup_score {V} (d : ScoreTable V) (chain : string) (site : Z)
  : option V :=
  dict_get Z.eqb site (chain_scores d chain).

(** The number of scores a table holds. *)
Definition table_size {V} (d : ScoreTable V) : nat :=
  List.length (List.concat (map (fun entry => snd entry) d)).

(** A table as a Python dictionary of dictionaries can be: no key twice. *)
Definition unique_keys {V} (d : ScoreTable V) : Prop :=
  NoDup (dict_keys d) /\
  Forall (fun entry => NoDup (dict_keys (snd entry))) d.

(** Lines 65 and 66: the lines the reader passes over. *)
Definition ignored_line (rawline : string) : bool :=
  match Py.strip rawline with
  | EmptyString => true
  | String c _ => Ascii.eqb c "#"
  end.

(** The chain of a row: column [chaincolumn], or the default chain. *)
Definition row_chain (chaincolumn : option Z) (defaultchain : string)
           (lsplits : list string) : result string :=
  match chaincolumn with
  | Some c => Py.index lsplits c
  | None => Return defaultchain
  end.

(** [refoffsets.get(chain, 0)]. *)
Definition chain_offset (refoffsets : list (string * Z)) (chain : string) : Z :=
  match dict_get String.eqb chain refoffsets with
  | Some o => o
  | None => 0
  end.

(** The record name of a line of the structure file (line 95). *)
Definition is_dbref (line : string) : bool :=
  String.eqb (Py.strip (PyText.slice 0 6 line)) "DBREF".

Definition is_set_color (d : directive) : bool :=
  match d with
  | SetColor _ _ _ => true
  | _ => false
  end.

Definition set_color_rgb (d : directive) : list Q :=
  match d with
  | SetColor _ _ rgb => rgb
  | _ => []
  end.

(** The chains the [color ..., chain ...] directives of an output name, in
    order. *)
Fixpoint colored_chains (out : list directive) : list string :=
  match out with
  | [] => []
  | ColorChain _ _ chain :: rest => chain :: colored_chains rest
  | _ :: rest => colored_chains rest
  end.

(** The lines of the file that are neither blank nor comments. *)
Definition data_lines (lines : list string) : list string :=
  filter (fun rawline => negb (ignored_line rawline)) lines.

(** What the reading loop keeps true of its state between two lines: the
    counters are in order, the table holds no more scores than were counted,
    no key occurs twice, no chain is empty, and the table is empty exactly
    as long as no score has been counted. *)
Definition reader_invariant (st : reader_state) : Prop :=
  0 <= foundscores st <= linecounter st /\
  Z.of_nat (table_size (rawscore_dict st)) <= foundscores st /\
  unique_keys (rawscore_dict st) /\
  Forall (fun entry => snd entry <> []) (rawscore_dict st) /\
  (foundscores st = 0 <-> rawscore_dict st = []).

(** The protein identifier of a record (line 99). *)
Definition dbref_proteinid (line : string) : string :=
  Py.strip (PyText.slice 42 56 line).

(** A chain with its sequence and offset as a [DBREF] line of the file gives
    them for one of the sequence identifiers (lines 99 to 105). *)
Definition from_dbref (seqids lines : list string) (chain proteinid : string)
           (chainoffset : Z) : Prop :=
  exists line seqid chainstart dbstart,
    In line lines /\ is_dbref line = true /\
    In seqid seqids /\
    proteinid = Py.strip (PyText.slice 42 56 line) /\
    PyText.contains proteinid seqid = true /\
    PyText.char_at 12 line = Return chain /\
    PyText.int (Py.strip (PyText.slice 14 18 line)) = Return chainstart /\
    PyText.int (Py.strip (PyText.slice 55 60 line)) = Return dbstart /\
    chainoffset = dbstart - chainstart.

(** What the loop over the lines keeps true of the two dictionaries and of
    what was written. *)
Definition chains_invariant (seqids lines : list string) (st : Pdb.state) : Prop :=
  dict_keys (Pdb.keepchains st) = dict_keys (Pdb.refoffsets st) /\
  (forall chain proteinid,
      In (chain, proteinid) (Pdb.keepchains st) ->
      exists chainoffset, from_dbref seqids lines chain proteinid chainoffset) /\
  (forall chain chainoffset,
      In (chain, chainoffset) (Pdb.refoffsets st) ->
      exists proteinid, from_dbref seqids lines chain proteinid chainoffset) /\
  (forall chain, ~ In (Pdb.MsgUsingDefault chain) (Pdb.chainlog st)).

(** The [DBREF] record of the structure 1FD3. *)
Definition dbref_1fd3 : string :=
  "DBREF  1FD3 A    1    41  UNP    O15263   BD02_HUMAN      24     64".

(** Whether the scan of lines 262 to 266 puts a residue into the group of
    [value]. *)
Definition lands_in (binvalues : list Q) (rd : list (Z * Q)) (value : Q)
           (residue : Z) : bool :=
  match find_bin 0 binvalues (match dict_get Z.eqb residue rd with
                              | Some s => s
                              | None => 0%Q
                              end) with
  | Some (_, v) => Qeq_bool v value
  | None => false
  end.

(** The residues of a chain that land in the group of [value], in the order
    of the table, numbered as the structure numbers them. *)
Definition bin_residues (binvalues : list Q) (rd : list (Z * Q))
           (chainoffset : Z) (value : Q) : list Z :=
  map (fun residue => residue - chainoffset)
      (filter (lands_in binvalues rd value) (dict_keys rd)).

(** What lines 251 to 253 write: one definition per palette entry that has
    a bin value. *)
Definition color_defs (basecolor : string) (binvalues : list Q) (correction : Q)
           (targetcolors : list (list Q)) : list directive :=
  map (fun p => SetColor basecolor (scaled correction (fst p)) (snd p))
      (combine binvalues targetcolors).

(** What lines 271 to 279 write for one chain. *)
Fixpoint bin_directives (exclude_common : bool) (basecolor groupname chain : string)
         (correction : Q) (defaultindex : Z) (scoregroups : list (Q * list Z))
         (i : Z) (lowers : list Q) : list directive :=
  match lowers with
  | [] => []
  | value :: rest =>
      (if (i =? defaultindex) && exclude_common then []
       else match group_get value scoregroups with
            | [] => []
            | resilist =>
                [Select (scaled correction value) groupname (i + 1) chain resilist;
                 ColorSelection basecolor (scaled correction value) groupname
                                (i + 1) chain]
            end)
      ++ bin_directives exclude_common basecolor groupname chain correction
                        defaultindex scoregroups (i + 1) rest
  end.

(** What lines 256 to 279 write for one chain. *)
Definition chain_block (exclude_common : bool) (scoredict : ScoreTable Q)
           (refoffsets : list (string * Z)) (basecolor groupname : string)
           (correction : Q) (binvalues : list Q) (defaultindex : Z) (value0 : Q)
           (chain : string) : list directive :=
  ColorChain basecolor (scaled correction value0) chain
  :: bin_directives exclude_common basecolor groupname chain correction
       defaultindex
       (assign_chain binvalues (chain_scores scoredict chain)
                     (chain_offset refoffsets chain))
       0 (Py.init binvalues).

(** * Properties *)

(** ** Running the monad *)

(** Unfold the monad's operations, leaving the matches on what each step
    returns. *)
Ltac run_monad :=
  cbv beta delta [bind lift stderr_write wayout_write ret raise when local] in *.

(** One step of a case analysis along a run: split on an innermost scrutinee
    of the goal, or take apart an equation between two runs. *)
Ltac step_run :=
  match goal with
  | H : (_, _) = (_, _) |- _ => inversion H; subst; clear H
  | |- context [match ?x with _ => _ end] =>
      lazymatch x with
      | context [match _ with _ => _ end] => fail
      | _ => destruct x eqn:?; cbv beta iota
      end
  end.

(** ** Comparisons, powers of ten, rounding *)

Local Open Scope Q_scope.

Lemma Qltb_true x y : Np.Qltb x y = true <-> x < y.
Proof.
  unfold Np.Qltb. rewrite negb_true_iff. split.
  - intro H. apply Qnot_le_lt. intro C. apply Qle_bool_iff in C. congruence.
  - intro H. destruct (Qle_bool y x) eqn:E; [ | reflexivity ].
    apply Qle_bool_iff in E. lra.
Qed.

Lemma Qltb_false x y : Np.Qltb x y = false <-> y <= x.
Proof. unfold Np.Qltb. rewrite negb_false_iff. apply Qle_bool_iff. Qed.

Lemma Qle_bool_false x y : Qle_bool x y = false <-> y < x.
Proof.
  split.
  - intro H. apply Qnot_le_lt. intro C. apply Qle_bool_iff in C. congruence.
  - intro H. destruct (Qle_bool x y) eqn:E; [ | reflexivity ].
    apply Qle_bool_iff in E. lra.
Qed.

Lemma pow10_pos m : 0 < Py.pow10 m.
Proof. apply Qpower_0_lt. reflexivity. Qed.

Lemma pow10_succ m : Py.pow10 (m + 1) == Py.pow10 m * (10 # 1).
Proof.
  unfold Py.pow10. rewrite Qpower_plus by (intro H; discriminate H).
  reflexivity.
Qed.

Lemma pow10_pred m : Py.pow10 (m - 1) * (10 # 1) == Py.pow10 m.
Proof.
  rewrite <- pow10_succ. replace (m - 1 + 1)%Z with m by lia. reflexivity.
Qed.

Lemma pow10_ge_1 m : (0 <= m)%Z -> 1 <= Py.pow10 m.
Proof.
  intro H. unfold Py.pow10. apply Qpower_1_le; [ discriminate | exact H ].
Qed.

Lemma pow10_opp m : Py.pow10 (- m) == / Py.pow10 m.
Proof. unfold Py.pow10. apply Qpower_opp. Qed.

(** Dividing by ten [log10_up fuel x] times brings [x] into [1, 10). *)
Lemma log10_up_spec fuel : forall x,
  1 <= x -> x < Py.pow10 (Z.of_nat fuel) ->
  Py.pow10 (Np.log10_up fuel x) <= x /\ x < Py.pow10 (Np.log10_up fuel x + 1).
Proof.
  induction fuel as [| f IH]; intros x H1 Hlt.
  - change (Py.pow10 (Z.of_nat 0)) with 1 in Hlt. lra.
  - cbn [Np.log10_up].
    destruct (Qle_bool (10 # 1) x) eqn:E.
    + apply Qle_bool_iff in E.
      assert (Hx : x / (10 # 1) * (10 # 1) == x) by field.
      rewrite Nat2Z.inj_succ in Hlt. unfold Z.succ in Hlt.
      rewrite pow10_succ in Hlt.
      destruct (IH (x / (10 # 1))) as [Ha Hb].
      * apply Qle_shift_div_l; [ reflexivity | lra ].
      * apply Qlt_shift_div_r; [ reflexivity | lra ].
      * split.
        -- rewrite pow10_succ. lra.
        -- rewrite pow10_succ. rewrite pow10_succ in Hb |- *. lra.
    + apply Qle_bool_false in E. split; [ exact H1 | exact E ].
Qed.

(** Multiplying by ten [- log10_down fuel x] times brings [x] into [1, 10). *)
Lemma log10_down_spec fuel : forall x,
  x < (10 # 1) -> Py.pow10 (- Z.of_nat fuel) <= x ->
  Py.pow10 (Np.log10_down (S fuel) x) <= x /\
  x < Py.pow10 (Np.log10_down (S fuel) x + 1).
Proof.
  induction fuel as [| f IH]; intros x Hlt Hge.
  - change (Py.pow10 (- Z.of_nat 0)) with 1 in Hge.
    cbn [Np.log10_down].
    destruct (Qle_bool 1 x) eqn:E.
    + split; [ exact Hge | exact Hlt ].
    + exfalso. apply Qle_bool_iff in Hge. congruence.
  - change (Np.log10_down (S (S f)) x)
      with (if Qle_bool 1 x then 0%Z
            else (Np.log10_down (S f) (x * (10 # 1)) - 1)%Z).
    destruct (Qle_bool 1 x) eqn:E.
    + apply Qle_bool_iff in E. split; [ exact E | exact Hlt ].
    + apply Qle_bool_false in E.
      assert (Hp : Py.pow10 (- Z.of_nat (S f)) * (10 # 1)
                   == Py.pow10 (- Z.of_nat f)).
      { rewrite <- pow10_succ.
        replace (- Z.of_nat (S f) + 1)%Z with (- Z.of_nat f)%Z by lia.
        reflexivity. }
      destruct (IH (x * (10 # 1))) as [Ha Hb]; [ lra | lra | ].
      split.
      * pose proof (pow10_pred (Np.log10_down (S f) (x * (10 # 1)))) as Hq. lra.
      * replace (Np.log10_down (S f) (x * (10 # 1)) - 1 + 1)%Z
          with (Np.log10_down (S f) (x * (10 # 1))) by lia.
        rewrite pow10_succ in Hb.
        pose proof (pow10_pos (Np.log10_down (S f) (x * (10 # 1)))). lra.
Qed.

Lemma pos_lt_pow10_size p : (Z.pos p < 10 ^ Z.of_nat (Pos.size_nat p))%Z.
Proof.
  induction p as [p IH | p IH |]; cbn [Pos.size_nat].
  - rewrite Nat2Z.inj_succ, Z.pow_succ_r by lia. lia.
  - rewrite Nat2Z.inj_succ, Z.pow_succ_r by lia. lia.
  - reflexivity.
Qed.

Lemma Q_lt_pow10_size p :
  inject_Z (Z.pos p) < Py.pow10 (Z.of_nat (Pos.size_nat p)).
Proof.
  unfold Py.pow10. change (10 # 1) with (inject_Z 10).
  rewrite <- Zpower_Qpower by lia. rewrite <- Zlt_Qlt. apply pos_lt_pow10_size.
Qed.

(** [floor_log10 x] is the decimal order of magnitude of a positive [x]:
    the fuel it starts with is enough. *)
Lemma floor_log10_spec x :
  0 < x ->
  Py.pow10 (Np.floor_log10 x) <= x /\ x < Py.pow10 (Np.floor_log10 x + 1).
Proof.
  intro Hx. unfold Np.floor_log10.
  destruct x as [n d].
  assert (Hn : (0 < n)%Z) by (unfold Qlt in Hx; simpl in Hx; lia).
  destruct n as [| n | n]; try lia.
  destruct (Qle_bool 1 (Z.pos n # d)) eqn:E.
  - apply Qle_bool_iff in E. apply log10_up_spec; [ exact E | ].
    cbn [Qnum Z.to_pos].
    apply Qle_lt_trans with (inject_Z (Z.pos n)); [ | apply Q_lt_pow10_size ].
    unfold Qle, inject_Z; simpl. nia.
  - apply Qle_bool_false in E.
    apply log10_down_spec; [ lra | ].
    cbn [Qden]. rewrite pow10_opp.
    apply Qle_trans with (/ inject_Z (Z.pos d)).
    + pose proof (Q_lt_pow10_size d) as Hs.
      apply Qle_shift_inv_l; [ reflexivity | ].
      setoid_replace (/ Py.pow10 (Z.of_nat (Pos.size_nat d)) * inject_Z (Z.pos d))
        with (inject_Z (Z.pos d) / Py.pow10 (Z.of_nat (Pos.size_nat d)))
        by (unfold Qdiv; ring).
      apply Qle_shift_div_r; [ apply pow10_pos | lra ].
    + unfold Qle, Qinv, inject_Z; simpl. nia.
Qed.


Lemma int_floor_log10_inv x m :
  Np.int_floor_log10 x = Return m -> 0 < x /\ m = Np.floor_log10 x.
Proof.
  unfold Np.int_floor_log10.
  destruct (Qeq_bool x 0) eqn:E; [ discriminate | ].
  destruct (Np.Qltb x 0) eqn:E'; [ discriminate | ].
  intro H. injection H as <-.
  apply Qeq_bool_neq in E. apply Qltb_false in E'.
  split; [ | reflexivity ].
  destruct (Qlt_le_dec 0 x) as [Hp | Hn]; [ exact Hp | ].
  exfalso. apply E. lra.
Qed.

(** [rint] moves a value by at most one half. *)
Lemma rint_near x :
  x - (1 # 2) <= inject_Z (Np.rint x) /\ inject_Z (Np.rint x) <= x + (1 # 2).
Proof.
  unfold Np.rint.
  pose proof (Qfloor_le x) as Hlo. pose proof (Qlt_floor x) as Hhi.
  rewrite inject_Z_plus in Hhi. change (inject_Z 1) with 1 in Hhi.
  destruct (Qcompare_spec (x - inject_Z (Qfloor x)) (1 # 2)) as [E | E | E].
  - destruct (Z.even (Qfloor x));
      [ | rewrite inject_Z_plus; change (inject_Z 1) with 1 ]; lra.
  - lra.
  - rewrite inject_Z_plus; change (inject_Z 1) with 1. lra.
Qed.

Lemma rint_comp x y : x == y -> Np.rint x = Np.rint y.
Proof.
  intro H. unfold Np.rint.
  assert (Hf : Qfloor x = Qfloor y) by (apply Qfloor_comp; exact H).
  rewrite Hf.
  assert (Hc : (x - inject_Z (Qfloor y) ?= 1 # 2)
               = (y - inject_Z (Qfloor y) ?= 1 # 2)).
  { apply Qcompare_comp; [ rewrite H; reflexivity | reflexivity ]. }
  rewrite Hc. reflexivity.
Qed.

Lemma around_comp d x y : x == y -> Np.around d x = Np.around d y.
Proof.
  intro H. unfold Np.around.
  rewrite (rint_comp (x * Py.pow10 d) (y * Py.pow10 d)) by (rewrite H; reflexivity).
  reflexivity.
Qed.

(** [around d] moves a value by at most half a unit of the last decimal. *)
Lemma around_near d x :
  x - (1 # 2) / Py.pow10 d <= Np.around d x /\
  Np.around d x <= x + (1 # 2) / Py.pow10 d.
Proof.
  unfold Np.around. pose proof (pow10_pos d) as Hp.
  destruct (rint_near (x * Py.pow10 d)) as [Ha Hb].
  set (z := inject_Z (Np.rint (x * Py.pow10 d))) in *.
  set (p := Py.pow10 d) in *.
  assert (Hne : ~ p == 0) by (intro C; rewrite C in Hp; discriminate Hp).
  split.
  - apply Qle_shift_div_l; [ exact Hp | ].
    setoid_replace ((x - (1 # 2) / p) * p) with (x * p - (1 # 2))
      by (field; exact Hne).
    exact Ha.
  - apply Qle_shift_div_r; [ exact Hp | ].
    setoid_replace ((x + (1 # 2) / p) * p) with (x * p + (1 # 2))
      by (field; exact Hne).
    exact Hb.
Qed.

(** The unit the ends of the range are rounded to never exceeds the unit
    [10 ** magnitude] of the correction. *)
Lemma rounding_unit_le m : / Py.pow10 (Z.abs (Z.min m 0)) <= Py.pow10 m.
Proof.
  destruct (Z.le_gt_cases 0 m) as [H | H].
  - replace (Z.abs (Z.min m 0)) with 0%Z by lia.
    change (/ Py.pow10 0) with 1. apply pow10_ge_1. exact H.
  - replace (Z.abs (Z.min m 0)) with (- m)%Z by lia.
    rewrite pow10_opp.
    assert (Hne : ~ Py.pow10 m == 0).
    { pose proof (pow10_pos m) as Hp. intro C. rewrite C in Hp. discriminate Hp. }
    rewrite Qinv_involutive. apply Qle_refl.
Qed.

(** ** [min], [max] and indexing *)

Lemma fold_min_spec l : forall x,
  let m := fold_left (fun m y => if Np.Qltb y m then y else m) l x in
  (m <= x /\ Forall (fun y => m <= y) l) /\ In m (x :: l).
Proof.
  induction l as [| y l IH]; intro x; cbn [fold_left].
  - split; [ split; [ apply Qle_refl | constructor ] | left; reflexivity ].
  - destruct (Np.Qltb y x) eqn:E.
    + apply Qltb_true in E. destruct (IH y) as [[Ha Hb] Hc].
      split; [ split; [ lra | constructor; assumption ] | ].
      right. exact Hc.
    + apply Qltb_false in E. destruct (IH x) as [[Ha Hb] Hc].
      split; [ split; [ lra | constructor; [ lra | assumption ] ] | ].
      destruct Hc as [Hc | Hc]; [ left; exact Hc | right; right; exact Hc ].
Qed.


Lemma py_min_spec l lo :
  py_min l = Return lo -> Forall (fun y => lo <= y) l /\ In lo l.
Proof.
  destruct l as [| x l]; [ discriminate | ].
  cbn [py_min]. intro H. injection H as <-.
  destruct (fold_min_spec l x) as [[Ha Hb] Hc].
  split; [ constructor; assumption | exact Hc ].
Qed.




Lemma index_second_inv {A} (l : list A) (x : A) v :
  Py.index (l ++ [x]) 1 = Return v -> (1 <= List.length l)%nat.
Proof.
  destruct l as [| a l]; [ | cbn [List.length]; lia ].
  cbn. discriminate.
Qed.

(** ** [arange] *)

Lemma arange_ramp a b s :
  ~ s == 0 ->
  Np.arange a b s = Return (Np.ramp a s (Z.to_nat (Qceiling ((b - a) / s)))).
Proof.
  intro H. unfold Np.arange.
  destruct (Qeq_bool s 0) eqn:E; [ | reflexivity ].
  apply Qeq_bool_iff in E. contradiction.
Qed.

Lemma arange_inv a b s l :
  Np.arange a b s = Return l ->
  ~ s == 0 /\ l = Np.ramp a s (Z.to_nat (Qceiling ((b - a) / s))).
Proof.
  unfold Np.arange. destruct (Qeq_bool s 0) eqn:E; [ discriminate | ].
  intro H. injection H as <-.
  split; [ apply Qeq_bool_neq; exact E | reflexivity ].
Qed.

Lemma ramp_length a s n : List.length (Np.ramp a s n) = n.
Proof. unfold Np.ramp. rewrite length_map, length_seq. reflexivity. Qed.

Lemma ramp_In a s n y :
  In y (Np.ramp a s n) <->
  exists i, (i < n)%nat /\ y = a + inject_Z (Z.of_nat i) * s.
Proof.
  unfold Np.ramp. rewrite in_map_iff. split.
  - intros [i [<- Hi]]. apply in_seq in Hi. exists i.
    split; [ lia | reflexivity ].
  - intros [i [Hi ->]]. exists i. split; [ reflexivity | apply in_seq; lia ].
Qed.

Lemma ramp_head a s n :
  (1 <= n)%nat -> exists first rest, Np.ramp a s n = first :: rest /\ first == a.
Proof.
  destruct n as [| n]; [ lia | intros _ ].
  unfold Np.ramp. cbn [seq map]. eexists. eexists. split; [ reflexivity | ].
  change (inject_Z (Z.of_nat 0)) with 0. ring.
Qed.

Lemma ramp_from_sorted a s : 0 < s -> forall n k,
  StronglySorted Qlt (map (fun i => a + inject_Z (Z.of_nat i) * s) (seq k n)).
Proof.
  intros Hs n. induction n as [| n IH]; intro k; cbn [seq map].
  - constructor.
  - constructor; [ apply IH | ].
    apply Forall_forall. intros y Hy. apply in_map_iff in Hy.
    destruct Hy as [i [<- Hi]]. apply in_seq in Hi.
    assert (Hk : inject_Z (Z.of_nat k) < inject_Z (Z.of_nat i))
      by (rewrite <- Zlt_Qlt; lia).
    apply (Qmult_lt_compat_r _ _ s Hs) in Hk. lra.
Qed.

Lemma ramp_sorted a s n : 0 < s -> StronglySorted Qlt (Np.ramp a s n).
Proof. intro Hs. apply ramp_from_sorted. exact Hs. Qed.

(** [arange] stops before [stop]. *)
Lemma ramp_below_stop a b s y :
  0 < s -> In y (Np.ramp a s (Z.to_nat (Qceiling ((b - a) / s)))) -> y < b.
Proof.
  intros Hs Hy. apply ramp_In in Hy. destruct Hy as [i [Hi ->]].
  pose proof (Qceiling_lt ((b - a) / s)) as Hc.
  assert (Hi' : inject_Z (Z.of_nat i) <= inject_Z (Qceiling ((b - a) / s) - 1))
    by (rewrite <- Zle_Qle; lia).
  assert (Hlt : inject_Z (Z.of_nat i) < (b - a) / s) by lra.
  apply (Qmult_lt_compat_r _ _ s Hs) in Hlt.
  assert (Hd : (b - a) / s * s == b - a).
  { field. intro C. rewrite C in Hs. discriminate Hs. }
  lra.
Qed.

Lemma sorted_snoc (l : list Q) (x : Q) :
  StronglySorted Qlt l -> Forall (fun y => y < x) l ->
  StronglySorted Qlt (l ++ [x]).
Proof.
  induction 1 as [| y l Hs IH Hy]; intro Hall; cbn [app].
  - constructor; constructor.
  - inversion Hall as [| ? ? Hyx Hrest]; subst.
    constructor; [ apply IH; exact Hrest | ].
    apply Forall_app.
    split; [ exact Hy | constructor; [ exact Hyx | constructor ] ].
Qed.

(** ** The sequential branch (no score is negative) *)

(** The quantities of lines 177 to 206 for a range from [lo] to [hi]. *)
Section SequentialBins.
Variables lo hi : Q.

Let m := Np.floor_log10 (hi - lo).
Let d := Z.abs (Z.min m 0).
Let c := Py.pow10 m.
Let r0 := Np.around d lo.
Let r1 := Np.around d hi.
Let step := (r1 - r0) / (8 # 1).
Let start := if Np.Qltb lo r0 then r0 - c else r0.
Let n := Z.to_nat (Qceiling ((r1 + step - start) / step)).

Hypothesis range_pos : lo < hi.
Hypothesis rounded_pos : r0 < r1.

Lemma correction_pos : 0 < c.
Proof. apply pow10_pos. Qed.

Lemma range_bounds : c <= hi - lo /\ hi - lo < (10 # 1) * c.
Proof.
  destruct (floor_log10_spec (hi - lo)) as [Ha Hb]; [ lra | ].
  fold m in Ha, Hb. rewrite pow10_succ in Hb. fold c in Ha, Hb. lra.
Qed.

Lemma half_unit :
  0 < (1 # 2) / Py.pow10 d /\ (1 # 2) / Py.pow10 d <= (1 # 2) * c.
Proof.
  pose proof (rounding_unit_le m) as H. fold d c in H.
  pose proof (pow10_pos d) as Hp.
  assert (Hi : 0 < / Py.pow10 d) by (apply Qinv_lt_0_compat; exact Hp).
  unfold Qdiv. split; lra.
Qed.

Lemma step_bounds :
  0 < step /\ step * (8 # 1) == r1 - r0 /\ step < (2 # 1) * c.
Proof.
  assert (H8 : step * (8 # 1) == r1 - r0) by (unfold step; field).
  destruct (around_near d lo) as [Ha Hb]. destruct (around_near d hi) as [Hc Hd].
  fold r0 in Ha, Hb. fold r1 in Hc, Hd.
  destruct half_unit as [Hu Hv]. destruct range_bounds as [He Hf].
  pose proof correction_pos.
  repeat split; [ lra | exact H8 | lra ].
Qed.

(** Lines 193 to 195 put the lowest bin value at or below the lowest score. *)
Lemma start_le_lo : start <= lo.
Proof.
  unfold start. destruct (Np.Qltb lo r0) eqn:E.
  - destruct (around_near d lo) as [Ha Hb]. fold r0 in Ha, Hb.
    destruct half_unit as [Hu Hv]. pose proof correction_pos. lra.
  - apply Qltb_false in E. exact E.
Qed.

Lemma count_exact : Np.Qltb lo r0 = false -> n = 9%nat.
Proof.
  intro E. unfold n, start. rewrite E.
  destruct step_bounds as [Hs [H8 _]].
  assert (Hq : (r1 + step - r0) / step == inject_Z 9).
  { apply Qmult_inj_r with step; [ lra | ].
    setoid_replace ((r1 + step - r0) / step * step) with (r1 + step - r0)
      by (field; lra).
    change (inject_Z 9) with (9 # 1). lra. }
  rewrite Hq, Qceiling_Z. reflexivity.
Qed.

Lemma count_more : Np.Qltb lo r0 = true -> (10 <= n)%nat.
Proof.
  intro E. unfold n, start. rewrite E.
  destruct step_bounds as [Hs [H8 _]]. pose proof correction_pos as Hc.
  pose proof (Qle_ceiling ((r1 + step - (r0 - c)) / step)) as Hle.
  assert (Hq : inject_Z 9 < (r1 + step - (r0 - c)) / step).
  { apply Qlt_shift_div_l; [ exact Hs | ]. change (inject_Z 9) with (9 # 1). lra. }
  assert (Hz : (9 < Qceiling ((r1 + step - (r0 - c)) / step))%Z).
  { rewrite Zlt_Qlt. lra. }
  lia.
Qed.

(** Every value [arange] produces lies below the sentinel [last_bin]: when
    the step exceeds the correction unit, at most ten of them fit. *)
Lemma steps_below_last y : In y (Np.ramp start step n) -> y < r1 + c.
Proof.
  intro Hy. destruct step_bounds as [Hs [H8 H2]]. pose proof correction_pos as Hc.
  pose proof (ramp_below_stop start (r1 + step) step y Hs Hy) as Hstop.
  destruct (Qlt_le_dec c step) as [Hbig | Hsmall]; [ | lra ].
  apply ramp_In in Hy. destruct Hy as [i [_ ->]].
  unfold start in *. destruct (Np.Qltb lo r0) eqn:E.
  - assert (Hi : inject_Z (Z.of_nat i) * step < inject_Z 10 * step).
    { change (inject_Z 10) with (10 # 1). lra. }
    apply Qmult_lt_r in Hi; [ | exact Hs ].
    rewrite <- Zlt_Qlt in Hi.
    assert (Hi' : inject_Z (Z.of_nat i) <= inject_Z 9)
      by (rewrite <- Zle_Qle; lia).
    apply (Qmult_le_compat_r _ _ step) in Hi'; [ | lra ].
    change (inject_Z 9) with (9 # 1) in Hi'. lra.
  - assert (Hi : inject_Z (Z.of_nat i) * step < inject_Z 9 * step).
    { change (inject_Z 9) with (9 # 1). lra. }
    apply Qmult_lt_r in Hi; [ | exact Hs ].
    rewrite <- Zlt_Qlt in Hi.
    assert (Hi' : inject_Z (Z.of_nat i) <= inject_Z 8)
      by (rewrite <- Zle_Qle; lia).
    apply (Qmult_le_compat_r _ _ step) in Hi'; [ | lra ].
    change (inject_Z 8) with (8 # 1) in Hi'. lra.
Qed.

Lemma hi_below_last : hi < r1 + c.
Proof.
  destruct (around_near d hi) as [Ha Hb]. fold r1 in Ha, Hb.
  destruct half_unit as [Hu Hv]. pose proof correction_pos. lra.
Qed.

(** The sequential bin values, all at once. *)
Lemma sequential_bins :
  Np.arange start (r1 + step) step = Return (Np.ramp start step n) /\
  (Np.Qltb lo r0 = false -> n = 9%nat) /\
  (Np.Qltb lo r0 = true -> (10 <= n)%nat) /\
  StronglySorted Qlt (Np.ramp start step n ++ [r1 + c]) /\
  hi < r1 + c.
Proof.
  destruct step_bounds as [Hs _].
  split; [ apply arange_ramp; lra | ].
  split; [ exact count_exact | ].
  split; [ exact count_more | ].
  split; [ | exact hi_below_last ].
  apply sorted_snoc; [ apply ramp_sorted; exact Hs | ].
  apply Forall_forall. exact steps_below_last.
Qed.
End SequentialBins.

(** ** What [derive_bins] does *)

(** The derivation writes to [sys.stderr] only. *)
Lemma derive_bins_stdout excl dcg rc Z scores w w' r :
  derive_bins excl dcg rc Z scores w = (w', r) -> stdout w' = stdout w.
Proof.
  unfold derive_bins, default_unless_overridden. run_monad.
  repeat step_run; intro H; inversion H; subst; reflexivity.
Qed.

(** The default bin index a completed derivation leaves behind: the override
    when one is given; otherwise 0 when no score is negative, 4 when the
    scores span zero, 8 when none is positive. *)
Lemma derive_bins_defaultindex excl dcg rc Z scores lo hi w w' b :
  derive_bins excl dcg rc Z scores w = (w', Return b) ->
  py_min scores = Return lo -> py_max scores = Return hi ->
  defaultindex b =
    Some match dcg with
         | Some g => g
         | None => if Qle_bool 0 lo then 0%Z
                   else if Np.Qltb 0 hi then 4%Z else 8%Z
         end.
Proof.
  intros Hrun Hmin Hmax. revert Hrun.
  unfold derive_bins, default_unless_overridden. run_monad.
  rewrite Hmin, Hmax.
  destruct (Np.int_floor_log10 (hi - lo)) as [m | e]; [ | intro H; inversion H ].
  destruct (Qle_bool 0 lo) eqn:E0.
  - repeat step_run; intro H; inversion H; subst; reflexivity.
  - assert (Hneg : Np.Qltb lo 0 = true).
    { apply Qltb_true. apply Qle_bool_false. exact E0. }
    rewrite Hneg. cbn [andb].
    destruct (Np.Qltb 0 hi) eqn:E1.
    + repeat step_run; intro H; inversion H; subst; reflexivity.
    + assert (Hle : Qle_bool hi 0 = true).
      { apply Qle_bool_iff. apply Qltb_false. exact E1. }
      rewrite Hle.
      repeat step_run; intro H; inversion H; subst; reflexivity.
Qed.

(** The scores -10 and 4 span zero: bin 4. *)
Lemma derive_bins_defaultindex_witness :
  py_min [-10 # 1; 4 # 1] = Return (-10 # 1) /\
  py_max [-10 # 1; 4 # 1] = Return (4 # 1) /\
  exists w' b,
    derive_bins false None false 0 [-10 # 1; 4 # 1] empty_world
    = (w', Return b) /\
    defaultindex b =
      Some match @None Z with
           | Some g => g
           | None => if Qle_bool 0 (-10 # 1) then 0%Z
                     else if Np.Qltb 0 (4 # 1) then 4%Z else 8%Z
           end.
Proof.
  assert (Hrun : exists w' b,
             derive_bins false None false 0 [-10 # 1; 4 # 1] empty_world
             = (w', Return b))
    by (eexists; eexists; vm_compute; reflexivity).
  destruct Hrun as [w' [b Hrun]].
  split; [ reflexivity | ]. split; [ reflexivity | ].
  exists w', b. split; [ exact Hrun | ].
  exact (derive_bins_defaultindex false None false 0 [-10 # 1; 4 # 1]
           (-10 # 1) (4 # 1) empty_world w' b Hrun eq_refl eq_refl).
Defined.

(** What a completed derivation has produced when no score is negative. *)
Lemma derive_bins_sequential_inv excl dcg rc Z scores lo w w' b :
  derive_bins excl dcg rc Z scores w = (w', Return b) ->
  py_min scores = Return lo -> 0 <= lo ->
  exists hi n,
    py_max scores = Return hi /\ lo < hi /\ (1 <= n)%nat /\
    binvalues b =
      Some (Np.ramp (if Np.Qltb lo (rounded lo hi lo)
                     then rounded lo hi lo - Py.pow10 (Np.floor_log10 (hi - lo))
                     else rounded lo hi lo)
                    ((rounded lo hi hi - rounded lo hi lo) / (8 # 1)) n
            ++ [rounded lo hi hi + Py.pow10 (Np.floor_log10 (hi - lo))]).
Proof.
  intros Hrun Hmin H0.
  assert (E0 : Qle_bool 0 lo = true) by (apply Qle_bool_iff; exact H0).
  revert Hrun. unfold derive_bins, default_unless_overridden, rounded. run_monad.
  rewrite Hmin.
  destruct (py_max scores) as [hi | e] eqn:Hmax; [ | intro H; inversion H ].
  destruct (Np.int_floor_log10 (hi - lo)) as [m | e] eqn:Hm;
    [ | intro H; inversion H ].
  apply int_floor_log10_inv in Hm. destruct Hm as [Hpos ->].
  intro Hrun. exists hi.
  destruct (Np.Qltb lo (Np.around (Z.abs (Z.min (Np.floor_log10 (hi - lo)) 0)) lo));
    destruct dcg as [g |];
    destruct (Np.Qltb 1 (hi - lo) && Np.Qltb (hi - lo) (8 # 1))%bool;
    cbv beta iota zeta in Hrun; rewrite E0 in Hrun;
    match type of Hrun with
    | context [Np.arange ?a ?b ?s] =>
        destruct (Np.arange a b s) as [steps | e] eqn:Har; [ | inversion Hrun ]
    end;
    cbv beta iota zeta in Hrun;
    match type of Hrun with
    | context [Py.index ?l 1] =>
        destruct (Py.index l 1) as [v | e] eqn:Hv; [ | inversion Hrun ]
    end;
    apply index_second_inv in Hv;
    apply arange_inv in Har; destruct Har as [_ Har];
    match type of Har with
    | _ = Np.ramp _ _ ?k => exists k
    end;
    rewrite Har in Hv; rewrite ramp_length in Hv;
    match type of Hrun with
    | context [if ?c then _ else _] => destruct c
    end;
    inversion Hrun; subst; cbn [binvalues];
    (split; [ reflexivity | split; [ lra | split; [ exact Hv | reflexivity ] ] ]).
Qed.

(** ** Bin assignment *)


(** A residue the scan places goes to the first bin whose upper boundary
    exceeds its score, and to that bin only: [find_bin] is a function. *)
Lemma find_bin_first bv : forall i score j value,
  find_bin i bv score = Some (j, value) ->
  exists k upper,
    j = (i + Z.of_nat k)%Z /\
    nth_error bv k = Some value /\
    nth_error bv (S k) = Some upper /\ score < upper /\
    forall k' u, (k' < k)%nat -> nth_error bv (S k') = Some u -> u <= score.
Proof.
  induction bv as [| value0 rest IH]; intros i score j value Hfind.
  - discriminate Hfind.
  - destruct rest as [| upper0 rest']; [ discriminate Hfind | ].
    cbn [find_bin] in Hfind. destruct (Np.Qltb score upper0) eqn:E.
    + injection Hfind as <- <-. exists 0%nat, upper0.
      split; [ cbn; lia | ]. split; [ reflexivity | ]. split; [ reflexivity | ].
      split; [ apply Qltb_true; exact E | ].
      intros k' u Hk. lia.
    + apply IH in Hfind.
      destruct Hfind as [k [upper [Hj [Hv [Hu [Hlt Hbefore]]]]]].
      exists (S k), upper.
      split; [ lia | ]. split; [ exact Hv | ]. split; [ exact Hu | ].
      split; [ exact Hlt | ].
      intros k' u Hk Hnth. destruct k' as [| k'].
      * cbn in Hnth. injection Hnth as <-. apply Qltb_false. exact E.
      * apply (Hbefore k' u); [ lia | exact Hnth ].
Qed.

(** The score 1.5 among the boundaries 0, 1, 2, 3: bin 1. *)
Lemma find_bin_first_witness :
  find_bin 0 [0; 1; 2 # 1; 3 # 1] (3 # 2) = Some (1%Z, 1) /\
  exists k upper,
    1%Z = (0 + Z.of_nat k)%Z /\
    nth_error [0; 1; 2 # 1; 3 # 1] k = Some 1 /\
    nth_error [0; 1; 2 # 1; 3 # 1] (S k) = Some upper /\ 3 # 2 < upper /\
    forall k' u, (k' < k)%nat ->
                 nth_error [0; 1; 2 # 1; 3 # 1] (S k') = Some u -> u <= 3 # 2.
Proof.
  split; [ reflexivity | ].
  exact (find_bin_first [0; 1; 2 # 1; 3 # 1] 0 (3 # 2) 1 1 eq_refl).
Defined.

(** ** The palette and the score collection *)

Lemma all_scores_of_cons chain rd rest :
  all_scores_of ((chain, rd) :: rest) = Return (dict_values rd).
Proof.
  unfold all_scores_of, Py.index. cbn [dict_values map snd List.length].
  replace (0 <? 0)%Z with false by reflexivity.
  match goal with
  | |- context [((0 <=? 0)%Z && ?c)%bool] => replace c with true
  end.
  - reflexivity.
  - symmetry. apply Z.ltb_lt. lia.
Qed.

Lemma unknown_palette basecolor :
  ~ In basecolor palette_names -> dict_get String.eqb basecolor colors = None.
Proof.
  intro Hn. unfold colors. cbn [dict_get].
  repeat match goal with
         | |- context [String.eqb ?k basecolor] =>
             destruct (String.eqb k basecolor) eqn:E;
             [ apply String.eqb_eq in E; subst basecolor; exfalso; apply Hn;
               unfold palette_names; cbn [In]; tauto | clear E ]
         end.
  reflexivity.
Qed.

Lemma concat_nil_head {A} (x : list A) (l : list (list A)) :
  List.concat (x :: l) = [] -> x = [].
Proof. cbn [List.concat]. intro H. apply app_eq_nil in H. tauto. Qed.

(** ** The reader *)

Local Open Scope Z_scope.

(** [float] raises nothing but [ValueError]. *)
Lemma float_raises_ValueError s e : Py.float s = Raise e -> e = ValueError.
Proof.
  unfold Py.float.
  repeat match goal with
         | |- context [let (_, _) := ?x in _] => destruct x
         | |- context [match ?x with _ => _ end] => destruct x
         end;
    intro H; inversion H; reflexivity.
Qed.

(** [int(float(sitecol))] raises [ValueError] when the text is no float, and
    when it is the float NaN. *)
Lemma int_of_site_ValueError sitecol :
  int_of_site sitecol = Raise ValueError <->
  Py.float sitecol = Raise ValueError \/ Py.float sitecol = Return Py.NaN.
Proof.
  unfold int_of_site.
  destruct (Py.float sitecol) as [[q | | |] | e] eqn:E; cbn [Py.int].
  - split; [ discriminate | intros [H | H]; discriminate ].
  - split; [ discriminate | intros [H | H]; discriminate ].
  - split; [ discriminate | intros [H | H]; discriminate ].
  - split; [ right; reflexivity | reflexivity ].
  - split.
    + intro H. left. injection H as ->. reflexivity.
    + intros [H | H]; [ injection H as ->; reflexivity | discriminate ].
Qed.

Section ReaderFacts.
Variables (delimiter : string) (scorecolumn sitecolumn : Z)
          (chaincolumn : option Z) (defaultchain : string).

Local Abbreviation line_step :=
  (read_line delimiter scorecolumn sitecolumn chaincolumn defaultchain).
Local Abbreviation loop :=
  (read_lines delimiter scorecolumn sitecolumn chaincolumn defaultchain).
Local Abbreviation store := (store_row scorecolumn chaincolumn defaultchain).

(** One data row, case by case on its site. *)
Lemma read_line_data_row st rawline w lsplits sitecol :
  row_fields delimiter rawline = Some lsplits ->
  Py.index lsplits sitecolumn = Return sitecol ->
  line_step st rawline w =
    match int_of_site sitecol with
    | Return site => store lsplits (counted st lsplits) site w
    | Raise ValueError => (w, Return (counted st lsplits))
    | Raise e => (w, Raise e)
    end.
Proof.
  unfold row_fields, read_line, int_of_site, counted.
  destruct (Py.strip rawline) as [| c rest]; [ discriminate | ].
  destruct (Ascii.eqb c "#"); [ discriminate | ].
  destruct (Py.split (String c rest) delimiter) as [l | e]; [ | discriminate ].
  intro H. injection H as ->. intro Hsite.
  unfold try_except_ValueError.
  cbv beta iota zeta delta [bind lift ret]. rewrite Hsite.
  cbn [rawscore_dict linecounter foundscores columnmax].
  destruct (Py.float sitecol) as [[q | | |] | e] eqn:E; cbn [Py.int];
    try reflexivity.
  apply float_raises_ValueError in E. subst e. reflexivity.
Qed.

(** A stored row counts as one more score, and writes nothing. *)
Lemma store_row_outcome lsplits st site w w' r :
  store lsplits st site w = (w', r) ->
  w' = w /\
  match r with
  | Return st' => foundscores st' = foundscores st + 1
  | Raise _ => True
  end.
Proof.
  unfold store_row. run_monad.
  repeat step_run; intro H; inversion H; subst; cbn [foundscores];
    (split; [ reflexivity | try reflexivity; exact I ]).
Qed.

(** The line counter and the column maximum never decide what a row does to
    the table. *)
Lemma read_line_congr st1 st2 rawline w1 w2 :
  rawscore_dict st1 = rawscore_dict st2 ->
  foundscores st1 = foundscores st2 ->
  outcome (line_step st1 rawline w1) = outcome (line_step st2 rawline w2).
Proof.
  destruct st1 as [d1 l1 f1 c1], st2 as [d2 l2 f2 c2].
  cbn [rawscore_dict foundscores]. intros <- <-.
  unfold outcome, snd, read_line, store_row, try_except_ValueError.
  run_monad. cbn [rawscore_dict linecounter foundscores columnmax].
  repeat step_run; cbn [rawscore_dict foundscores]; reflexivity.
Qed.

Lemma read_lines_congr lines : forall st1 st2 w1 w2,
  rawscore_dict st1 = rawscore_dict st2 ->
  foundscores st1 = foundscores st2 ->
  outcome (loop st1 lines w1) = outcome (loop st2 lines w2).
Proof.
  induction lines as [| line rest IH]; intros st1 st2 w1 w2 Hd Hf.
  - unfold outcome. cbn. rewrite Hd, Hf. reflexivity.
  - cbn [read_lines]. unfold bind.
    pose proof (read_line_congr st1 st2 line w1 w2 Hd Hf) as Hc.
    unfold outcome in Hc.
    destruct (line_step st1 line w1) as [w1' [s1 | e1]];
      destruct (line_step st2 line w2) as [w2' [s2 | e2]];
      cbn [snd] in Hc; try discriminate.
    + injection Hc as Hd' Hf'. apply IH; assumption.
    + exact Hc.
Qed.

(** A row whose site raises [ValueError] only moves the two counters. *)
Lemma skipped_row_step st rawline w lsplits sitecol :
  row_fields delimiter rawline = Some lsplits ->
  Py.index lsplits sitecolumn = Return sitecol ->
  int_of_site sitecol = Raise ValueError ->
  line_step st rawline w = (w, Return (counted st lsplits)).
Proof.
  intros Hrow Hsite Hint.
  rewrite (read_line_data_row st rawline w lsplits sitecol Hrow Hsite), Hint.
  reflexivity.
Qed.

(** Taking such a row out of the file changes neither the table nor whether
    the loop completes. *)
Lemma skipped_row_run pre : forall st rawline w lsplits sitecol post,
  row_fields delimiter rawline = Some lsplits ->
  Py.index lsplits sitecolumn = Return sitecol ->
  int_of_site sitecol = Raise ValueError ->
  outcome (loop st (pre ++ rawline :: post) w) =
  outcome (loop st (pre ++ post) w).
Proof.
  induction pre as [| line pre IH];
    intros st rawline w lsplits sitecol post Hrow Hsite Hint.
  - cbn [app read_lines]. unfold bind.
    rewrite (skipped_row_step st rawline w lsplits sitecol Hrow Hsite Hint).
    apply read_lines_congr; reflexivity.
  - cbn [app read_lines]. unfold bind.
    destruct (line_step st line w) as [w' [st' | e]]; [ | reflexivity ].
    eapply IH; eassumption.
Qed.

(** What [read_generic_data] returns is what its loop leaves. *)
Lemma read_generic_data_result lines w :
  snd (read_generic_data delimiter scorecolumn sitecolumn chaincolumn
                         defaultchain lines w) =
  match outcome (loop (mkReader [] 0 0 0) lines
                   (mkWorld (stdout w)
                      (stderr w ++ [MsgReadingScores scorecolumn delimiter]))) with
  | Return (d, _) => Return d
  | Raise e => Raise e
  end.
Proof.
  unfold read_generic_data, outcome.
  cbv beta iota delta [bind stderr_write ret].
  match goal with
  | |- context [read_lines ?a ?b ?c ?d ?e ?s ?l ?v] =>
      destruct (read_lines a b c d e s l v) as [w' [st | e']]
  end; cbn [snd]; [ | reflexivity ].
  unfold when.
  destruct ((foundscores st =? 0) && (columnmax st <? 2))%bool; reflexivity.
Qed.
End ReaderFacts.

(** * The claims *)

Local Open Scope Q_scope.

(** Claim C1, at the table [{A: {1: 0.0, 2: 8.0}, B: {1: 100.0}}].  The
    claim wants minimum, maximum, range and median taken over the scores of
    every chain.  Line 172 hands [itertools.chain] one iterable, so it yields
    the per-chain lists and [[0]] keeps the first: the statistics are those of
    chain A alone, the bin values are the ones the one-chain table gets, and
    the score 100 of chain B lies above every boundary, which leaves its
    residue with the whole-chain colour only. *)
Theorem second_chain_ignored :
  all_scores_of two_chains = Return [0; 8 # 1] /\
  all_scores_of two_chains = all_scores_of one_chain /\
  score_collection two_chains = [0; 8 # 1; 100 # 1] /\
  (exists w b bv,
      derive_bins false None false 0 [0; 8 # 1] empty_world = (w, Return b) /\
      binvalues b = Some bv /\
      map Qred bv
      = [0; 1; 2 # 1; 3 # 1; 4 # 1; 5 # 1; 6 # 1; 7 # 1; 8 # 1; 9 # 1] /\
      find_bin 0 bv (100 # 1) = None) /\
  chain_directives "B"
    (stdout (fst (make_output_script false None false 0 two_chains ["A"; "B"] []
                                     "grp" "red" empty_world)))
  = [ColorChain "red" 0 "B"].
Proof.
  split; [ reflexivity | ]. split; [ reflexivity | ]. split; [ reflexivity | ].
  split; [ | vm_compute; reflexivity ].
  eexists. eexists. eexists.
  split; [ vm_compute; reflexivity | ].
  split; [ reflexivity | ].
  split; vm_compute; reflexivity.
Qed.



(** ** Whole numbers: where the script's binary64 arithmetic is exact *)

(** A range of at least one has a magnitude of at least zero, so that the
    two ends are rounded to whole numbers. *)
Lemma floor_log10_nonneg x : 1 <= x -> (0 <= Np.floor_log10 x)%Z.
Proof.
  intro Hx. destruct (floor_log10_spec x) as [_ Hb]; [ lra | ].
  destruct (Z.le_gt_cases 0 (Np.floor_log10 x)) as [H | H]; [ exact H | ].
  exfalso.
  assert (Hk : (0 <= - (Np.floor_log10 x + 1))%Z) by lia.
  pose proof (pow10_ge_1 _ Hk) as Hge.
  pose proof (pow10_opp (- (Np.floor_log10 x + 1))) as Hopp.
  rewrite Z.opp_involutive in Hopp.
  pose proof (pow10_pos (Np.floor_log10 x + 1)) as Hp.
  assert (Hle : Py.pow10 (Np.floor_log10 x + 1) <= 1).
  { rewrite Hopp. apply Qle_shift_inv_r; lra. }
  lra.
Qed.

Lemma rint_whole a : Np.rint (inject_Z a) = a.
Proof.
  unfold Np.rint. rewrite Qfloor_Z.
  destruct (Qcompare_spec (inject_Z a - inject_Z a) (1 # 2)) as [E | E | E];
    [ exfalso; lra | reflexivity | exfalso; lra ].
Qed.

(** Rounding to no decimals leaves a whole number as it is. *)
Lemma around_whole x a : x == inject_Z a -> Np.around 0 x == inject_Z a.
Proof.
  intro H. rewrite (around_comp 0 x (inject_Z a) H). unfold Np.around.
  change (Py.pow10 0) with 1.
  rewrite (rint_comp (inject_Z a * 1) (inject_Z a)) by ring.
  rewrite rint_whole. field.
Qed.

Lemma rounded_whole lo hi x a :
  1 <= hi - lo -> x == inject_Z a -> rounded lo hi x == inject_Z a.
Proof.
  intros Hr Hx. unfold rounded.
  pose proof (floor_log10_nonneg _ Hr) as Hm.
  replace (Z.abs (Z.min (Np.floor_log10 (hi - lo)) 0)) with 0%Z by lia.
  apply around_whole. exact Hx.
Qed.

Lemma whole_range lo hi a b :
  lo == inject_Z a -> hi == inject_Z b -> (a < b)%Z -> 1 <= hi - lo.
Proof.
  intros Hlo Hhi Hab. rewrite Hlo, Hhi.
  assert (H : inject_Z 1 <= inject_Z (b - a)) by (rewrite <- Zle_Qle; lia).
  unfold Zminus in H. rewrite inject_Z_plus, inject_Z_opp in H.
  change (inject_Z 1) with 1 in H. lra.
Qed.



(** Claim C3, at the table [{A: {1: -10.0, 2: 4.0}}].  The claim wants every
    residue in exactly one bin.  The scan is as the claim describes it and
    never gives a residue two bins, but the bin values of the diverging branch
    end at 4, with no sentinel above the highest score: the scan finds no
    upper boundary above the score 4, the loop ends without its [break], and
    residue 2 is in no selection.  The comment on line 267 expects otherwise. *)
Theorem top_residue_dropped :
  (exists w b bv,
      derive_bins false None false 0 [-10 # 1; 4 # 1] empty_world
      = (w, Return b) /\
      binvalues b = Some bv /\
      map Qred bv
      = [-10 # 1; -15 # 2; -5 # 1; -5 # 2; 0; 1; 2 # 1; 3 # 1; 4 # 1] /\
      find_bin 0 bv (-10 # 1) = Some (0%Z, nth 0 bv 0) /\
      find_bin 0 bv (4 # 1) = None) /\
  snd (make_output_script false None false 0 spanning_chain ["A"] [] "grp"
                          "div1w" empty_world) = Return tt /\
  chain_directives "A"
    (stdout (fst (make_output_script false None false 0 spanning_chain ["A"] []
                                     "grp" "div1w" empty_world)))
  = [ColorChain "div1w" 0 "A"; Select (-10) "grp" 1 "A" [1%Z];
     ColorSelection "div1w" (-10) "grp" 1 "A"].
Proof.
  split; [ | split; vm_compute; reflexivity ].
  eexists. eexists. eexists.
  split; [ vm_compute; reflexivity | ].
  split; [ reflexivity | ].
  split; [ vm_compute; reflexivity | ].
  split; vm_compute; reflexivity.
Qed.

(** Claim C4, at the table [{A: {1: 1.0, 2: 2.0}, B: {1: -5.0}}] with no
    override.  The scores of the table span zero (minimum -5, maximum 2),
    for which the claim wants the default bin 4.  Line 172 keeps the scores
    of chain A only, and none of them is negative: the derivation takes the
    sequential branch and leaves the index 0, and both chains are
    pre-coloured with the colour of bin 0 (named after 10), where bin 4 has
    the colour named after 15. *)
Theorem default_index_first_chain :
  py_min (score_collection mixed_sign_chains) = Return (-5 # 1) /\
  py_max (score_collection mixed_sign_chains) = Return (2 # 1) /\
  all_scores_of mixed_sign_chains = Return [1; 2 # 1] /\
  (exists w b bv v0 v4,
      derive_bins false None false 0 [1; 2 # 1] empty_world = (w, Return b) /\
      defaultindex b = Some 0%Z /\ binvalues b = Some bv /\
      Py.index bv 0 = Return v0 /\ scaled (binname_correction b) v0 = 10%Z /\
      Py.index bv 4 = Return v4 /\ scaled (binname_correction b) v4 = 15%Z) /\
  colored_chains
    (stdout (fst (make_output_script false None false 0 mixed_sign_chains
                                     ["A"; "B"] [] "grp" "red" empty_world)))
  = ["A"; "B"] /\
  chain_directives "B"
    (stdout (fst (make_output_script false None false 0 mixed_sign_chains
                                     ["A"; "B"] [] "grp" "red" empty_world)))
  = [ColorChain "red" 10 "B"; Select 10 "grp" 1 "B" [1%Z];
     ColorSelection "red" 10 "grp" 1 "B"] /\
  In (ColorChain "red" 10 "A")
     (stdout (fst (make_output_script false None false 0 mixed_sign_chains
                                      ["A"; "B"] [] "grp" "red" empty_world))).
Proof.
  split; [ reflexivity | ]. split; [ reflexivity | ]. split; [ reflexivity | ].
  split.
  - eexists. eexists. eexists. eexists. eexists.
    split; [ vm_compute; reflexivity | ].
    split; [ reflexivity | ]. split; [ reflexivity | ].
    split; [ reflexivity | ]. split; [ vm_compute; reflexivity | ].
    split; [ reflexivity | vm_compute; reflexivity ].
  - split; [ vm_compute; reflexivity | ].
    split; [ vm_compute; reflexivity | ].
    vm_compute. tauto.
Qed.

(** The third branch, at the table [{A: {1: -10.0, 2: -4.0}}] with no
    override: it sets [defaultindex] to 8 and builds no bin values, so line
    240 reads [binvalues] unbound and the run ends in [UnboundLocalError]
    with nothing written. *)
Example all_negative_aborts :
  snd (make_output_script false None false 0 negative_chain ["A"] [] "grp" "red"
                          empty_world) = Raise UnboundLocalError /\
  stdout (fst (make_output_script false None false 0 negative_chain ["A"] []
                                  "grp" "red" empty_world)) = [] /\
  exists w b,
    derive_bins false None false 0 [-10 # 1; -4 # 1] empty_world
    = (w, Return b) /\
    defaultindex b = Some 8%Z /\ binvalues b = None.
Proof.
  split; [ vm_compute; reflexivity | ]. split; [ vm_compute; reflexivity | ].
  eexists. eexists. split; [ vm_compute; reflexivity | ]. split; reflexivity.
Qed.

(** Claim C5 as stated fails: with the palette name [purple], which is none
    of the eight, and the scores 0 and 8, the run ends in [KeyError] only
    after the four opening directives have been written. *)
Lemma unknown_palette_after_preamble :
  ~ In "purple" palette_names /\
  snd (make_output_script false None false 0 one_chain ["A"] [] "grp" "purple"
                          empty_world) = Raise KeyError /\
  stdout (fst (make_output_script false None false 0 one_chain ["A"] [] "grp"
                                  "purple" empty_world)) = preamble /\
  stdout (fst (make_output_script false None false 0 one_chain ["A"] [] "grp"
                                  "purple" empty_world)) <> [].
Proof.
  split.
  - unfold palette_names. cbn [In].
    intros [H | [H | [H | [H | [H | [H | [H | [H | []]]]]]]]]; discriminate H.
  - split; [ vm_compute; reflexivity | ].
    split; [ vm_compute; reflexivity | vm_compute; discriminate ].
Qed.

(** Claim C5, amended: a run whose palette name is none of the eight always
    ends in an exception, and writes no colour definition, chain or selection
    directive: either it fails while the bins are derived, with nothing
    written, or it writes the four opening directives and ends in [KeyError]
    at the palette lookup. *)
Theorem unknown_palette_fails excl dcg rc Z scoredict keepchains refoffsets
        groupname basecolor :
  ~ In basecolor palette_names ->
  exists w' e,
    make_output_script excl dcg rc Z scoredict keepchains refoffsets groupname
                       basecolor empty_world = (w', Raise e) /\
    (stdout w' = [] \/ stdout w' = preamble /\ e = KeyError).
Proof.
  intro Hn. unfold make_output_script. run_monad.
  destruct (all_scores_of scoredict) as [all_scores | e].
  2:{ eexists. eexists. split; [ reflexivity | left; reflexivity ]. }
  destruct (derive_bins excl dcg rc Z all_scores empty_world) as [w1 [b | e]] eqn:Hrun;
    pose proof (derive_bins_stdout _ _ _ _ _ _ _ _ Hrun) as Hout;
    cbn [stdout empty_world] in Hout.
  2:{ eexists. eexists. split; [ reflexivity | left; exact Hout ]. }
  destruct (binvalues b) as [bv |].
  2:{ eexists. eexists. split; [ reflexivity | left; exact Hout ]. }
  rewrite (unknown_palette basecolor Hn). cbn [stdout stderr].
  eexists. eexists. split; [ reflexivity | right ].
  cbn [stdout]. rewrite Hout. split; reflexivity.
Qed.

(** The palette name [purple] on the scores 0 and 8. *)
Lemma unknown_palette_fails_witness :
  ~ In "purple" palette_names /\
  exists w' e,
    make_output_script false None false 0 one_chain ["A"] [] "grp" "purple"
                       empty_world = (w', Raise e) /\
    (stdout w' = [] \/ stdout w' = preamble /\ e = KeyError).
Proof.
  assert (Hn : ~ In "purple" palette_names).
  { unfold palette_names. cbn [In].
    intros [H | [H | [H | [H | [H | [H | [H | [H | []]]]]]]]]; discriminate H. }
  split; [ exact Hn | ].
  exact (unknown_palette_fails false None false 0 one_chain ["A"] [] "grp"
           "purple" Hn).
Defined.

(** Claim C6: when the score collection is empty, whether the table has no
    chain or only chains without scores, the run ends in an exception
    ([IndexError] at line 172, or [ValueError] from [min] at line 174) and has
    written no directive. *)
Theorem empty_scores_abort excl dcg rc Z scoredict keepchains refoffsets
        groupname basecolor :
  score_collection scoredict = [] ->
  exists w' e,
    make_output_script excl dcg rc Z scoredict keepchains refoffsets groupname
                       basecolor empty_world = (w', Raise e) /\
    stdout w' = [].
Proof.
  intro Hempty. unfold make_output_script.
  destruct scoredict as [| [chain rd] rest].
  - eexists. eexists. split; reflexivity.
  - run_monad. rewrite all_scores_of_cons.
    unfold score_collection in Hempty. cbn [dict_values map snd] in Hempty.
    apply concat_nil_head in Hempty. unfold dict_values. rewrite Hempty.
    eexists. eexists. split; reflexivity.
Qed.

(** The table with no chain, as an empty score file leaves it. *)
Lemma empty_scores_abort_witness :
  score_collection [] = [] /\
  exists w' e,
    make_output_script false None false 0 [] ["A"] [] "grp" "red" empty_world
    = (w', Raise e) /\
    stdout w' = [].
Proof.
  split; [ reflexivity | ].
  exact (empty_scores_abort false None false 0 [] ["A"] [] "grp" "red" eq_refl).
Defined.

(** Over exact arithmetic, whenever the derivation yields bin values for a
    collection without negative score, the first of them is at most the
    minimum of that collection, hence at most every score of it: the minimum
    is rounded to [-min(magnitude, 0)] decimals, which moves it up by half a
    unit at most, and a rounded value above it is lowered by
    [10 ** magnitude], which is at least that unit.  The collection is the
    one the derivation receives, the scores of the first chain. *)
Lemma first_boundary_le_min excl dcg rc Z scores w w' b bv :
  Forall (fun s => 0 <= s) scores ->
  derive_bins excl dcg rc Z scores w = (w', Return b) ->
  binvalues b = Some bv ->
  exists first lo,
    nth_error bv 0 = Some first /\ py_min scores = Return lo /\
    first <= lo /\ Forall (fun s => first <= s) scores.
Proof.
  intros Hnonneg Hrun Hbv.
  destruct (py_min scores) as [lo | e] eqn:Hmin.
  2:{ revert Hrun. unfold derive_bins. run_monad. rewrite Hmin.
      intro H. inversion H. }
  destruct (py_min_spec _ _ Hmin) as [Hall Hin].
  assert (H0 : 0 <= lo)
    by (rewrite Forall_forall in Hnonneg; apply Hnonneg; exact Hin).
  destruct (derive_bins_sequential_inv _ _ _ _ _ _ _ _ _ Hrun Hmin H0)
    as [hi [n [Hmax [Hlt [Hn Hb]]]]].
  rewrite Hb in Hbv. injection Hbv as <-.
  destruct (ramp_head
              (if Np.Qltb lo (rounded lo hi lo)
               then rounded lo hi lo - Py.pow10 (Np.floor_log10 (hi - lo))
               else rounded lo hi lo)
              ((rounded lo hi hi - rounded lo hi lo) / (8 # 1)) n Hn)
    as [first [rest [Hr Hfirst]]].
  rewrite Hr. exists first, lo.
  pose proof (start_le_lo lo hi) as Hstart. fold (rounded lo hi lo) in Hstart.
  assert (Hle : first <= lo) by (rewrite Hfirst; exact Hstart).
  split; [ reflexivity | split; [ reflexivity | split; [ exact Hle | ] ] ].
  apply Forall_forall. intros s Hs. rewrite Forall_forall in Hall.
  specialize (Hall s Hs). lra.
Qed.

(** Claim C8, at the table [{A: {1: 5.0, 2: 8.0}, B: {1: 1.0}}].  No score
    of the table is negative, and the minimum is 1.  Line 172 keeps the
    scores of chain A only, so the bin values the run works with start at
    5, above the minimum of the score set. *)
Theorem first_boundary_above_minimum :
  Forall (fun s => 0 <= s) (score_collection low_second_chain) /\
  py_min (score_collection low_second_chain) = Return 1 /\
  all_scores_of low_second_chain = Return [5 # 1; 8 # 1] /\
  exists w b bv first,
    derive_bins false None false 0 [5 # 1; 8 # 1] empty_world = (w, Return b) /\
    binvalues b = Some bv /\
    nth_error bv 0 = Some first /\ first == 5 # 1 /\ ~ first <= 1 /\
    In (MsgGeneratingScript "red" bv)
       (stderr (fst (make_output_script false None false 0 low_second_chain
                                        ["A"; "B"] [] "grp" "red" empty_world))).
Proof.
  split.
  { repeat constructor; apply Qle_bool_imp_le; reflexivity. }
  split; [ reflexivity | ]. split; [ reflexivity | ].
  eexists. eexists. eexists. eexists.
  split; [ vm_compute; reflexivity | ].
  split; [ reflexivity | ]. split; [ reflexivity | ].
  split; [ reflexivity | ].
  split.
  - intro H. apply Qle_bool_iff in H. discriminate H.
  - vm_compute. tauto.
Qed.




Local Open Scope Z_scope.

(** Claim C7 as stated fails: the header row of the file
    [site,score / 1,0.5] has a site that is no number and is skipped, but
    nothing is written for it; [sys.stderr] holds the opening line and the
    closing count, and no warning. *)
Lemma header_row_no_warning :
  row_fields "," "site,score" = Some ["site"; "score"] /\
  int_of_site "site" = Raise ValueError /\
  read_generic_data "," 1 0 None "A" header_file empty_world
  = (mkWorld [] [MsgReadingScores 1 ","; MsgCounted 2 1],
     Return [("A", [(1, Py.Fin (1 # 2))])]) /\
  existsb is_warning
    (stderr (fst (read_generic_data "," 1 0 None "A" header_file empty_world)))
  = false.
Proof.
  split; [ reflexivity | ]. split; [ reflexivity | ].
  split; vm_compute; reflexivity.
Qed.

(** Claim C7, amended: a data row whose site makes [int(float(...))] raise
    [ValueError] is skipped without a word: its step returns normally, writes
    nothing to either stream, and leaves table and score count as they were;
    the loop and the whole reader give for the file with the row what they
    give for the file without it, so the other rows are processed as before
    and the run is not aborted by this row. *)
Theorem bad_site_row_skipped delimiter scorecolumn sitecolumn chaincolumn
        defaultchain st rawline w lsplits sitecol pre post :
  row_fields delimiter rawline = Some lsplits ->
  Py.index lsplits sitecolumn = Return sitecol ->
  int_of_site sitecol = Raise ValueError ->
  (exists st',
      read_line delimiter scorecolumn sitecolumn chaincolumn defaultchain st
                rawline w = (w, Return st') /\
      rawscore_dict st' = rawscore_dict st /\
      foundscores st' = foundscores st) /\
  outcome (read_lines delimiter scorecolumn sitecolumn chaincolumn defaultchain
                      st (pre ++ rawline :: post) w) =
  outcome (read_lines delimiter scorecolumn sitecolumn chaincolumn defaultchain
                      st (pre ++ post) w) /\
  snd (read_generic_data delimiter scorecolumn sitecolumn chaincolumn
                         defaultchain (pre ++ rawline :: post) w) =
  snd (read_generic_data delimiter scorecolumn sitecolumn chaincolumn
                         defaultchain (pre ++ post) w).
Proof.
  intros Hrow Hsite Hint. split; [ | split ].
  - exists (counted st lsplits). split; [ | split; reflexivity ].
    eapply skipped_row_step; eassumption.
  - eapply skipped_row_run; eassumption.
  - rewrite 2 read_generic_data_result.
    rewrite (skipped_row_run delimiter scorecolumn sitecolumn chaincolumn
               defaultchain pre _ rawline _ lsplits sitecol post
               Hrow Hsite Hint).
    reflexivity.
Qed.

(** The header row [site,score] in front of the row [1,0.5]. *)
Lemma bad_site_row_skipped_witness :
  row_fields "," "site,score" = Some ["site"; "score"] /\
  Py.index ["site"; "score"] 0 = Return "site" /\
  int_of_site "site" = Raise ValueError /\
  (exists st',
      read_line "," 1 0 None "A" (mkReader [] 0 0 0) "site,score" empty_world
      = (empty_world, Return st') /\
      rawscore_dict st' = rawscore_dict (mkReader [] 0 0 0) /\
      foundscores st' = foundscores (mkReader [] 0 0 0)) /\
  outcome (read_lines "," 1 0 None "A" (mkReader [] 0 0 0)
                      ([] ++ "site,score" :: ["1,0.5"]) empty_world) =
  outcome (read_lines "," 1 0 None "A" (mkReader [] 0 0 0)
                      ([] ++ ["1,0.5"]) empty_world) /\
  snd (read_generic_data "," 1 0 None "A" ([] ++ "site,score" :: ["1,0.5"])
                         empty_world) =
  snd (read_generic_data "," 1 0 None "A" ([] ++ ["1,0.5"]) empty_world).
Proof.
  split; [ reflexivity | ]. split; [ reflexivity | ]. split; [ reflexivity | ].
  exact (bad_site_row_skipped "," 1 0 None "A" (mkReader [] 0 0 0) "site,score"
           empty_world ["site"; "score"] "site" [] ["1,0.5"]
           eq_refl eq_refl eq_refl).
Defined.

(** Claim C10 as stated fails: the site [nan] parses as a float, and its row
    is skipped all the same, because [int] refuses NaN with the [ValueError]
    the reader catches. *)
Lemma nan_site_skipped :
  row_fields "," "nan,0.5" = Some ["nan"; "0.5"] /\
  Py.float "nan" = Return Py.NaN /\
  snd (read_generic_data "," 1 0 None "A" nan_file empty_world)
  = Return [("A", [(2, Py.Fin (1 # 4))])].
Proof.
  split; [ reflexivity | ]. split; [ reflexivity | ]. vm_compute. reflexivity.
Qed.

(** Claim C10, amended: a data row is skipped (its step returns normally
    with table and score count unchanged) if and only if its site cannot be
    parsed as a float or parses to NaN; the site [3.7] is taken as residue 3;
    and a row whose site converts while its score is no float makes the step,
    and with it the loop, raise [ValueError]. *)
Theorem row_skipped_iff delimiter scorecolumn sitecolumn chaincolumn
        defaultchain st rawline w lsplits sitecol :
  row_fields delimiter rawline = Some lsplits ->
  Py.index lsplits sitecolumn = Return sitecol ->
  ((exists st',
       read_line delimiter scorecolumn sitecolumn chaincolumn defaultchain st
                 rawline w = (w, Return st') /\
       rawscore_dict st' = rawscore_dict st /\
       foundscores st' = foundscores st)
   <-> (Py.float sitecol = Raise ValueError \/
        Py.float sitecol = Return Py.NaN)) /\
  int_of_site "3.7" = Return 3 /\
  (forall site scoretext post,
      int_of_site sitecol = Return site ->
      Py.index lsplits scorecolumn = Return scoretext ->
      Py.float scoretext = Raise ValueError ->
      read_line delimiter scorecolumn sitecolumn chaincolumn defaultchain st
                rawline w = (w, Raise ValueError) /\
      snd (read_lines delimiter scorecolumn sitecolumn chaincolumn defaultchain
                      st (rawline :: post) w) = Raise ValueError).
Proof.
  intros Hrow Hsite. split; [ | split; [ reflexivity | ] ].
  - rewrite <- int_of_site_ValueError.
    rewrite (read_line_data_row _ _ _ _ _ st rawline w lsplits sitecol Hrow Hsite).
    split.
    + intros [st' [Hrun [_ Hfound]]].
      destruct (int_of_site sitecol) as [site | e].
      * apply store_row_outcome in Hrun. destruct Hrun as [_ Hplus].
        cbn [counted foundscores] in Hplus. lia.
      * destruct e; try discriminate. reflexivity.
    + intro Hint. rewrite Hint. exists (counted st lsplits).
      split; [ reflexivity | split; reflexivity ].
  - intros site scoretext post Hint Hscore Hfloat.
    assert (Hline : read_line delimiter scorecolumn sitecolumn chaincolumn
                              defaultchain st rawline w = (w, Raise ValueError)).
    { rewrite (read_line_data_row _ _ _ _ _ st rawline w lsplits sitecol
                 Hrow Hsite), Hint.
      unfold store_row. cbv beta iota delta [bind lift]. rewrite Hscore.
      cbv beta iota. rewrite Hfloat. reflexivity. }
    split; [ exact Hline | ].
    cbn [read_lines]. unfold bind. rewrite Hline. reflexivity.
Qed.

(** The row [3.7,x]: its site converts, to residue 3, and is not skipped;
    its score is no float, and the run stops there. *)
Lemma row_skipped_iff_witness :
  row_fields "," "3.7,x" = Some ["3.7"; "x"] /\
  Py.index ["3.7"; "x"] 0 = Return "3.7" /\
  ((exists st',
       read_line "," 1 0 None "A" (mkReader [] 0 0 0) "3.7,x" empty_world
       = (empty_world, Return st') /\
       rawscore_dict st' = rawscore_dict (mkReader [] 0 0 0) /\
       foundscores st' = foundscores (mkReader [] 0 0 0))
   <-> (Py.float "3.7" = Raise ValueError \/ Py.float "3.7" = Return Py.NaN)) /\
  int_of_site "3.7" = Return 3 /\
  (forall site scoretext post,
      int_of_site "3.7" = Return site ->
      Py.index ["3.7"; "x"] 1 = Return scoretext ->
      Py.float scoretext = Raise ValueError ->
      read_line "," 1 0 None "A" (mkReader [] 0 0 0) "3.7,x" empty_world
      = (empty_world, Raise ValueError) /\
      snd (read_lines "," 1 0 None "A" (mkReader [] 0 0 0) ("3.7,x" :: post)
                      empty_world) = Raise ValueError).
Proof.
  split; [ reflexivity | ]. split; [ reflexivity | ].
  exact (row_skipped_iff "," 1 0 None "A" (mkReader [] 0 0 0) "3.7,x"
           empty_world ["3.7"; "x"] "3.7" eq_refl eq_refl).
Defined.

(** The two remarks of claim C10 on whole files: a fractional site is
    truncated, and a score that is no float aborts the run. *)
Example fractional_site_and_bad_score :
  snd (read_generic_data "," 1 0 None "A" ["3.7,0.5"] empty_world)
  = Return [("A", [(3, Py.Fin (1 # 2))])] /\
  snd (read_generic_data "," 1 0 None "A" ["1,0.5"; "3.7,x"; "4,4"] empty_world)
  = Raise ValueError.
Proof. split; vm_compute; reflexivity. Qed.

(** * Further properties *)

Local Open Scope Z_scope.

(** ** Dictionaries *)

Section DictFacts.
Context {K V : Type} (eqb : K -> K -> bool).
Hypothesis eqb_eq : forall a b, eqb a b = true <-> a = b.

Lemma dict_get_set_same k (v : V) d : dict_get eqb k (dict_set eqb k v d) = Some v.
Proof.
  induction d as [| [k' v'] d IH]; cbn [dict_set dict_get].
  - replace (eqb k k) with true by (symmetry; apply eqb_eq; reflexivity).
    reflexivity.
  - destruct (eqb k' k) eqn:E; cbn [dict_get]; rewrite E; [ reflexivity | exact IH ].
Qed.

Lemma dict_get_set_other k k' (v : V) d :
  k <> k' -> dict_get eqb k' (dict_set eqb k v d) = dict_get eqb k' d.
Proof.
  intro Hne. induction d as [| [k0 v0] d IH]; cbn [dict_set dict_get].
  - destruct (eqb k k') eqn:E; [ apply eqb_eq in E; contradiction | reflexivity ].
  - destruct (eqb k0 k) eqn:E; cbn [dict_get].
    + apply eqb_eq in E. subst k0.
      destruct (eqb k k') eqn:E'; [ apply eqb_eq in E'; contradiction | reflexivity ].
    + destruct (eqb k0 k'); [ reflexivity | exact IH ].
Qed.

Lemma dict_get_In k (d : list (K * V)) :
  dict_get eqb k d <> None <-> In k (dict_keys d).
Proof.
  induction d as [| [k0 v0] d IH]; cbn [dict_get dict_keys map fst In].
  - split; [ congruence | tauto ].
  - destruct (eqb k0 k) eqn:E.
    + apply eqb_eq in E. split; [ intros _; left; exact E | discriminate ].
    + rewrite IH. split; [ intro H; right; exact H | ].
      intros [H | H]; [ | exact H ].
      apply eqb_eq in H. congruence.
Qed.

Lemma dict_keys_set k (v : V) d :
  dict_keys (dict_set eqb k v d) =
  if existsb (fun k' => eqb k' k) (dict_keys d) then dict_keys d
  else dict_keys d ++ [k].
Proof.
  induction d as [| [k0 v0] d IH]; cbn [dict_set dict_keys map fst existsb app].
  - reflexivity.
  - destruct (eqb k0 k) eqn:E; cbn [orb map fst].
    + reflexivity.
    + fold (dict_keys (dict_set eqb k v d)). rewrite IH. fold (dict_keys d).
      destruct (existsb (fun k' => eqb k' k) (dict_keys d)); reflexivity.
Qed.

Lemma dict_set_NoDup k (v : V) d :
  NoDup (dict_keys d) -> NoDup (dict_keys (dict_set eqb k v d)).
Proof.
  intro Hnd. rewrite dict_keys_set.
  destruct (existsb (fun k' => eqb k' k) (dict_keys d)) eqn:E; [ exact Hnd | ].
  apply NoDup_app; [ exact Hnd | constructor; [ intros [] | constructor ] | ].
  intros x Hx [Heq | []]. subst x.
  assert (Hex : existsb (fun k' => eqb k' k) (dict_keys d) = true).
  { apply existsb_exists. exists k. split; [ exact Hx | apply eqb_eq; reflexivity ]. }
  congruence.
Qed.

Lemma dict_set_In_keys k (v : V) d : In k (dict_keys (dict_set eqb k v d)).
Proof.
  apply dict_get_In. rewrite dict_get_set_same. discriminate.
Qed.

Lemma dict_set_keys_incl k (v : V) d x :
  In x (dict_keys (dict_set eqb k v d)) -> x = k \/ In x (dict_keys d).
Proof.
  rewrite dict_keys_set.
  destruct (existsb (fun k' => eqb k' k) (dict_keys d)).
  - intro H. right. exact H.
  - intro H. apply in_app_or in H. destruct H as [H | [H | []]];
      [ right; exact H | left; symmetry; exact H ].
Qed.

Lemma dict_set_keys_keep k (v : V) d x :
  In x (dict_keys d) -> In x (dict_keys (dict_set eqb k v d)).
Proof.
  rewrite dict_keys_set.
  destruct (existsb (fun k' => eqb k' k) (dict_keys d)); intro H;
    [ exact H | apply in_or_app; left; exact H ].
Qed.
End DictFacts.

Lemma Zeqb_eq a b : Z.eqb a b = true <-> a = b.
Proof. apply Z.eqb_eq. Qed.

Lemma Seqb_eq a b : String.eqb a b = true <-> a = b.
Proof. apply String.eqb_eq. Qed.

(** Keys compared by an equivalence (the floats that key [scoregroups]). *)
Section DictEquiv.
Context {K V : Type} (eqb : K -> K -> bool).
Hypothesis eqb_sym : forall a b, eqb a b = eqb b a.
Hypothesis eqb_trans : forall a b c, eqb a b = true -> eqb b c = true -> eqb a c = true.

Lemma dict_get_set k0 (x : V) d k :
  dict_get eqb k (dict_set eqb k0 x d) =
  if eqb k0 k then Some x else dict_get eqb k d.
Proof.
  induction d as [| [k' v'] d IH]; cbn [dict_set dict_get].
  - reflexivity.
  - destruct (eqb k' k0) eqn:E0; cbn [dict_get].
    + destruct (eqb k' k) eqn:E1.
      * rewrite eqb_sym in E0. rewrite (eqb_trans _ _ _ E0 E1). reflexivity.
      * destruct (eqb k0 k) eqn:E2; [ | reflexivity ].
        rewrite (eqb_trans _ _ _ E0 E2) in E1. discriminate.
    + destruct (eqb k' k) eqn:E1; [ | exact IH ].
      destruct (eqb k0 k) eqn:E2; [ | reflexivity ].
      rewrite eqb_sym in E2. rewrite (eqb_trans _ _ _ E1 E2) in E0. discriminate.
Qed.
End DictEquiv.

Lemma Qeq_bool_sym a b : Qeq_bool a b = Qeq_bool b a.
Proof.
  destruct (Qeq_bool a b) eqn:E1, (Qeq_bool b a) eqn:E2; try reflexivity.
  - apply Qeq_bool_iff in E1. symmetry in E1. apply Qeq_bool_iff in E1. congruence.
  - apply Qeq_bool_iff in E2. symmetry in E2. apply Qeq_bool_iff in E2. congruence.
Qed.

Lemma Qeq_bool_trans' a b c :
  Qeq_bool a b = true -> Qeq_bool b c = true -> Qeq_bool a c = true.
Proof.
  intros H1 H2. apply Qeq_bool_iff in H1, H2. apply Qeq_bool_iff.
  rewrite H1. exact H2.
Qed.

(** ** The reader, line by line *)

Lemma chain_scores_set_same {V} chain (rd : list (Z * V)) d :
  chain_scores (dict_set String.eqb chain rd d) chain = rd.
Proof.
  unfold chain_scores. rewrite (dict_get_set_same String.eqb Seqb_eq). reflexivity.
Qed.

Lemma chain_scores_set_other {V} chain chain' (rd : list (Z * V)) d :
  chain <> chain' ->
  chain_scores (dict_set String.eqb chain rd d) chain' = chain_scores d chain'.
Proof.
  intro H. unfold chain_scores.
  rewrite (dict_get_set_other String.eqb Seqb_eq) by exact H. reflexivity.
Qed.

Section ReaderMore.
Variables (delimiter : string) (scorecolumn sitecolumn : Z)
          (chaincolumn : option Z) (defaultchain : string).

Local Abbreviation line_step :=
  (read_line delimiter scorecolumn sitecolumn chaincolumn defaultchain).
Local Abbreviation loop :=
  (read_lines delimiter scorecolumn sitecolumn chaincolumn defaultchain).
Local Abbreviation store := (store_row scorecolumn chaincolumn defaultchain).

(** Lines 76 to 82, case by case. *)
Lemma store_row_cases lsplits st site w :
  store lsplits st site w =
    (w, match Py.index lsplits scorecolumn with
        | Raise e => Raise e
        | Return scoretext =>
            match Py.float scoretext with
            | Raise e => Raise e
            | Return score =>
                match row_chain chaincolumn defaultchain lsplits with
                | Raise e => Raise e
                | Return chain =>
                    Return (mkReader
                              (dict_set String.eqb chain
                                 (dict_set Z.eqb site score
                                    (chain_scores (rawscore_dict st) chain))
                                 (rawscore_dict st))
                              (linecounter st) (foundscores st + 1)
                              (columnmax st))
                end
            end
        end).
Proof.
  unfold store_row, row_chain. run_monad.
  destruct (Py.index lsplits scorecolumn) as [scoretext | e]; [ | reflexivity ].
  destruct (Py.float scoretext) as [score | e]; [ | reflexivity ].
  destruct chaincolumn as [c |]; [ | reflexivity ].
  destruct (Py.index lsplits c); reflexivity.
Qed.

(** A line the reader passes over changes nothing. *)
Lemma ignored_line_step st rawline w :
  ignored_line rawline = true -> line_step st rawline w = (w, Return st).
Proof.
  unfold ignored_line, read_line.
  destruct (Py.strip rawline) as [| c rest]; [ reflexivity | ].
  intro H. rewrite H. reflexivity.
Qed.

(** A line that is not passed over and cannot be split raises. *)
Lemma unsplit_line_step st rawline w :
  ignored_line rawline = false -> row_fields delimiter rawline = None ->
  exists e, line_step st rawline w = (w, Raise e).
Proof.
  unfold ignored_line, row_fields, read_line.
  destruct (Py.strip rawline) as [| c rest]; [ discriminate | ].
  intros H. rewrite H.
  destruct (Py.split (String c rest) delimiter) as [l | e]; [ discriminate | ].
  intros _. exists e. reflexivity.
Qed.

Lemma row_fields_not_ignored rawline lsplits :
  row_fields delimiter rawline = Some lsplits -> ignored_line rawline = false.
Proof.
  unfold ignored_line, row_fields.
  destruct (Py.strip rawline) as [| c rest]; [ discriminate | ].
  destruct (Ascii.eqb c "#"); [ discriminate | reflexivity ].
Qed.

(** Every line is passed over, cannot be split, or is a data row. *)
Lemma line_kinds rawline :
  ignored_line rawline = true \/
  (ignored_line rawline = false /\ row_fields delimiter rawline = None) \/
  exists lsplits, row_fields delimiter rawline = Some lsplits.
Proof.
  unfold ignored_line, row_fields.
  destruct (Py.strip rawline) as [| c rest]; [ left; reflexivity | ].
  destruct (Ascii.eqb c "#"); [ left; reflexivity | right ].
  destruct (Py.split (String c rest) delimiter) as [l | e];
    [ right; exists l; reflexivity | left; split; reflexivity ].
Qed.

(** What one line does to a state, when it returns. *)
Lemma line_step_inv st rawline w w' st' :
  line_step st rawline w = (w', Return st') ->
  w' = w /\
  ((ignored_line rawline = true /\ st' = st) \/
   exists lsplits,
     row_fields delimiter rawline = Some lsplits /\
     (st' = counted st lsplits \/
      exists site score chain,
        row_chain chaincolumn defaultchain lsplits = Return chain /\
        st' = mkReader
                (dict_set String.eqb chain
                   (dict_set Z.eqb site score
                      (chain_scores (rawscore_dict st) chain))
                   (rawscore_dict st))
                (linecounter st + 1) (foundscores st + 1)
                (columnmax (counted st lsplits)))).
Proof.
  destruct (line_kinds rawline) as [Hig | [[Hig Hno] | [lsplits Hrow]]].
  - rewrite (ignored_line_step st rawline w Hig). intro H. inversion H.
    split; [ reflexivity | left; split; [ exact Hig | reflexivity ] ].
  - destruct (unsplit_line_step st rawline w Hig Hno) as [e He].
    rewrite He. discriminate.
  - destruct (Py.index lsplits sitecolumn) as [sitecol | e] eqn:Hsite.
    + rewrite (read_line_data_row _ _ _ _ _ st rawline w lsplits sitecol Hrow Hsite).
      destruct (int_of_site sitecol) as [site | e].
      * rewrite store_row_cases.
        destruct (Py.index lsplits scorecolumn) as [scoretext | e]; [ | discriminate ].
        destruct (Py.float scoretext) as [score | e]; [ | discriminate ].
        destruct (row_chain chaincolumn defaultchain lsplits) as [chain | e]
          eqn:Hchain; [ | discriminate ].
        intro H. inversion H. split; [ reflexivity | right ].
        exists lsplits. split; [ exact Hrow | right ].
        exists site, score, chain. split; [ exact Hchain | reflexivity ].
      * destruct e; try discriminate.
        intro H. inversion H. split; [ reflexivity | right ].
        exists lsplits. split; [ exact Hrow | left; reflexivity ].
    + unfold row_fields in Hrow. unfold read_line.
      destruct (Py.strip rawline) as [| c rest]; [ discriminate | ].
      destruct (Ascii.eqb c "#"); [ discriminate | ].
      destruct (Py.split (String c rest) delimiter) as [l | e']; [ | discriminate ].
      injection Hrow as ->.
      cbv beta iota zeta delta [bind lift]. rewrite Hsite. discriminate.
Qed.
End ReaderMore.

(** ** The size and the shape of a table *)

Lemma table_size_set {V} chain (rd : list (Z * V)) d :
  (table_size (dict_set String.eqb chain rd d)
   + List.length (chain_scores d chain)
   = table_size d + List.length rd)%nat.
Proof.
  unfold table_size, chain_scores.
  induction d as [| [k v] d IH]; cbn [dict_set dict_get map List.concat snd].
  - cbn [List.length]. rewrite app_nil_r. lia.
  - destruct (String.eqb k chain); cbn [map List.concat snd];
      rewrite !length_app; [ lia | ].
    destruct (dict_get String.eqb chain d); cbn [List.length] in *; lia.
Qed.

Lemma dict_set_length {K V} (eqb : K -> K -> bool) k (v : V) d :
  (List.length d <= List.length (dict_set eqb k v d) <= List.length d + 1)%nat.
Proof.
  induction d as [| [k' v'] d IH]; cbn [dict_set List.length]; [ lia | ].
  destruct (eqb k' k); cbn [List.length]; lia.
Qed.

Lemma dict_set_not_nil {K V} (eqb : K -> K -> bool) k (v : V) d :
  dict_set eqb k v d <> [].
Proof.
  destruct d as [| [k' v'] d]; cbn [dict_set]; [ discriminate | ].
  destruct (eqb k' k); discriminate.
Qed.

Lemma dict_set_Forall {K V} (eqb : K -> K -> bool) (P : V -> Prop) k v
      (d : list (K * V)) :
  Forall (fun entry => P (snd entry)) d -> P v ->
  Forall (fun entry => P (snd entry)) (dict_set eqb k v d).
Proof.
  intros Hall Hv. induction Hall as [| [k' v'] d Hx Hall IH]; cbn [dict_set].
  - constructor; [ exact Hv | constructor ].
  - destruct (eqb k' k); constructor; try assumption.
Qed.

Lemma chain_scores_NoDup {V} (d : ScoreTable V) chain :
  unique_keys d -> NoDup (dict_keys (chain_scores d chain)).
Proof.
  intros [_ Hall]. unfold chain_scores.
  induction Hall as [| [k v] d Hx Hall IH]; cbn [dict_get]; [ constructor | ].
  destruct (String.eqb k chain); [ exact Hx | exact IH ].
Qed.

(** ** What the reading loop keeps true *)

Section ReaderInvariant.
Variables (delimiter : string) (scorecolumn sitecolumn : Z)
          (chaincolumn : option Z) (defaultchain : string).

Local Abbreviation line_step :=
  (read_line delimiter scorecolumn sitecolumn chaincolumn defaultchain).
Local Abbreviation loop :=
  (read_lines delimiter scorecolumn sitecolumn chaincolumn defaultchain).

Lemma read_line_invariant st rawline w w' st' :
  reader_invariant st ->
  line_step st rawline w = (w', Return st') ->
  reader_invariant st' /\ linecounter st' <= linecounter st + 1.
Proof.
  intros (Hc & Hsz & Huq & Hne & Hz) Hrun.
  apply line_step_inv in Hrun.
  destruct Hrun as [_ [[_ ->] | [lsplits [_ [-> | (site & score & chain & _ & ->)]]]]].
  - split; [ exact (conj Hc (conj Hsz (conj Huq (conj Hne Hz)))) | lia ].
  - unfold counted, reader_invariant.
    cbn [rawscore_dict linecounter foundscores columnmax].
    split; [ | lia ].
    refine (conj _ (conj Hsz (conj Huq (conj Hne Hz)))). lia.
  - unfold reader_invariant.
    cbn [rawscore_dict linecounter foundscores columnmax].
    split; [ | lia ].
    split; [ lia | ].
    split.
    { pose proof (table_size_set chain
                    (dict_set Z.eqb site score
                       (chain_scores (rawscore_dict st) chain))
                    (rawscore_dict st)) as Hts.
      pose proof (dict_set_length Z.eqb site score
                    (chain_scores (rawscore_dict st) chain)) as Hlen.
      lia. }
    split.
    { destruct Huq as [Hk Hall]. split.
      - apply (dict_set_NoDup String.eqb Seqb_eq). exact Hk.
      - apply (dict_set_Forall String.eqb (fun rd => NoDup (dict_keys rd))).
        + exact Hall.
        + apply (dict_set_NoDup Z.eqb Zeqb_eq).
          apply chain_scores_NoDup. split; assumption. }
    split.
    { apply (dict_set_Forall String.eqb (fun rd => rd <> [])).
      - exact Hne.
      - apply dict_set_not_nil. }
    split; [ lia | ].
    intro H. exfalso. exact (dict_set_not_nil _ _ _ _ H).
Qed.

Lemma read_lines_invariant lines : forall st w w' st',
  reader_invariant st ->
  loop st lines w = (w', Return st') ->
  reader_invariant st' /\
  linecounter st' <= linecounter st + Z.of_nat (List.length lines).
Proof.
  induction lines as [| line rest IH]; intros st w w' st' Hinv Hrun.
  - cbn in Hrun. inversion Hrun; subst. split; [ exact Hinv | cbn; lia ].
  - cbn [read_lines] in Hrun. unfold bind in Hrun.
    destruct (line_step st line w) as [w1 [st1 | e]] eqn:Hstep; [ | discriminate ].
    destruct (read_line_invariant st line w w1 st1 Hinv Hstep) as [Hinv1 Hl1].
    destruct (IH st1 w1 w' st' Hinv1 Hrun) as [Hinv' Hl'].
    split; [ exact Hinv' | ].
    cbn [List.length]. lia.
Qed.

Lemma initial_invariant : reader_invariant (mkReader [] 0 0 0).
Proof.
  unfold reader_invariant, unique_keys, table_size. cbn.
  split; [ lia | ]. split; [ lia | ].
  split; [ split; constructor | ].
  split; [ constructor | ].
  split; reflexivity.
Qed.

(** The loop writes nothing. *)
Lemma read_line_silent st rawline w w' r :
  line_step st rawline w = (w', r) -> w' = w.
Proof.
  unfold read_line, store_row, try_except_ValueError. run_monad.
  repeat step_run; intro H; inversion H; reflexivity.
Qed.

Lemma read_lines_silent lines : forall st w w' r,
  loop st lines w = (w', r) -> w' = w.
Proof.
  induction lines as [| line rest IH]; intros st w w' r Hrun.
  - cbn in Hrun. inversion Hrun. reflexivity.
  - cbn [read_lines] in Hrun. unfold bind in Hrun.
    destruct (line_step st line w) as [w1 [st1 | e]] eqn:Hstep.
    + apply read_line_silent in Hstep. apply IH in Hrun. congruence.
    + apply read_line_silent in Hstep. inversion Hrun. congruence.
Qed.

(** The whole function in terms of its loop. *)
Lemma read_generic_data_run lines w :
  read_generic_data delimiter scorecolumn sitecolumn chaincolumn defaultchain
                    lines w =
  let w1 := mkWorld (stdout w)
                    (stderr w ++ [MsgReadingScores scorecolumn delimiter]) in
  match loop (mkReader [] 0 0 0) lines w1 with
  | (_, Return st) =>
      (mkWorld (stdout w)
         ((stderr w1 ++ [MsgCounted (linecounter st) (foundscores st)])
          ++ (if (foundscores st =? 0) && (columnmax st <? 2)
              then [WarnNoScores] else [])),
       Return (rawscore_dict st))
  | (_, Raise e) => (w1, Raise e)
  end.
Proof.
  unfold read_generic_data. cbv beta iota zeta delta [bind stderr_write ret].
  match goal with
  | |- context [read_lines ?a ?b ?c ?d ?e ?s ?l ?v] =>
      destruct (read_lines a b c d e s l v) as [w' [st | e']] eqn:Hrun
  end.
  - apply read_lines_silent in Hrun. subst w'. cbn [stdout stderr].
    unfold when.
    destruct ((foundscores st =? 0) && (columnmax st <? 2))%bool;
      cbv beta iota delta [stderr_write ret]; cbn [stdout stderr].
    + reflexivity.
    + rewrite app_nil_r. reflexivity.
  - apply read_lines_silent in Hrun. subst w'. reflexivity.
Qed.
End ReaderInvariant.

Section ReaderCounts.
Variables (delimiter : string) (scorecolumn sitecolumn : Z)
          (chaincolumn : option Z) (defaultchain : string).

Local Abbreviation line_step :=
  (read_line delimiter scorecolumn sitecolumn chaincolumn defaultchain).
Local Abbreviation loop :=
  (read_lines delimiter scorecolumn sitecolumn chaincolumn defaultchain).

(** The line counter counts the lines that are not passed over; the column
    maximum stays below two as long as no row has two fields. *)
Lemma read_line_counters st rawline w w' st' :
  line_step st rawline w = (w', Return st') ->
  linecounter st' = linecounter st + Z.of_nat (List.length (data_lines [rawline])) /\
  (columnmax st' < 2 <->
   columnmax st < 2 /\
   forall lsplits, row_fields delimiter rawline = Some lsplits ->
                   (List.length lsplits < 2)%nat).
Proof.
  intro Hrun. apply line_step_inv in Hrun.
  destruct Hrun as [_ [[Hig ->] | [lsplits [Hrow Hst]]]].
  - unfold data_lines. cbn [filter]. rewrite Hig. cbn [negb List.length].
    split; [ lia | ].
    split; [ intro H; split; [ exact H | ] | tauto ].
    intros lsplits Hrow. apply row_fields_not_ignored in Hrow. congruence.
  - pose proof (row_fields_not_ignored _ _ _ Hrow) as Hig.
    unfold data_lines. cbn [filter]. rewrite Hig. cbn [negb List.length].
    assert (Hcm : columnmax st' = columnmax (counted st lsplits)
                  /\ linecounter st' = linecounter st + 1).
    { destruct Hst as [-> | (site & score & chain & _ & ->)];
        split; reflexivity. }
    destruct Hcm as [-> ->]. split; [ lia | ].
    unfold counted. cbn [columnmax].
    split.
    + intro H. destruct (columnmax st <? Z.of_nat (List.length lsplits)) eqn:E.
      * apply Z.ltb_lt in E. split; [ lia | ].
        intros l Hl. rewrite Hrow in Hl. injection Hl as <-. lia.
      * apply Z.ltb_ge in E. split; [ lia | ].
        intros l Hl. rewrite Hrow in Hl. injection Hl as <-. lia.
    + intros [H1 H2]. specialize (H2 lsplits Hrow).
      destruct (columnmax st <? Z.of_nat (List.length lsplits)); lia.
Qed.

Lemma read_lines_counters lines : forall st w w' st',
  loop st lines w = (w', Return st') ->
  linecounter st' = linecounter st + Z.of_nat (List.length (data_lines lines)) /\
  (columnmax st' < 2 <->
   columnmax st < 2 /\
   Forall (fun rawline =>
             forall lsplits, row_fields delimiter rawline = Some lsplits ->
                             (List.length lsplits < 2)%nat) lines).
Proof.
  induction lines as [| line rest IH]; intros st w w' st' Hrun.
  - cbn in Hrun. inversion Hrun; subst. cbn. split; [ lia | ].
    split; [ intro H; split; [ exact H | constructor ] | tauto ].
  - cbn [read_lines] in Hrun. unfold bind in Hrun.
    destruct (line_step st line w) as [w1 [st1 | e]] eqn:Hstep; [ | discriminate ].
    destruct (read_line_counters _ _ _ _ _ Hstep) as [Hl1 Hc1].
    destruct (IH _ _ _ _ Hrun) as [Hl Hc].
    split.
    + rewrite Hl, Hl1. unfold data_lines. cbn [filter].
      destruct (negb (ignored_line line)); cbn [List.length]; lia.
    + rewrite Hc, Hc1. split.
      * intros [[H1 H2] H3]. split; [ exact H1 | constructor; assumption ].
      * intros [H1 H2]. inversion H2; subst. tauto.
Qed.

(** Lines that are passed over can be taken out of the file. *)
Lemma read_lines_data_lines lines : forall st w,
  loop st lines w = loop st (data_lines lines) w.
Proof.
  induction lines as [| line rest IH]; intros st w; [ reflexivity | ].
  unfold data_lines. cbn [filter read_lines].
  destruct (ignored_line line) eqn:Hig; cbn [negb read_lines]; unfold bind.
  - rewrite (ignored_line_step _ _ _ _ _ st line w Hig). apply IH.
  - destruct (line_step st line w) as [w1 [st1 | e]]; [ apply IH | reflexivity ].
Qed.

Lemma data_lines_idem lines : data_lines (data_lines lines) = data_lines lines.
Proof.
  unfold data_lines. induction lines as [| line rest IH]; [ reflexivity | ].
  cbn [filter]. destruct (negb (ignored_line line)) eqn:E; [ | exact IH ].
  cbn [filter]. rewrite E, IH. reflexivity.
Qed.
End ReaderCounts.

(** Property X4 ([read_generic_data], lines 60 to 83): when the reader
    returns, its closing message reports as lines the lines of the file that
    are neither blank nor comments, and as scores a number that lies between
    the number of scores the returned table holds (a later row for the same
    chain and residue replaces an earlier one) and that number of lines. *)
Theorem reader_counts delimiter scorecolumn sitecolumn chaincolumn defaultchain
        lines w w' d :
  read_generic_data delimiter scorecolumn sitecolumn chaincolumn defaultchain
                    lines w = (w', Return d) ->
  exists foundscores rest,
    stderr w' = stderr w
                ++ MsgReadingScores scorecolumn delimiter
                   :: MsgCounted (Z.of_nat (List.length (data_lines lines)))
                                 foundscores
                   :: rest /\
    Z.of_nat (table_size d) <= foundscores
    <= Z.of_nat (List.length (data_lines lines)) /\
    (List.length (data_lines lines) <= List.length lines)%nat.
Proof.
  rewrite read_generic_data_run. cbv zeta.
  match goal with
  | |- context [read_lines ?a ?b ?c ?d ?e ?s ?l ?v] =>
      destruct (read_lines a b c d e s l v) as [w1 [st | e']] eqn:Hrun
  end; [ | discriminate ].
  intro H. injection H as <- <-.
  destruct (read_lines_invariant _ _ _ _ _ _ _ _ _ _ initial_invariant Hrun)
    as [(Hc & Hsz & _) _].
  destruct (read_lines_counters _ _ _ _ _ _ _ _ _ _ Hrun) as [Hl _].
  cbn [linecounter] in Hl. rewrite Z.add_0_l in Hl.
  exists (foundscores st). eexists.
  cbn [stderr]. rewrite <- !app_assoc. cbn [app]. rewrite Hl.
  split; [ reflexivity | ].
  split; [ lia | ].
  unfold data_lines. apply filter_length_le.
Qed.

(** The file [site,score / 1,0.5]: two lines counted, one score. *)
Lemma reader_counts_witness :
  exists foundscores rest,
    stderr (mkWorld [] [MsgReadingScores 1 ","; MsgCounted 2 1])
    = stderr empty_world
      ++ MsgReadingScores 1 ","
         :: MsgCounted (Z.of_nat (List.length (data_lines header_file)))
                       foundscores
         :: rest /\
    Z.of_nat (table_size [("A", [(1, Py.Fin (1 # 2))])]) <= foundscores
    <= Z.of_nat (List.length (data_lines header_file)) /\
    (List.length (data_lines header_file) <= List.length header_file)%nat.
Proof.
  apply (reader_counts "," 1 0 None "A" header_file empty_world).
  vm_compute. reflexivity.
Defined.

(** Property X5 ([read_generic_data], lines 59 to 87): in the table the
    reader returns every chain has at least one score, so that a table with
    a chain gives the binner a score to start from; no chain and no residue
    of a chain is listed twice; and the reader writes nothing to the script
    output. *)
Theorem reader_table_wellformed delimiter scorecolumn sitecolumn chaincolumn
        defaultchain lines w w' d :
  read_generic_data delimiter scorecolumn sitecolumn chaincolumn defaultchain
                    lines w = (w', Return d) ->
  Forall (fun entry => snd entry <> []) d /\ unique_keys d /\
  stdout w' = stdout w.
Proof.
  rewrite read_generic_data_run. cbv zeta.
  match goal with
  | |- context [read_lines ?a ?b ?c ?d ?e ?s ?l ?v] =>
      destruct (read_lines a b c d e s l v) as [w1 [st | e']] eqn:Hrun
  end; [ | discriminate ].
  intro H. injection H as <- <-.
  destruct (read_lines_invariant _ _ _ _ _ _ _ _ _ _ initial_invariant Hrun)
    as [(_ & _ & Huq & Hne & _) _].
  split; [ exact Hne | split; [ exact Huq | reflexivity ] ].
Qed.

(** The same file: one chain with one score. *)
Lemma reader_table_wellformed_witness :
  Forall (fun entry : string * list (Z * Py.pyfloat) => snd entry <> [])
         [("A", [(1, Py.Fin (1 # 2))])] /\
  unique_keys [("A", [(1, Py.Fin (1 # 2))])] /\
  stdout (mkWorld [] [MsgReadingScores 1 ","; MsgCounted 2 1]) = stdout empty_world.
Proof.
  apply (reader_table_wellformed "," 1 0 None "A" header_file empty_world).
  vm_compute. reflexivity.
Defined.

(** Property X6 ([read_generic_data], lines 84 to 86): when the reader
    returns, it has written the warning about a wrong delimiter exactly when
    the table it returns is empty and no data row of the file has two or
    more columns. *)
Theorem no_scores_warning_iff delimiter scorecolumn sitecolumn chaincolumn
        defaultchain lines w w' d :
  read_generic_data delimiter scorecolumn sitecolumn chaincolumn defaultchain
                    lines w = (w', Return d) ->
  (d = [] /\
   Forall (fun rawline =>
             forall lsplits, row_fields delimiter rawline = Some lsplits ->
                             (List.length lsplits < 2)%nat) lines)
  <-> In WarnNoScores (skipn (List.length (stderr w)) (stderr w')).
Proof.
  rewrite read_generic_data_run. cbv zeta.
  match goal with
  | |- context [read_lines ?a ?b ?c ?d ?e ?s ?l ?v] =>
      destruct (read_lines a b c d e s l v) as [w1 [st | e']] eqn:Hrun
  end; [ | discriminate ].
  intro H. injection H as <- <-.
  destruct (read_lines_invariant _ _ _ _ _ _ _ _ _ _ initial_invariant Hrun)
    as [(_ & _ & _ & _ & Hz) _].
  destruct (read_lines_counters _ _ _ _ _ _ _ _ _ _ Hrun) as [_ Hc].
  cbn [columnmax] in Hc.
  cbn [stderr]. rewrite <- !app_assoc.
  rewrite skipn_app, skipn_all, Nat.sub_diag. cbn [skipn app].
  rewrite <- Hz.
  destruct (foundscores st =? 0) eqn:Ef; cbn [andb].
  - apply Z.eqb_eq in Ef.
    destruct (columnmax st <? 2) eqn:Ec.
    + apply Z.ltb_lt in Ec. split.
      * intros _. right. right. left. reflexivity.
      * intros _. split; [ exact Ef | ]. apply Hc. exact Ec.
    + apply Z.ltb_ge in Ec. split.
      * intros [_ Hall]. assert (columnmax st < 2) by (apply Hc; split; [ lia | exact Hall ]).
        lia.
      * intros [H | [H | []]]; discriminate.
  - apply Z.eqb_neq in Ef. split.
    + intros [H _]. contradiction.
    + intros [H | [H | []]]; discriminate.
Qed.

(** A file separated by blanks read with a comma as delimiter. *)
Lemma no_scores_warning_iff_witness :
  ([] = @nil (string * list (Z * Py.pyfloat)) /\
   Forall (fun rawline =>
             forall lsplits, row_fields "," rawline = Some lsplits ->
                             (List.length lsplits < 2)%nat) ["1 0.5"; "2 0.25"])
  <-> In WarnNoScores
         (skipn (List.length (stderr empty_world))
                (stderr (mkWorld [] [MsgReadingScores 1 ","; MsgCounted 2 0;
                                     WarnNoScores]))).
Proof.
  apply (no_scores_warning_iff "," 1 0 None "A" ["1 0.5"; "2 0.25"] empty_world).
  vm_compute. reflexivity.
Defined.

Lemma read_lines_app delimiter scorecolumn sitecolumn chaincolumn defaultchain
      pre : forall post st w,
  read_lines delimiter scorecolumn sitecolumn chaincolumn defaultchain st
             (pre ++ post) w =
  match read_lines delimiter scorecolumn sitecolumn chaincolumn defaultchain st
                   pre w with
  | (w1, Return st1) =>
      read_lines delimiter scorecolumn sitecolumn chaincolumn defaultchain st1
                 post w1
  | (w1, Raise e) => (w1, Raise e)
  end.
Proof.
  induction pre as [| line pre IH]; intros post st w; [ reflexivity | ].
  cbn [app read_lines]. unfold bind.
  destruct (read_line delimiter scorecolumn sitecolumn chaincolumn defaultchain
                      st line w) as [w1 [st1 | e]]; [ apply IH | reflexivity ].
Qed.

(** Property X7 ([read_generic_data], lines 71 to 82): a data row whose
    site converts and whose score is a float is stored under its chain and
    residue: afterwards the table gives that score there, whatever stood
    there before, every other entry of the table is as it was, and the
    score count has grown by one. *)
Theorem stored_row_lookup delimiter scorecolumn sitecolumn chaincolumn
        defaultchain st rawline w lsplits sitecol site scoretext score chain :
  row_fields delimiter rawline = Some lsplits ->
  Py.index lsplits sitecolumn = Return sitecol ->
  int_of_site sitecol = Return site ->
  Py.index lsplits scorecolumn = Return scoretext ->
  Py.float scoretext = Return score ->
  row_chain chaincolumn defaultchain lsplits = Return chain ->
  exists st',
    read_line delimiter scorecolumn sitecolumn chaincolumn defaultchain st
              rawline w = (w, Return st') /\
    lookup_score (rawscore_dict st') chain site = Some score /\
    (forall chain' site',
        (chain', site') <> (chain, site) ->
        lookup_score (rawscore_dict st') chain' site'
        = lookup_score (rawscore_dict st) chain' site') /\
    foundscores st' = foundscores st + 1.
Proof.
  intros Hrow Hsite Hint Hscore Hfloat Hchain.
  rewrite (read_line_data_row _ _ _ _ _ st rawline w lsplits sitecol Hrow Hsite).
  rewrite Hint, store_row_cases, Hscore, Hfloat, Hchain.
  eexists. split; [ reflexivity | ].
  unfold lookup_score, counted. cbn [rawscore_dict foundscores].
  split; [ | split; [ | reflexivity ] ].
  - rewrite chain_scores_set_same.
    apply (dict_get_set_same Z.eqb Zeqb_eq).
  - intros chain' site' Hne.
    destruct (String.eqb chain chain') eqn:E.
    + apply String.eqb_eq in E. subst chain'.
      rewrite chain_scores_set_same.
      apply (dict_get_set_other Z.eqb Zeqb_eq). congruence.
    + apply String.eqb_neq in E. rewrite chain_scores_set_other by exact E.
      reflexivity.
Qed.

(** The row [7,0.5] over a table that has 0.25 at residue 7. *)
Lemma stored_row_lookup_witness :
  exists st',
    read_line "," 1 0 None "A" (mkReader [("A", [(7, Py.Fin (1 # 4))])] 1 1 2)
              "7,0.5" empty_world = (empty_world, Return st') /\
    lookup_score (rawscore_dict st') "A" 7 = Some (Py.Fin (1 # 2)) /\
    (forall chain' site',
        (chain', site') <> ("A", 7) ->
        lookup_score (rawscore_dict st') chain' site'
        = lookup_score [("A", [(7, Py.Fin (1 # 4))])] chain' site') /\
    foundscores st' = 1 + 1.
Proof.
  exact (stored_row_lookup "," 1 0 None "A"
           (mkReader [("A", [(7, Py.Fin (1 # 4))])] 1 1 2) "7,0.5" empty_world
           ["7"; "0.5"] "7" 7 "0.5" (Py.Fin (1 # 2)) "A"
           eq_refl eq_refl eq_refl eq_refl eq_refl eq_refl).
Defined.

(** Property X8 ([read_generic_data], lines 64 to 66): blank lines and
    lines whose first character after stripping is [#] can be taken out of
    the file: the reader returns or raises the same, and writes the same
    messages. *)
Theorem ignored_lines_removable delimiter scorecolumn sitecolumn chaincolumn
        defaultchain lines w :
  read_generic_data delimiter scorecolumn sitecolumn chaincolumn defaultchain
                    lines w =
  read_generic_data delimiter scorecolumn sitecolumn chaincolumn defaultchain
                    (data_lines lines) w.
Proof.
  rewrite 2 read_generic_data_run. cbv zeta.
  rewrite <- read_lines_data_lines. reflexivity.
Qed.

(** Property X9 ([read_generic_data], lines 72 to 75): a data row whose
    site reads as an infinity is not skipped: [int] raises [OverflowError],
    which the [except ValueError] does not catch, and the whole read stops
    there, whatever rows follow. *)
Theorem infinite_site_aborts delimiter scorecolumn sitecolumn chaincolumn
        defaultchain pre rawline post w d lsplits sitecol :
  snd (read_generic_data delimiter scorecolumn sitecolumn chaincolumn
                         defaultchain pre w) = Return d ->
  row_fields delimiter rawline = Some lsplits ->
  Py.index lsplits sitecolumn = Return sitecol ->
  Py.float sitecol = Return Py.PosInf \/ Py.float sitecol = Return Py.NegInf ->
  snd (read_generic_data delimiter scorecolumn sitecolumn chaincolumn
                         defaultchain (pre ++ rawline :: post) w)
  = Raise OverflowError.
Proof.
  intros Hpre Hrow Hsite Hinf. revert Hpre.
  rewrite 2 read_generic_data_run. cbv zeta. rewrite read_lines_app.
  match goal with
  | |- context [read_lines ?a ?b ?c ?d ?e ?s pre ?v] =>
      destruct (read_lines a b c d e s pre v) as [w1 [st1 | e']]
  end; [ intros _ | discriminate ].
  cbn [read_lines]. unfold bind.
  rewrite (read_line_data_row _ _ _ _ _ st1 rawline w1 lsplits sitecol Hrow Hsite).
  unfold int_of_site.
  destruct Hinf as [-> | ->]; reflexivity.
Qed.

(** The row [inf,2] between two good rows. *)
Lemma infinite_site_aborts_witness :
  snd (read_generic_data "," 1 0 None "A" (["1,0.5"] ++ "inf,2" :: ["3,4"])
                         empty_world)
  = Raise OverflowError.
Proof.
  apply (infinite_site_aborts "," 1 0 None "A" ["1,0.5"] "inf,2" ["3,4"]
           empty_world [("A", [(1, Py.Fin (1 # 2))])] ["inf"; "2"] "inf").
  - vm_compute. reflexivity.
  - reflexivity.
  - reflexivity.
  - left. reflexivity.
Defined.

(** Without a chain column no chain but the default one enters the table. *)
Lemma read_lines_default_chain delimiter scorecolumn sitecolumn defaultchain
      lines : forall st w w' st',
  (rawscore_dict st = [] \/ exists rd, rawscore_dict st = [(defaultchain, rd)]) ->
  read_lines delimiter scorecolumn sitecolumn None defaultchain st lines w
  = (w', Return st') ->
  rawscore_dict st' = [] \/ exists rd, rawscore_dict st' = [(defaultchain, rd)].
Proof.
  induction lines as [| line rest IH]; intros st w w' st' Hinv Hrun.
  - cbn in Hrun. inversion Hrun; subst. exact Hinv.
  - cbn [read_lines] in Hrun. unfold bind in Hrun.
    destruct (read_line delimiter scorecolumn sitecolumn None defaultchain st
                        line w) as [w1 [st1 | e]] eqn:Hstep; [ | discriminate ].
    apply (IH st1 w1 w' st'); [ | exact Hrun ].
    apply line_step_inv in Hstep.
    destruct Hstep
      as [_ [[_ ->] | [lsplits [_ [-> | (site & score & chain & Hc & ->)]]]]].
    + exact Hinv.
    + exact Hinv.
    + cbn [row_chain] in Hc. injection Hc as <-. right.
      cbn [rawscore_dict].
      destruct Hinv as [-> | [rd ->]].
      * eexists. reflexivity.
      * cbn [dict_set]. rewrite String.eqb_refl. eexists. reflexivity.
Qed.

(** Property X10 ([read_generic_data], lines 77 to 81): without a chain
    column the returned table is empty or holds the default chain and no
    other. *)
Theorem single_default_chain delimiter scorecolumn sitecolumn defaultchain
        lines w w' d :
  read_generic_data delimiter scorecolumn sitecolumn None defaultchain lines w
  = (w', Return d) ->
  d = [] \/ exists rd, d = [(defaultchain, rd)].
Proof.
  rewrite read_generic_data_run. cbv zeta.
  match goal with
  | |- context [read_lines ?a ?b ?c ?d ?e ?s ?l ?v] =>
      destruct (read_lines a b c d e s l v) as [w1 [st | e']] eqn:Hrun
  end; [ | discriminate ].
  intro H. injection H as <- <-.
  apply (read_lines_default_chain _ _ _ _ _ (mkReader [] 0 0 0) _ _ _
           (or_introl eq_refl) Hrun).
Qed.

(** The file [site,score / 1,0.5] again. *)
Lemma single_default_chain_witness :
  [("A", [(1, Py.Fin (1 # 2))])] = []
  \/ exists rd, [("A", [(1, Py.Fin (1 # 2))])] = [("A", rd)].
Proof.
  apply (single_default_chain "," 1 0 "A" header_file empty_world
           (mkWorld [] [MsgReadingScores 1 ","; MsgCounted 2 1])).
  vm_compute. reflexivity.
Defined.

(** ** The chain reader *)

Lemma dict_set_In {K V} (eqb : K -> K -> bool)
      (eqb_eq : forall a b, eqb a b = true <-> a = b) k (v : V) d entry :
  In entry (dict_set eqb k v d) -> entry = (k, v) \/ In entry d.
Proof.
  induction d as [| [k' v'] d IH]; cbn [dict_set In].
  - intros [H | []]. left. symmetry. exact H.
  - destruct (eqb k' k) eqn:E; cbn [In].
    + apply eqb_eq in E. subst k'. intros [H | H];
        [ left; symmetry; exact H | right; right; exact H ].
    + intros [H | H]; [ right; left; exact H | ].
      destruct (IH H) as [H' | H']; [ left; exact H' | right; right; exact H' ].
Qed.

Lemma keep_chain_invariant seqids lines line seqid st st' :
  In line lines -> is_dbref line = true -> In seqid seqids ->
  PyText.contains (Py.strip (PyText.slice 42 56 line)) seqid = true ->
  chains_invariant seqids lines st ->
  Pdb.keep_chain line (Py.strip (PyText.slice 42 56 line)) st = Pdb.Done st' ->
  chains_invariant seqids lines st' /\ Pdb.defaultchain st' = Pdb.defaultchain st.
Proof.
  intros Hin Hdb Hseq Hmatch (Hkeys & Hkeep & Hoff & Hlog).
  unfold Pdb.keep_chain.
  destruct (PyText.char_at 12 line) as [chaintarget | e] eqn:Hc; [ | discriminate ].
  destruct (PyText.int (Py.strip (PyText.slice 14 18 line)))
    as [chainstart | e] eqn:Hs; [ | discriminate ].
  destruct (PyText.int (Py.strip (PyText.slice 55 60 line)))
    as [dbstart | e] eqn:Hd; [ | discriminate ].
  intro H. injection H as <-.
  assert (Hfrom : from_dbref seqids lines chaintarget
                    (Py.strip (PyText.slice 42 56 line)) (dbstart - chainstart)).
  { exists line, seqid, chainstart, dbstart. repeat split; assumption. }
  split; [ | reflexivity ].
  unfold chains_invariant.
  cbn [Pdb.keepchains Pdb.refoffsets Pdb.chainlog].
  split; [ | split; [ | split ] ].
  - rewrite 2 dict_keys_set, Hkeys. reflexivity.
  - intros chain proteinid H.
    apply (dict_set_In String.eqb Seqb_eq) in H. destruct H as [H | H].
    + injection H as -> ->. eexists. exact Hfrom.
    + apply Hkeep. exact H.
  - intros chain chainoffset H.
    apply (dict_set_In String.eqb Seqb_eq) in H. destruct H as [H | H].
    + injection H as -> ->. eexists. exact Hfrom.
    + apply Hoff. exact H.
  - intros chain H. apply in_app_or in H. destruct H as [H | [H | []]].
    + exact (Hlog chain H).
    + discriminate.
Qed.

Lemma each_seqid_invariant seqids lines line : forall rest st st',
  In line lines -> is_dbref line = true -> incl rest seqids ->
  chains_invariant seqids lines st ->
  Pdb.each_seqid line (Py.strip (PyText.slice 42 56 line)) rest st = Pdb.Done st' ->
  chains_invariant seqids lines st' /\ Pdb.defaultchain st' = Pdb.defaultchain st.
Proof.
  induction rest as [| seqid rest IH]; intros st st' Hin Hdb Hincl Hinv.
  - cbn. intro H. injection H as <-. split; [ exact Hinv | reflexivity ].
  - cbn [Pdb.each_seqid].
    destruct (PyText.contains (Py.strip (PyText.slice 42 56 line)) seqid) eqn:Hm.
    + destruct (Pdb.keep_chain line (Py.strip (PyText.slice 42 56 line)) st)
        as [st1 | e st1] eqn:Hk; [ | discriminate ].
      cbn [Pdb.and_then]. intro Hrun.
      destruct (keep_chain_invariant seqids lines line seqid st st1 Hin Hdb
                  (Hincl seqid (or_introl eq_refl)) Hm Hinv Hk) as [Hinv1 Hd1].
      destruct (IH st1 st' Hin Hdb (fun x Hx => Hincl x (or_intror Hx)) Hinv1 Hrun)
        as [Hinv' Hd']. split; [ exact Hinv' | congruence ].
    + cbn [Pdb.and_then]. intro Hrun.
      exact (IH st st' Hin Hdb (fun x Hx => Hincl x (or_intror Hx)) Hinv Hrun).
Qed.

Lemma chains_invariant_weaken seqids line lines st :
  chains_invariant seqids lines st -> chains_invariant seqids (line :: lines) st.
Proof.
  intros (Hkeys & Hkeep & Hoff & Hlog).
  assert (Hw : forall chain proteinid chainoffset,
             from_dbref seqids lines chain proteinid chainoffset ->
             from_dbref seqids (line :: lines) chain proteinid chainoffset).
  { intros chain proteinid chainoffset (l & s & cs & ds & Hl & H).
    exists l, s, cs, ds. split; [ right; exact Hl | exact H ]. }
  split; [ exact Hkeys | split; [ | split; [ | exact Hlog ] ] ].
  - intros chain proteinid H. destruct (Hkeep _ _ H) as [o Ho].
    exists o. apply Hw. exact Ho.
  - intros chain o H. destruct (Hoff _ _ H) as [p Hp].
    exists p. apply Hw. exact Hp.
Qed.

(** The loop over the lines, seen from the lines already read: [seen] in
    reverse order. *)
Lemma read_records_invariant seqids : forall lines seen st st',
  chains_invariant seqids seen st ->
  Pdb.read_records (Some seqids) st lines = Pdb.Done st' ->
  chains_invariant seqids (rev lines ++ seen) st' /\
  Pdb.defaultchain st' =
    if existsb is_dbref lines then None else Pdb.defaultchain st.
Proof.
  induction lines as [| line rest IH]; intros seen st st' Hinv.
  - cbn. intro H. injection H as <-. split; [ exact Hinv | reflexivity ].
  - cbn [Pdb.read_records rev existsb]. rewrite <- app_assoc. cbn [app].
    unfold Pdb.read_record. fold (is_dbref line).
    destruct (is_dbref line) eqn:Hdb; cbn [orb].
    + match goal with
      | |- Pdb.and_then (Pdb.each_seqid ?l ?p ?s ?t) _ = _ -> _ =>
          destruct (Pdb.each_seqid l p s t) as [st1 | e st1] eqn:He;
            [ | discriminate ]
      end.
      cbn [Pdb.and_then]. intro Hrun.
      assert (Hinv0 : chains_invariant seqids (line :: seen)
                        (Pdb.mkState (Pdb.keepchains st) (Pdb.refoffsets st) None
                                     (Pdb.chainlog st)))
        by (apply chains_invariant_weaken; exact Hinv).
      destruct (each_seqid_invariant seqids (line :: seen) line seqids _ st1
                  (or_introl eq_refl) Hdb (fun x Hx => Hx) Hinv0 He)
        as [Hinv1 Hd1].
      cbn [Pdb.defaultchain] in Hd1.
      destruct (IH (line :: seen) st1 st' Hinv1 Hrun) as [Hinv' Hd'].
      split; [ exact Hinv' | ].
      rewrite Hd', Hd1. destruct (existsb is_dbref rest); reflexivity.
    + cbn [Pdb.and_then]. intro Hrun.
      exact (IH (line :: seen) st st' (chains_invariant_weaken _ _ _ _ Hinv) Hrun).
Qed.

Lemma initial_chains_invariant seqids defaultchain :
  chains_invariant seqids []
    (Pdb.mkState [] [] (Some defaultchain) [Pdb.MsgReadingChain]).
Proof.
  split; [ reflexivity | split; [ | split ] ].
  - intros chain p [].
  - intros chain o [].
  - intros chain [H | []]. discriminate.
Qed.

(** Without a [DBREF] line the loop changes nothing, whatever [seqidlist]. *)
Lemma read_records_no_dbref seqidlist : forall lines st,
  existsb is_dbref lines = false ->
  Pdb.read_records seqidlist st lines = Pdb.Done st.
Proof.
  induction lines as [| line rest IH]; intros st; [ reflexivity | ].
  cbn [existsb Pdb.read_records]. intro H. apply orb_false_iff in H.
  destruct H as [Hl Hr]. unfold Pdb.read_record. fold (is_dbref line).
  rewrite Hl. cbn [Pdb.and_then]. apply IH. exact Hr.
Qed.

(** Property X11 ([get_chains_only], lines 94 to 116): when the structure
    file has no [DBREF] record and the default chain is not the empty
    string, the function returns that chain alone, with offset 0 and, as its
    sequence, the first of the given sequence identifiers, or [UNKNOWN] when
    none is given. *)
Theorem no_dbref_default_chain defaultchain seqidlist lines :
  existsb is_dbref lines = false -> defaultchain <> "" ->
  exists st,
    Pdb.get_chains_only defaultchain seqidlist lines = Pdb.Done st /\
    Pdb.keepchains st =
      [(defaultchain,
        match seqidlist with
        | Some (first :: _) => first
        | _ => "UNKNOWN"
        end)] /\
    Pdb.refoffsets st = [(defaultchain, 0)] /\
    Pdb.chainlog st = [Pdb.MsgReadingChain; Pdb.MsgUsingDefault defaultchain].
Proof.
  intros Hno Hne. unfold Pdb.get_chains_only.
  rewrite (read_records_no_dbref seqidlist lines _ Hno).
  cbn [Pdb.and_then]. unfold Pdb.use_default. cbn [Pdb.defaultchain].
  destruct defaultchain as [| c rest]; [ contradiction | ].
  eexists. split; [ reflexivity | ].
  cbn. repeat split.
Qed.

(** A structure file without [DBREF] record, two sequences given. *)
Lemma no_dbref_default_chain_witness :
  exists st,
    Pdb.get_chains_only "A" (Some ["PROT_HUMAN"; "PROT_MOUSE"])
      ["HEADER    TRANSFERASE"; "ATOM      1  N   MET A   1"] = Pdb.Done st /\
    Pdb.keepchains st = [("A", "PROT_HUMAN")] /\
    Pdb.refoffsets st = [("A", 0)] /\
    Pdb.chainlog st = [Pdb.MsgReadingChain; Pdb.MsgUsingDefault "A"].
Proof.
  apply (no_dbref_default_chain "A" (Some ["PROT_HUMAN"; "PROT_MOUSE"])
           ["HEADER    TRANSFERASE"; "ATOM      1  N   MET A   1"]).
  - reflexivity.
  - discriminate.
Defined.

(** Property X12 ([get_chains_only], lines 107, 108, 111 to 114): the two
    dictionaries the function returns have the same chains in the same
    order, so that the offset of a kept chain is always found and the
    default of [refoffsets.get(chain, 0)] in the script writer is never
    what decides it. *)
Theorem kept_chains_have_offsets defaultchain seqidlist lines st :
  Pdb.get_chains_only defaultchain seqidlist lines = Pdb.Done st ->
  dict_keys (Pdb.keepchains st) = dict_keys (Pdb.refoffsets st) /\
  forall chain,
    In chain (dict_keys (Pdb.keepchains st)) ->
    dict_get String.eqb chain (Pdb.refoffsets st) <> None.
Proof.
  intro Hrun.
  assert (Hkeys : dict_keys (Pdb.keepchains st) = dict_keys (Pdb.refoffsets st)).
  { revert Hrun. unfold Pdb.get_chains_only.
    destruct seqidlist as [seqids |].
    - destruct (Pdb.read_records (Some seqids) _ lines) as [st1 | e st1] eqn:Hr;
        [ | discriminate ].
      apply (read_records_invariant seqids lines [] _ st1
               (initial_chains_invariant seqids defaultchain)) in Hr.
      destruct Hr as [(Hkeys & _) _].
      cbn [Pdb.and_then]. intro H. injection H as <-.
      unfold Pdb.use_default.
      destruct (Pdb.defaultchain st1) as [[| c rest] |]; try exact Hkeys.
      cbn [Pdb.keepchains Pdb.refoffsets].
      rewrite 2 dict_keys_set, Hkeys. reflexivity.
    - destruct (existsb is_dbref lines) eqn:Hex.
      + assert (Hf : forall st0, exists st1,
                   Pdb.read_records None st0 lines = Pdb.Failed Pdb.TypeError st1).
        { clear - Hex. induction lines as [| line rest IH]; [ discriminate | ].
          intro st0. cbn [existsb] in Hex. cbn [Pdb.read_records].
          unfold Pdb.read_record. fold (is_dbref line).
          destruct (is_dbref line).
          - eexists. reflexivity.
          - cbn [Pdb.and_then]. apply IH. exact Hex. }
        destruct (Hf (Pdb.mkState [] [] (Some defaultchain) [Pdb.MsgReadingChain]))
          as [st1 ->]. discriminate.
      + rewrite (read_records_no_dbref None lines _ Hex).
        cbn [Pdb.and_then]. intro H. injection H as <-.
        unfold Pdb.use_default. cbn [Pdb.defaultchain].
        destruct defaultchain; reflexivity. }
  split; [ exact Hkeys | ].
  intros chain Hin. apply (dict_get_In String.eqb Seqb_eq).
  rewrite <- Hkeys. exact Hin.
Qed.

(** The [DBREF] record of 1FD3: chain A, offset 24 - 1. *)
Lemma kept_chains_have_offsets_witness :
  dict_keys [("A", "BD02_HUMAN")] = dict_keys [("A", 23)] /\
  forall chain,
    In chain (dict_keys [("A", "BD02_HUMAN")]) ->
    dict_get String.eqb chain [("A", 23)] <> None.
Proof.
  apply (kept_chains_have_offsets "A" (Some ["BD02_HUMAN"]) [dbref_1fd3]
           (Pdb.mkState [("A", "BD02_HUMAN")] [("A", 23)] None
              [Pdb.MsgReadingChain; Pdb.MsgKeepingChain "A" "BD02_HUMAN" 23])).
  vm_compute. reflexivity.
Defined.




Lemma each_seqid_no_match line : forall seqids st,
  forallb (fun seqid => negb (PyText.contains (dbref_proteinid line) seqid)) seqids
  = true ->
  Pdb.each_seqid line (dbref_proteinid line) seqids st = Pdb.Done st.
Proof.
  induction seqids as [| seqid rest IH]; intros st; [ reflexivity | ].
  cbn [forallb Pdb.each_seqid]. intro H. apply andb_true_iff in H.
  destruct H as [Hm Hr]. apply negb_true_iff in Hm. rewrite Hm.
  cbn [Pdb.and_then]. apply IH. exact Hr.
Qed.

(** Property X14 ([get_chains_only], lines 97 to 109): when the file has
    [DBREF] records and none of them names one of the given sequences, the
    function returns two empty dictionaries and writes nothing but its
    opening line: the default chain is not used in their place. *)
Theorem unmatched_dbref_keeps_nothing defaultchain seqids lines :
  existsb is_dbref lines = true ->
  Forall (fun line =>
            is_dbref line = true ->
            forallb (fun seqid =>
                       negb (PyText.contains (dbref_proteinid line) seqid))
                    seqids = true) lines ->
  Pdb.get_chains_only defaultchain (Some seqids) lines
  = Pdb.Done (Pdb.mkState [] [] None [Pdb.MsgReadingChain]).
Proof.
  intros Hex Hall. unfold Pdb.get_chains_only.
  assert (Hloop : forall dc,
             (exists d, dc = Some d) \/ dc = None ->
             Pdb.read_records (Some seqids)
               (Pdb.mkState [] [] dc [Pdb.MsgReadingChain]) lines
             = Pdb.Done (Pdb.mkState [] []
                           (if existsb is_dbref lines then None else dc)
                           [Pdb.MsgReadingChain])).
  { clear Hex. induction Hall as [| line rest Hline Hall IH]; intros dc Hdc;
      [ reflexivity | ].
    cbn [Pdb.read_records existsb]. unfold Pdb.read_record. fold (is_dbref line).
    fold (dbref_proteinid line).
    destruct (is_dbref line) eqn:Hdb; cbn [orb].
    - cbn [Pdb.keepchains Pdb.refoffsets Pdb.chainlog].
      rewrite (each_seqid_no_match line seqids _ (Hline eq_refl)).
      cbn [Pdb.and_then]. rewrite (IH None (or_intror eq_refl)).
      destruct (existsb is_dbref rest); reflexivity.
    - cbn [Pdb.and_then]. apply IH. exact Hdc. }
  rewrite (Hloop (Some defaultchain) (or_introl (ex_intro _ defaultchain eq_refl))).
  rewrite Hex. reflexivity.
Qed.

(** The same record, asked for another protein. *)
Lemma unmatched_dbref_keeps_nothing_witness :
  Pdb.get_chains_only "A" (Some ["BD03_HUMAN"]) [dbref_1fd3]
  = Pdb.Done (Pdb.mkState [] [] None [Pdb.MsgReadingChain]).
Proof.
  apply (unmatched_dbref_keeps_nothing "A" ["BD03_HUMAN"] [dbref_1fd3]).
  - reflexivity.
  - constructor; [ intros _; vm_compute; reflexivity | constructor ].
Defined.

(** Property X15 ([get_chains_only], line 100): without sequence
    identifiers ([seqidlist] is [None]) the first [DBREF] record of the file
    makes the function fail with [TypeError], before any chain is kept. *)
Theorem dbref_without_sequences defaultchain lines :
  existsb is_dbref lines = true ->
  Pdb.get_chains_only defaultchain None lines
  = Pdb.Failed Pdb.TypeError (Pdb.mkState [] [] None [Pdb.MsgReadingChain]).
Proof.
  intro Hex. unfold Pdb.get_chains_only.
  generalize (Some defaultchain) as dc.
  induction lines as [| line rest IH]; intro dc; [ discriminate | ].
  cbn [existsb] in Hex. cbn [Pdb.read_records].
  unfold Pdb.read_record. fold (is_dbref line).
  destruct (is_dbref line); [ reflexivity | ].
  cbn [Pdb.and_then]. apply IH. exact Hex.
Qed.

(** The same record behind a header line, no sequence given. *)
Lemma dbref_without_sequences_witness :
  Pdb.get_chains_only "A" None ["HEADER    ANTIMICROBIAL PROTEIN"; dbref_1fd3]
  = Pdb.Failed Pdb.TypeError (Pdb.mkState [] [] None [Pdb.MsgReadingChain]).
Proof.
  apply (dbref_without_sequences "A"
           ["HEADER    ANTIMICROBIAL PROTEIN"; dbref_1fd3]).
  reflexivity.
Defined.

(** A slice that starts past the end is empty. *)
Lemma substring_past_end n : forall s m,
  (String.length s <= n)%nat -> String.substring n m s = "".
Proof.
  induction n as [| n IH]; intros s m Hlen.
  - destruct s; [ destruct m; reflexivity | cbn in Hlen; lia ].
  - destruct s as [| c s]; [ destruct m; reflexivity | ].
    cbn [String.substring]. apply IH. cbn in Hlen. lia.
Qed.

Lemma PyText_int_ValueError s e : PyText.int s = Raise e -> e = ValueError.
Proof.
  unfold PyText.int. destruct (Py.sign_of (Py.strip_c s)) as [neg body].
  destruct (Py.digitpart body) as [[[v n] [| c r]] |];
    intro H; inversion H; reflexivity.
Qed.

(** Property X16 ([get_chains_only], lines 99 to 104): a [DBREF] record of
    at most 55 characters whose protein identifier occurs in a sequence
    identifier stops the function with [IndexError] (no chain letter) or
    [ValueError] (no number to read), and the two dictionaries stay as they
    were. *)
Theorem short_dbref_aborts seqids st line :
  is_dbref line = true -> (String.length line <= 55)%nat ->
  existsb (PyText.contains (dbref_proteinid line)) seqids = true ->
  exists e st',
    Pdb.read_record (Some seqids) st line = Pdb.Failed (Pdb.Builtin e) st' /\
    (e = IndexError \/ e = ValueError) /\
    Pdb.keepchains st' = Pdb.keepchains st /\
    Pdb.refoffsets st' = Pdb.refoffsets st.
Proof.
  intros Hdb Hlen Hex. unfold Pdb.read_record. fold (is_dbref line).
  rewrite Hdb. fold (dbref_proteinid line).
  set (st0 := Pdb.mkState (Pdb.keepchains st) (Pdb.refoffsets st) None
                          (Pdb.chainlog st)).
  assert (Hgoal : exists e st',
             Pdb.each_seqid line (dbref_proteinid line) seqids st0
             = Pdb.Failed (Pdb.Builtin e) st' /\
             (e = IndexError \/ e = ValueError) /\ st' = st0).
  { induction seqids as [| seqid rest IH]; [ discriminate | ].
    cbn [existsb] in Hex. cbn [Pdb.each_seqid].
    destruct (PyText.contains (dbref_proteinid line) seqid) eqn:Hm.
    - unfold Pdb.keep_chain.
      unfold PyText.char_at.
      destruct (String.get 12 line) as [c |].
      + destruct (PyText.int (Py.strip (PyText.slice 14 18 line)))
          as [chainstart | e] eqn:Hs.
        * unfold PyText.slice at 1.
          rewrite (substring_past_end 55 line _ Hlen).
          exists ValueError, st0. cbn. tauto.
        * apply PyText_int_ValueError in Hs. subst e.
          exists ValueError, st0. cbn. tauto.
      + exists IndexError, st0. cbn. tauto.
    - cbn [Pdb.and_then]. apply IH. exact Hex. }
  destruct Hgoal as (e & st' & -> & He & ->).
  exists e, st0. split; [ reflexivity | split; [ exact He | ] ].
  split; reflexivity.
Qed.

(** The same record cut after its protein identifier. *)
Lemma short_dbref_aborts_witness :
  exists e st',
    Pdb.read_record (Some ["BD02_HUMAN"])
      (Pdb.mkState [] [] (Some "A") [Pdb.MsgReadingChain])
      "DBREF  1FD3 A    1    41  UNP    O15263   BD02_HUMAN"
    = Pdb.Failed (Pdb.Builtin e) st' /\
    (e = IndexError \/ e = ValueError) /\
    Pdb.keepchains st' = [] /\
    Pdb.refoffsets st' = [].
Proof.
  apply (short_dbref_aborts ["BD02_HUMAN"]
           (Pdb.mkState [] [] (Some "A") [Pdb.MsgReadingChain])
           "DBREF  1FD3 A    1    41  UNP    O15263   BD02_HUMAN").
  - reflexivity.
  - vm_compute. lia.
  - reflexivity.
Defined.

(** ** The script writer *)

(** ** Indexing *)

Lemma index_nat {A} (l : list A) (i : nat) :
  Py.index l (Z.of_nat i) =
  match nth_error l i with
  | Some a => Return a
  | None => Raise IndexError
  end.
Proof.
  unfold Py.index.
  destruct (Z.of_nat i <? 0) eqn:E; [ apply Z.ltb_lt in E; lia | ].
  replace (0 <=? Z.of_nat i) with true by (symmetry; apply Z.leb_le; lia).
  cbn [andb]. rewrite Nat2Z.id.
  destruct (Z.of_nat i <? Z.of_nat (List.length l)) eqn:E'.
  - reflexivity.
  - apply Z.ltb_ge in E'.
    assert (H : nth_error l i = None) by (apply nth_error_None; lia).
    rewrite H. reflexivity.
Qed.

Lemma world_eta w : mkWorld (stdout w) (stderr w) = w.
Proof. destruct w. reflexivity. Qed.

(** ** The colour definitions *)

Lemma emit_colors_run basecolor binvalues correction targetcolors :
  forall i w,
    emit_colors basecolor binvalues correction (Z.of_nat i) targetcolors w =
    (mkWorld (stdout w
              ++ color_defs basecolor (skipn i binvalues) correction targetcolors)
             (stderr w),
     if (List.length targetcolors <=? List.length binvalues - i)%nat
     then Return tt else Raise IndexError).
Proof.
  induction targetcolors as [| rgb rest IH]; intros i w.
  - cbn [emit_colors]. unfold ret, color_defs.
    rewrite combine_nil. cbn [map List.length Nat.leb].
    rewrite app_nil_r, world_eta. reflexivity.
  - cbn [emit_colors]. run_monad. rewrite index_nat.
    destruct (nth_error binvalues i) as [value |] eqn:Hn.
    + assert (Hi : (i < List.length binvalues)%nat)
        by (apply nth_error_Some; congruence).
      replace (Z.of_nat i + 1) with (Z.of_nat (S i)) by lia.
      rewrite IH. cbn [stdout stderr].
      assert (Hs : skipn i binvalues = value :: skipn (S i) binvalues).
      { clear - Hn. revert i Hn.
        induction binvalues as [| x l IHl]; intros [| i] Hn; try discriminate.
        - injection Hn as ->. reflexivity.
        - cbn [skipn]. cbn [nth_error] in Hn. rewrite (IHl i Hn).
          reflexivity. }
      rewrite Hs. unfold color_defs. cbn [combine map fst snd].
      rewrite <- app_assoc. cbn [app List.length].
      replace (S (List.length rest) <=? List.length binvalues - i)%nat
        with (List.length rest <=? List.length binvalues - S i)%nat.
      * reflexivity.
      * destruct (List.length rest <=? List.length binvalues - S i)%nat eqn:E1;
          symmetry; [ apply Nat.leb_le; apply Nat.leb_le in E1; lia
                    | apply Nat.leb_gt; apply Nat.leb_gt in E1; lia ].
    + assert (Hi : (List.length binvalues <= i)%nat)
        by (apply nth_error_None; exact Hn).
      rewrite skipn_all2 by exact Hi. unfold color_defs. cbn [combine map].
      rewrite app_nil_r, world_eta.
      replace (List.length (rgb :: rest) <=? List.length binvalues - i)%nat
        with false; [ reflexivity | ].
      symmetry. apply Nat.leb_gt. cbn [List.length]. lia.
Qed.

(** ** The score groups of a chain *)

Lemma dict_get_equiv {V} k k' (d : list (Q * V)) :
  Qeq_bool k k' = true -> dict_get Qeq_bool k d = dict_get Qeq_bool k' d.
Proof.
  intro H. induction d as [| [k0 v0] d IH]; cbn [dict_get]; [ reflexivity | ].
  destruct (Qeq_bool k0 k) eqn:E.
  - rewrite (Qeq_bool_trans' _ _ _ E H). reflexivity.
  - destruct (Qeq_bool k0 k') eqn:E'; [ | exact IH ].
    rewrite Qeq_bool_sym in H. rewrite (Qeq_bool_trans' _ _ _ E' H) in E.
    discriminate.
Qed.

Lemma group_get_append v x groups value :
  group_get value (group_append v x groups) =
  if Qeq_bool v value then group_get value groups ++ [x]
  else group_get value groups.
Proof.
  unfold group_get, group_append.
  destruct (dict_get Qeq_bool v groups) as [l |] eqn:Hl;
    rewrite (dict_get_set Qeq_bool Qeq_bool_sym Qeq_bool_trans');
    destruct (Qeq_bool v value) eqn:E; try reflexivity;
    rewrite <- (dict_get_equiv v value groups E), Hl; reflexivity.
Qed.

Lemma group_get_assign_chain binvalues rd chainoffset value :
  group_get value (assign_chain binvalues rd chainoffset) =
  bin_residues binvalues rd chainoffset value.
Proof.
  unfold assign_chain, bin_residues.
  assert (H : forall keys acc,
             group_get value
               (fold_left (assign_residue binvalues rd chainoffset) keys acc) =
             group_get value acc
             ++ map (fun residue => residue - chainoffset)
                    (filter (lands_in binvalues rd value) keys)).
  { induction keys as [| r keys IH]; intro acc; cbn [fold_left filter map].
    - rewrite app_nil_r. reflexivity.
    - assert (Hstep : group_get value
                        (assign_residue binvalues rd chainoffset acc r) =
                      group_get value acc
                      ++ (if lands_in binvalues rd value r
                          then [r - chainoffset] else [])).
      { unfold assign_residue, lands_in.
        destruct (find_bin 0 binvalues _) as [[j v] |].
        - rewrite group_get_append.
          destruct (Qeq_bool v value);
            [ reflexivity | rewrite app_nil_r; reflexivity ].
        - rewrite app_nil_r. reflexivity. }
      rewrite IH, Hstep.
      destruct (lands_in binvalues rd value r); cbn [map];
        rewrite <- app_assoc; reflexivity. }
  rewrite H. reflexivity.
Qed.

(** ** The selections of a chain *)

Lemma emit_bins_run excl basecolor groupname chain correction defaultindex
      scoregroups lowers : forall i w,
  emit_bins excl basecolor groupname chain correction defaultindex scoregroups
            i lowers w =
  (mkWorld (stdout w
            ++ bin_directives excl basecolor groupname chain correction
                 defaultindex scoregroups i lowers)
           (stderr w),
   Return tt).
Proof.
  induction lowers as [| value rest IH]; intros i w.
  - cbn [emit_bins bin_directives]. unfold ret.
    rewrite app_nil_r, world_eta. reflexivity.
  - cbn [emit_bins bin_directives].
    destruct ((i =? defaultindex) && excl).
    + cbv beta iota delta [bind ret]. rewrite IH. reflexivity.
    + destruct (group_get value scoregroups) as [| r l].
      * cbv beta iota delta [bind ret]. rewrite IH. reflexivity.
      * cbv beta iota delta [bind ret wayout_write]. rewrite IH.
        cbn [stdout stderr]. rewrite <- !app_assoc. reflexivity.
Qed.

Lemma bin_directives_select excl basecolor groupname chain correction
      defaultindex scoregroups lowers : forall i v g n c l,
  In (Select v g n c l)
     (bin_directives excl basecolor groupname chain correction defaultindex
                     scoregroups i lowers) <->
  exists k value,
    nth_error lowers k = Some value /\ n = i + Z.of_nat k + 1 /\
    v = scaled correction value /\ g = groupname /\ c = chain /\
    l = group_get value scoregroups /\ l <> [] /\
    (excl = true -> i + Z.of_nat k <> defaultindex).
Proof.
  induction lowers as [| value rest IH]; intros i v g n c l.
  - cbn [bin_directives In]. split; [ intros [] | ].
    intros (k & value & H & _). destruct k; discriminate.
  - cbn [bin_directives]. rewrite in_app_iff, IH. split.
    + intros [H | (k & value' & Hk & Hn & Hrest)].
      * exists 0%nat, value. cbn [nth_error].
        destruct ((i =? defaultindex) && excl) eqn:E; [ destruct H | ].
        destruct (group_get value scoregroups) as [| r rs] eqn:Hg;
          [ destruct H | ].
        destruct H as [H | [H | []]]; [ | discriminate ].
        injection H as <- <- <- <- <-.
        repeat split; try reflexivity; try lia.
        -- discriminate.
        -- intros ->. rewrite andb_true_r in E. apply Z.eqb_neq in E. lia.
      * exists (S k), value'. cbn [nth_error].
        split; [ exact Hk | split; [ lia | ] ].
        destruct Hrest as (Hv & Hg & Hc & Hl & Hne & Hex).
        repeat split; try assumption. intro He. specialize (Hex He). lia.
    + intros ([| k] & value' & Hk & Hn & Hv & Hg & Hc & Hl & Hne & Hex).
      * left. cbn [nth_error] in Hk. injection Hk as <-.
        assert (E : (i =? defaultindex) && excl = false).
        { destruct excl; [ | apply andb_false_r ].
          rewrite andb_true_r. apply Z.eqb_neq. specialize (Hex eq_refl). lia. }
        rewrite E. subst l.
        destruct (group_get value scoregroups) as [| r rs];
          [ contradiction | ].
        left. subst. f_equal. lia.
      * right. cbn [nth_error] in Hk. exists k, value'.
        split; [ exact Hk | split; [ lia | ] ].
        repeat split; try assumption. intro He. specialize (Hex He). lia.
Qed.

Lemma colored_chains_app a b :
  colored_chains (a ++ b) = colored_chains a ++ colored_chains b.
Proof.
  induction a as [| d a IH]; [ reflexivity | ].
  destruct d; cbn [app colored_chains]; rewrite IH; reflexivity.
Qed.

Lemma bin_directives_no_chain excl basecolor groupname chain correction
      defaultindex scoregroups lowers : forall i,
  colored_chains
    (bin_directives excl basecolor groupname chain correction defaultindex
                    scoregroups i lowers) = [].
Proof.
  induction lowers as [| value rest IH]; intro i; [ reflexivity | ].
  cbn [bin_directives]. rewrite colored_chains_app, IH, app_nil_r.
  destruct ((i =? defaultindex) && excl); [ reflexivity | ].
  destruct (group_get value scoregroups); reflexivity.
Qed.

Lemma emit_chain_run excl scoredict refoffsets basecolor groupname b binvalues
      chain w :
  emit_chain excl scoredict refoffsets basecolor groupname b binvalues chain w =
  match defaultindex b with
  | None => (w, Raise UnboundLocalError)
  | Some di =>
      match Py.index binvalues di with
      | Raise e => (w, Raise e)
      | Return value0 =>
          (mkWorld (stdout w
                    ++ chain_block excl scoredict refoffsets basecolor groupname
                         (binname_correction b) binvalues di value0 chain)
                   (stderr w),
           Return tt)
      end
  end.
Proof.
  unfold emit_chain, local. fold (chain_offset refoffsets chain).
  destruct (defaultindex b) as [di |]; [ | reflexivity ].
  cbv beta iota delta [bind lift ret wayout_write].
  destruct (Py.index binvalues di) as [value0 | e]; [ | reflexivity ].
  rewrite emit_bins_run. cbn [stdout stderr]. unfold chain_block.
  rewrite <- app_assoc. reflexivity.
Qed.

Lemma emit_chains_run excl scoredict refoffsets basecolor groupname b binvalues
      chains : forall w,
  emit_chains excl scoredict refoffsets basecolor groupname b binvalues chains w =
  match chains with
  | [] => (w, Return tt)
  | _ :: _ =>
      match defaultindex b with
      | None => (w, Raise UnboundLocalError)
      | Some di =>
          match Py.index binvalues di with
          | Raise e => (w, Raise e)
          | Return value0 =>
              (mkWorld (stdout w
                        ++ List.concat
                             (map (chain_block excl scoredict refoffsets basecolor
                                     groupname (binname_correction b) binvalues
                                     di value0) chains))
                       (stderr w),
               Return tt)
          end
      end
  end.
Proof.
  induction chains as [| chain rest IH]; intro w; [ reflexivity | ].
  cbn [emit_chains]. unfold bind. rewrite emit_chain_run.
  destruct (defaultindex b) as [di |]; [ | reflexivity ].
  destruct (Py.index binvalues di) as [value0 | e]; [ | reflexivity ].
  rewrite IH. destruct rest as [| chain' rest'].
  - cbn [map List.concat]. rewrite app_nil_r. reflexivity.
  - cbn [stdout stderr]. cbn [map List.concat].
    rewrite <- !app_assoc. reflexivity.
Qed.

(** ** The whole of [make_output_script] *)

Lemma make_output_script_run excl dcg rc zo scoredict keepchains refoffsets
      groupname basecolor w :
  make_output_script excl dcg rc zo scoredict keepchains refoffsets groupname
                     basecolor w =
  match all_scores_of scoredict with
  | Raise e => (w, Raise e)
  | Return all_scores =>
      match derive_bins excl dcg rc zo all_scores w with
      | (w1, Raise e) => (w1, Raise e)
      | (w1, Return b) =>
          match binvalues b with
          | None => (w1, Raise UnboundLocalError)
          | Some bv =>
              let w2 := mkWorld (stdout w1 ++ preamble)
                                (stderr w1 ++ [MsgGeneratingScript basecolor bv]) in
              match dict_get String.eqb basecolor colors with
              | None => (w2, Raise KeyError)
              | Some palette =>
                  let targetcolors := if rc then rev palette else palette in
                  let w3 := mkWorld
                              (stdout w2
                               ++ color_defs basecolor bv (binname_correction b)
                                    targetcolors)
                              (stderr w2) in
                  if (List.length targetcolors <=? List.length bv)%nat
                  then emit_chains excl scoredict refoffsets basecolor groupname
                                   b bv keepchains w3
                  else (w3, Raise IndexError)
              end
          end
      end
  end.
Proof.
  unfold make_output_script, local, preamble.
  cbv beta iota zeta delta [bind lift].
  destruct (all_scores_of scoredict) as [all_scores | e]; [ | reflexivity ].
  destruct (derive_bins excl dcg rc zo all_scores w) as [w1 [b | e]];
    [ | reflexivity ].
  destruct (binvalues b) as [bv |]; [ | reflexivity ].
  cbv beta iota zeta delta [ret raise stderr_write wayout_write].
  cbn [stdout stderr]. rewrite <- !app_assoc. cbn [app].
  destruct (dict_get String.eqb basecolor colors) as [palette |];
    [ | reflexivity ].
  change 0 with (Z.of_nat 0). rewrite emit_colors_run.
  cbn [skipn stdout stderr]. rewrite Nat.sub_0_r.
  destruct (List.length (if rc then rev palette else palette)
            <=? List.length bv)%nat; reflexivity.
Qed.

Lemma palette_length basecolor palette :
  dict_get String.eqb basecolor colors = Some palette ->
  List.length palette = 9%nat.
Proof.
  unfold colors. cbn [dict_get].
  repeat match goal with
         | |- context [String.eqb ?k basecolor] =>
             destruct (String.eqb k basecolor);
             [ intro H; injection H as <-; reflexivity | ]
         end.
  discriminate.
Qed.

Lemma color_defs_rgb basecolor targetcolors correction : forall bv,
  (List.length targetcolors <= List.length bv)%nat ->
  map set_color_rgb (color_defs basecolor bv correction targetcolors)
  = targetcolors /\
  forallb is_set_color (color_defs basecolor bv correction targetcolors) = true /\
  List.length (color_defs basecolor bv correction targetcolors)
  = List.length targetcolors.
Proof.
  unfold color_defs.
  induction targetcolors as [| rgb rest IH]; intros bv Hlen.
  - rewrite combine_nil. repeat split.
  - destruct bv as [| value bv]; [ cbn in Hlen; lia | ].
    cbn [combine map fst snd set_color_rgb forallb is_set_color andb List.length].
    cbn [List.length] in Hlen.
    destruct (IH bv ltac:(lia)) as (H1 & H2 & H3).
    rewrite H1, H2, H3. repeat split.
Qed.

Lemma color_defs_length basecolor targetcolors correction bv :
  (List.length bv <= List.length targetcolors)%nat ->
  List.length (color_defs basecolor bv correction targetcolors) = List.length bv /\
  forallb is_set_color (color_defs basecolor bv correction targetcolors) = true.
Proof.
  unfold color_defs. intro Hlen. rewrite length_map, length_combine.
  split; [ lia | ].
  apply forallb_forall. intros d Hd. apply in_map_iff in Hd.
  destruct Hd as [p [<- _]]. reflexivity.
Qed.

Lemma chain_blocks_chains excl scoredict refoffsets basecolor groupname
      correction bv di value0 chains :
  colored_chains
    (List.concat (map (chain_block excl scoredict refoffsets basecolor groupname
                         correction bv di value0) chains)) = chains.
Proof.
  induction chains as [| chain rest IH]; [ reflexivity | ].
  cbn [map List.concat]. rewrite colored_chains_app, IH.
  unfold chain_block. cbn [colored_chains].
  rewrite bin_directives_no_chain. reflexivity.
Qed.

(** Property X17 ([make_output_script], lines 241 to 279): a run that
    completes has written, after what was there, the four opening
    directives, then nine colour definitions whose colours are those of the
    palette in order (in reverse order under [reverse_colors]), then the
    chains, each chain of [keepchains] coloured once and in the order of
    [keepchains]. *)
Theorem completed_script_layout excl dcg rc zo scoredict keepchains refoffsets
        groupname basecolor w w' :
  make_output_script excl dcg rc zo scoredict keepchains refoffsets groupname
                     basecolor w = (w', Return tt) ->
  exists palette defs blocks,
    dict_get String.eqb basecolor colors = Some palette /\
    stdout w' = stdout w ++ preamble ++ defs ++ blocks /\
    List.length defs = 9%nat /\
    forallb is_set_color defs = true /\
    map set_color_rgb defs = (if rc then rev palette else palette) /\
    colored_chains blocks = keepchains.
Proof.
  rewrite make_output_script_run.
  destruct (all_scores_of scoredict) as [all_scores | e]; [ | discriminate ].
  destruct (derive_bins excl dcg rc zo all_scores w) as [w1 [b | e]] eqn:Hd;
    [ | discriminate ].
  apply derive_bins_stdout in Hd.
  destruct (binvalues b) as [bv |]; [ | discriminate ].
  cbv zeta.
  destruct (dict_get String.eqb basecolor colors) as [palette |] eqn:Hp;
    [ | discriminate ].
  pose proof (palette_length _ _ Hp) as Hlen.
  set (targetcolors := if rc then rev palette else palette).
  assert (Htl : List.length targetcolors = 9%nat).
  { subst targetcolors. destruct rc; [ rewrite length_rev | ]; exact Hlen. }
  destruct (List.length targetcolors <=? List.length bv)%nat eqn:E;
    [ | discriminate ].
  apply Nat.leb_le in E.
  destruct (color_defs_rgb basecolor targetcolors (binname_correction b) bv E)
    as (Hrgb & Hset & Hdl).
  rewrite emit_chains_run. cbn [stdout stderr].
  destruct keepchains as [| chain rest].
  - intro H. injection H as <-.
    exists palette, (color_defs basecolor bv (binname_correction b) targetcolors), [].
    cbn [stdout]. rewrite Hd, app_nil_r, <- app_assoc.
    split; [ reflexivity | ]. split; [ reflexivity | ].
    split; [ congruence | ]. split; [ exact Hset | ].
    split; [ exact Hrgb | reflexivity ].
  - destruct (defaultindex b) as [di |]; [ | discriminate ].
    destruct (Py.index bv di) as [value0 | e]; [ | discriminate ].
    intro H. injection H as <-.
    exists palette, (color_defs basecolor bv (binname_correction b) targetcolors).
    eexists. cbn [stdout]. rewrite Hd, <- !app_assoc.
    split; [ reflexivity | ]. split; [ reflexivity | ].
    split; [ congruence | ]. split; [ exact Hset | ].
    split; [ exact Hrgb | ].
    exact (chain_blocks_chains excl scoredict refoffsets basecolor groupname
             (binname_correction b) bv di value0 (chain :: rest)).
Qed.

(** Chain A with the scores 0 and 8. *)
Lemma completed_script_layout_witness :
  exists w',
    make_output_script false None false 0 one_chain ["A"] [] "grp" "red"
                       empty_world = (w', Return tt) /\
    exists palette defs blocks,
      dict_get String.eqb "red" colors = Some palette /\
      stdout w' = stdout empty_world ++ preamble ++ defs ++ blocks /\
      List.length defs = 9%nat /\
      forallb is_set_color defs = true /\
      map set_color_rgb defs = (if false then rev palette else palette) /\
      colored_chains blocks = ["A"].
Proof.
  assert (Hrun : exists w',
             make_output_script false None false 0 one_chain ["A"] [] "grp" "red"
                                empty_world = (w', Return tt))
    by (eexists; vm_compute; reflexivity).
  destruct Hrun as [w' Hrun]. exists w'. split; [ exact Hrun | ].
  exact (completed_script_layout false None false 0 one_chain ["A"] [] "grp"
           "red" empty_world w' Hrun).
Defined.

Lemma bin_directives_colored excl basecolor groupname chain correction
      defaultindex scoregroups lowers : forall i v g n c l,
  In (Select v g n c l)
     (bin_directives excl basecolor groupname chain correction defaultindex
                     scoregroups i lowers) ->
  In (ColorSelection basecolor v g n c)
     (bin_directives excl basecolor groupname chain correction defaultindex
                     scoregroups i lowers).
Proof.
  induction lowers as [| value rest IH]; intros i v g n c l; [ intros [] | ].
  cbn [bin_directives]. rewrite !in_app_iff. intros [H | H].
  - left. destruct ((i =? defaultindex) && excl); [ destruct H | ].
    destruct (group_get value scoregroups) as [| r rs]; [ destruct H | ].
    destruct H as [H | [H | []]]; [ | discriminate ].
    injection H as <- <- <- <- <-. right. left. reflexivity.
  - right. exact (IH _ _ _ _ _ _ H).
Qed.

Lemma no_select_before_chains basecolor bv correction targetcolors v g n c l :
  ~ In (Select v g n c l)
       (preamble ++ color_defs basecolor bv correction targetcolors).
Proof.
  rewrite in_app_iff. intros [H | H].
  - unfold preamble in H. cbn [In] in H.
    repeat match type of H with
           | _ \/ _ => destruct H as [H | H]; [ discriminate | ]
           end. exact H.
  - unfold color_defs in H. apply in_map_iff in H.
    destruct H as [p [H _]]. discriminate.
Qed.

Lemma bin_residues_sound binvalues rd chainoffset value x :
  In x (bin_residues binvalues rd chainoffset value) ->
  exists residue,
    In residue (dict_keys rd) /\ x = residue - chainoffset /\
    lands_in binvalues rd value residue = true.
Proof.
  unfold bin_residues. intro H. apply in_map_iff in H.
  destruct H as [residue [<- H]]. apply filter_In in H.
  exists residue. tauto.
Qed.

(** Property X18 ([make_output_script], lines 256 to 279): whatever the
    run does, every selection it writes is about a chain of [keepchains],
    carries the group name, has ordinal at least 1, lists at least one
    residue, lists only residues of that chain's table, each lowered by the
    chain's offset, and is followed somewhere by the directive that colours
    it with the colour named after the same bin value. *)
Theorem selections_sound excl dcg rc zo scoredict keepchains refoffsets
        groupname basecolor w w' r :
  make_output_script excl dcg rc zo scoredict keepchains refoffsets groupname
                     basecolor w = (w', r) ->
  exists out,
    stdout w' = stdout w ++ out /\
    forall v g n c l,
      In (Select v g n c l) out ->
      l <> [] /\ g = groupname /\ In c keepchains /\ 1 <= n /\
      In (ColorSelection basecolor v g n c) out /\
      forall x, In x l ->
                exists residue,
                  In residue (dict_keys (chain_scores scoredict c)) /\
                  x = residue - chain_offset refoffsets c.
Proof.
  rewrite make_output_script_run.
  destruct (all_scores_of scoredict) as [all_scores | e].
  2:{ intro H. injection H as <- <-. exists []. rewrite app_nil_r.
      split; [ reflexivity | intros v g n c l [] ]. }
  destruct (derive_bins excl dcg rc zo all_scores w) as [w1 [b | e]] eqn:Hd;
    apply derive_bins_stdout in Hd.
  2:{ intro H. injection H as <- <-. exists []. rewrite app_nil_r.
      split; [ exact Hd | intros v g n c l [] ]. }
  destruct (binvalues b) as [bv |].
  2:{ intro H. injection H as <- <-. exists []. rewrite app_nil_r.
      split; [ exact Hd | intros v g n c l [] ]. }
  cbv zeta.
  destruct (dict_get String.eqb basecolor colors) as [palette |].
  2:{ intro H. injection H as <- <-. exists preamble. cbn [stdout]. rewrite Hd.
      split; [ reflexivity | ]. intros v g n c l H. exfalso.
      apply (no_select_before_chains basecolor [] 0%Q [] v g n c l).
      apply in_or_app. left. exact H. }
  set (targetcolors := if rc then rev palette else palette).
  set (defs := color_defs basecolor bv (binname_correction b) targetcolors).
  assert (Hstop :
             exists out,
               stdout (mkWorld ((stdout w1 ++ preamble) ++ defs)
                               (stderr w1 ++ [MsgGeneratingScript basecolor bv]))
               = stdout w ++ out /\
               forall v g n c l,
                 In (Select v g n c l) out ->
                 l <> [] /\ g = groupname /\ In c keepchains /\ 1 <= n /\
                 In (ColorSelection basecolor v g n c) out /\
                 forall x, In x l ->
                           exists residue,
                             In residue (dict_keys (chain_scores scoredict c)) /\
                             x = residue - chain_offset refoffsets c).
  { exists (preamble ++ defs). cbn [stdout].
    rewrite Hd, <- app_assoc. split; [ reflexivity | ].
    intros v g n c l H. exfalso.
    exact (no_select_before_chains _ _ _ _ _ _ _ _ _ H). }
  destruct (List.length targetcolors <=? List.length bv)%nat.
  2:{ intro H. injection H as <- <-. exact Hstop. }
  rewrite emit_chains_run. cbn [stdout stderr].
  destruct keepchains as [| chain0 rest0] eqn:Hkeep.
  { intro H. injection H as <- <-. exact Hstop. }
  rewrite <- Hkeep in *. clear Hkeep.
  destruct (defaultindex b) as [di |].
  2:{ intro H. injection H as <- <-. exact Hstop. }
  destruct (Py.index bv di) as [value0 | e].
  2:{ intro H. injection H as <- <-. exact Hstop. }
  intro H. injection H as <- <-. cbn [stdout].
  eexists. rewrite Hd, <- !app_assoc. split; [ reflexivity | ].
  intros v g n c l H.
  rewrite app_assoc in H. apply in_app_or in H. destruct H as [H | H].
  { exfalso. exact (no_select_before_chains _ _ _ _ _ _ _ _ _ H). }
  apply in_concat in H. destruct H as [block [Hblock H]].
  apply in_map_iff in Hblock. destruct Hblock as [chain [<- Hchain]].
  unfold chain_block in H. destruct H as [H | H]; [ discriminate | ].
  pose proof (bin_directives_colored _ _ _ _ _ _ _ _ _ _ _ _ _ _ H) as Hcol.
  apply bin_directives_select in H.
  destruct H as (k & value & _ & Hn & _ & Hg & Hc & Hl & Hne & _).
  subst c. rewrite group_get_assign_chain in Hl.
  split; [ exact Hne | ]. split; [ exact Hg | ]. split; [ exact Hchain | ].
  split; [ lia | ]. split.
  - rewrite app_assoc. apply in_or_app. right.
    apply in_concat. eexists. split.
    + apply in_map_iff. exists chain. split; [ reflexivity | exact Hchain ].
    + unfold chain_block. right. exact Hcol.
  - intros x Hx. rewrite Hl in Hx. apply bin_residues_sound in Hx.
    destruct Hx as [residue [Hin [Hx _]]]. exists residue. tauto.
Qed.

(** The same chain with offset 20. *)
Lemma selections_sound_witness :
  exists w' out,
    make_output_script false None false 0 one_chain ["A"] [("A", 20)] "grp" "red"
                       empty_world = (w', Return tt) /\
    stdout w' = stdout empty_world ++ out /\
    forall v g n c l,
      In (Select v g n c l) out ->
      l <> [] /\ g = "grp" /\ In c ["A"] /\ 1 <= n /\
      In (ColorSelection "red" v g n c) out /\
      forall x, In x l ->
                exists residue,
                  In residue (dict_keys (chain_scores one_chain c)) /\
                  x = residue - chain_offset [("A", 20)] c.
Proof.
  assert (Hrun : exists w',
             make_output_script false None false 0 one_chain ["A"] [("A", 20)]
                                "grp" "red" empty_world = (w', Return tt))
    by (eexists; vm_compute; reflexivity).
  destruct Hrun as [w' Hrun].
  destruct (selections_sound false None false 0 one_chain ["A"] [("A", 20)]
              "grp" "red" empty_world w' (Return tt) Hrun) as [out Hout].
  exists w', out. split; [ exact Hrun | exact Hout ].
Defined.

(** Property X19 ([make_output_script], lines 256 to 279): for one chain,
    the writer colours the chain with the colour of the default bin and
    then writes exactly these selections: for each bin but the last
    boundary, unless it is the default bin while [exclude_common] is set,
    and unless no residue falls into it, the residues of the chain's table
    whose scan ends in that bin, in table order, each lowered by the
    chain's offset. *)
Theorem chain_selections excl scoredict refoffsets basecolor groupname b
        binvalues chain w w' :
  emit_chain excl scoredict refoffsets basecolor groupname b binvalues chain w
  = (w', Return tt) ->
  exists di value0 out,
    defaultindex b = Some di /\ Py.index binvalues di = Return value0 /\
    stdout w' = stdout w
                ++ ColorChain basecolor (scaled (binname_correction b) value0)
                              chain :: out /\
    forall v g n c l,
      In (Select v g n c l) out <->
      exists k value,
        nth_error (Py.init binvalues) k = Some value /\
        n = Z.of_nat k + 1 /\
        v = scaled (binname_correction b) value /\
        g = groupname /\ c = chain /\
        l = bin_residues binvalues (chain_scores scoredict chain)
                         (chain_offset refoffsets chain) value /\
        l <> [] /\
        (excl = true -> Z.of_nat k <> di).
Proof.
  rewrite emit_chain_run.
  destruct (defaultindex b) as [di |]; [ | discriminate ].
  destruct (Py.index binvalues di) as [value0 | e] eqn:Hidx; [ | discriminate ].
  intro H. injection H as <-. cbn [stdout]. unfold chain_block.
  exists di, value0. eexists.
  split; [ reflexivity | ]. split; [ exact Hidx | ]. split; [ reflexivity | ].
  intros v g n c l. rewrite bin_directives_select.
  split; intros (k & value & Hk & Hn & Hv & Hg & Hc & Hl & Hne & Hex);
    exists k, value; rewrite group_get_assign_chain in *;
    (split; [ exact Hk | ]); (split; [ lia | ]);
    (split; [ exact Hv | ]); (split; [ exact Hg | ]);
    (split; [ exact Hc | ]); (split; [ exact Hl | ]);
    (split; [ exact Hne | ]); intro He; specialize (Hex He); lia.
Qed.

(** The same chain over the boundaries 0, 4, 9, the default bin excluded. *)
Lemma chain_selections_witness :
  exists w' di value0 out,
    emit_chain true one_chain [("A", 20)] "red" "grp"
               (mkBinning None (Some 0) 0 (10 # 1)) [0%Q; 4 # 1; 9 # 1] "A"
               empty_world = (w', Return tt) /\
    defaultindex (mkBinning None (Some 0) 0 (10 # 1)) = Some di /\
    Py.index [0%Q; 4 # 1; 9 # 1] di = Return value0 /\
    stdout w' = stdout empty_world
                ++ ColorChain "red" (scaled (10 # 1) value0) "A" :: out /\
    forall v g n c l,
      In (Select v g n c l) out <->
      exists k value,
        nth_error (Py.init [0%Q; 4 # 1; 9 # 1]) k = Some value /\
        n = Z.of_nat k + 1 /\
        v = scaled (10 # 1) value /\
        g = "grp" /\ c = "A" /\
        l = bin_residues [0%Q; 4 # 1; 9 # 1] (chain_scores one_chain "A")
                         (chain_offset [("A", 20)] "A") value /\
        l <> [] /\
        (true = true -> Z.of_nat k <> di).
Proof.
  assert (Hrun : exists w',
             emit_chain true one_chain [("A", 20)] "red" "grp"
               (mkBinning None (Some 0) 0 (10 # 1)) [0%Q; 4 # 1; 9 # 1] "A"
               empty_world = (w', Return tt))
    by (eexists; vm_compute; reflexivity).
  destruct Hrun as [w' Hrun].
  destruct (chain_selections true one_chain [("A", 20)] "red" "grp"
              (mkBinning None (Some 0) 0 (10 # 1)) [0%Q; 4 # 1; 9 # 1] "A"
              empty_world w' Hrun) as (di & value0 & out & H).
  exists w', di, value0, out. split; [ exact Hrun | exact H ].
Defined.

Lemma nth_error_init {A} (l : list A) : forall k x,
  nth_error (Py.init l) k = Some x -> nth_error l k = Some x.
Proof.
  unfold Py.init.
  induction l as [| a l IH]; intros k x; [ destruct k; discriminate | ].
  destruct l as [| b l]; [ destruct k; discriminate | ].
  change (removelast (a :: b :: l)) with (a :: removelast (b :: l)).
  destruct k as [| k]; [ exact (fun H => H) | ].
  cbn [nth_error]. apply IH.
Qed.

Lemma nth_error_combine {A B} (l1 : list A) (l2 : list B) : forall k a b,
  nth_error l1 k = Some a -> nth_error l2 k = Some b ->
  In (a, b) (combine l1 l2).
Proof.
  revert l2. induction l1 as [| x l1 IH]; intros l2 k a b H1 H2;
    [ destruct k; discriminate | ].
  destruct l2 as [| y l2]; [ destruct k; discriminate | ].
  destruct k as [| k]; cbn [nth_error] in H1, H2; cbn [combine In].
  - injection H1 as <-. injection H2 as <-. left. reflexivity.
  - right. exact (IH l2 k a b H1 H2).
Qed.

(** Property X20 ([make_output_script], lines 251 to 253 and 271 to 279):
    in a run that completes, the colour name of every selection among the
    first nine bins has been defined, with the colour the palette has at
    that bin's place (counted from the reversed palette under
    [reverse_colors]). *)
Theorem selection_color_defined excl dcg rc ZEROOVERRIDE scoredict keepchains
        refoffsets groupname basecolor w w' palette :
  make_output_script excl dcg rc ZEROOVERRIDE scoredict keepchains refoffsets
                     groupname basecolor w = (w', Return tt) ->
  dict_get String.eqb basecolor colors = Some palette ->
  exists out,
    stdout w' = stdout w ++ out /\
    forall v g n c l,
      In (Select v g n c l) out -> n <= 9 ->
      exists rgb,
        nth_error (if rc then rev palette else palette) (Z.to_nat (n - 1))
        = Some rgb /\
        In (SetColor basecolor v rgb) out.
Proof.
  intros Hrun Hp. revert Hrun. rewrite make_output_script_run.
  destruct (all_scores_of scoredict) as [all_scores | e]; [ | discriminate ].
  destruct (derive_bins excl dcg rc ZEROOVERRIDE all_scores w)
    as [w1 [b | e]] eqn:Hd; [ | discriminate ].
  apply derive_bins_stdout in Hd.
  destruct (binvalues b) as [bv |]; [ | discriminate ].
  cbv zeta. rewrite Hp.
  pose proof (palette_length _ _ Hp) as Hlen.
  set (targetcolors := if rc then rev palette else palette).
  assert (Htl : List.length targetcolors = 9%nat).
  { subst targetcolors. destruct rc; [ rewrite length_rev | ]; exact Hlen. }
  destruct (List.length targetcolors <=? List.length bv)%nat; [ | discriminate ].
  rewrite emit_chains_run. cbn [stdout stderr].
  destruct keepchains as [| chain0 rest0] eqn:Hkeep.
  { intro H. injection H as <-. cbn [stdout]. rewrite Hd, <- app_assoc.
    eexists. split; [ reflexivity | ].
    intros v g n c l H. exfalso.
    exact (no_select_before_chains _ _ _ _ _ _ _ _ _ H). }
  rewrite <- Hkeep. clear Hkeep.
  destruct (defaultindex b) as [di |]; [ | discriminate ].
  destruct (Py.index bv di) as [value0 | e]; [ | discriminate ].
  intro H. injection H as <-. cbn [stdout].
  eexists. rewrite Hd, <- !app_assoc. split; [ reflexivity | ].
  intros v g n c l H Hn.
  rewrite app_assoc in H. apply in_app_or in H. destruct H as [H | H].
  { exfalso. exact (no_select_before_chains _ _ _ _ _ _ _ _ _ H). }
  apply in_concat in H. destruct H as [block [Hblock H]].
  apply in_map_iff in Hblock. destruct Hblock as [chain [<- Hchain]].
  unfold chain_block in H. destruct H as [H | H]; [ discriminate | ].
  apply bin_directives_select in H.
  destruct H as (k & value & Hk & Hnk & Hv & _).
  apply nth_error_init in Hk.
  assert (Hkn : Z.to_nat (n - 1) = k) by lia. rewrite Hkn.
  destruct (nth_error targetcolors k) as [rgb |] eqn:Hrgb.
  2:{ apply nth_error_None in Hrgb. lia. }
  exists rgb. split; [ reflexivity | ].
  apply in_or_app. right. apply in_or_app. left.
  unfold color_defs. apply in_map_iff. exists (value, rgb).
  cbn [fst snd]. split; [ rewrite Hv; reflexivity | ].
  exact (nth_error_combine _ _ _ _ _ Hk Hrgb).
Qed.

(** Chain A with the scores 0 and 8, palette [red]. *)
Lemma selection_color_defined_witness :
  exists w' palette out,
    make_output_script false None false 0 one_chain ["A"] [] "grp" "red"
                       empty_world = (w', Return tt) /\
    dict_get String.eqb "red" colors = Some palette /\
    stdout w' = stdout empty_world ++ out /\
    forall v g n c l,
      In (Select v g n c l) out -> n <= 9 ->
      exists rgb,
        nth_error (if false then rev palette else palette) (Z.to_nat (n - 1))
        = Some rgb /\
        In (SetColor "red" v rgb) out.
Proof.
  assert (Hrun : exists w',
             make_output_script false None false 0 one_chain ["A"] [] "grp" "red"
                                empty_world = (w', Return tt))
    by (eexists; vm_compute; reflexivity).
  destruct Hrun as [w' Hrun].
  assert (Hp : exists palette, dict_get String.eqb "red" colors = Some palette)
    by (eexists; reflexivity).
  destruct Hp as [palette Hp].
  destruct (selection_color_defined false None false 0 one_chain ["A"] []
              "grp" "red" empty_world w' palette Hrun Hp) as [out Hout].
  exists w', palette, out.
  split; [ exact Hrun | split; [ exact Hp | exact Hout ] ].
Defined.

Lemma bin_directives_empty excl basecolor groupname chain correction
      defaultindex lowers : forall i,
  bin_directives excl basecolor groupname chain correction defaultindex [] i
                 lowers = [].
Proof.
  induction lowers as [| value rest IH]; intro i; [ reflexivity | ].
  cbn [bin_directives]. rewrite IH.
  destruct ((i =? defaultindex) && excl); reflexivity.
Qed.

(** Property X21 ([make_output_script], lines 256 to 279): a kept chain
    without scores in the table gets its one chain-colouring directive and
    no selection. *)
Theorem chain_without_scores excl scoredict refoffsets basecolor groupname b
        binvalues chain w w' :
  chain_scores scoredict chain = [] ->
  emit_chain excl scoredict refoffsets basecolor groupname b binvalues chain w
  = (w', Return tt) ->
  exists value0,
    stdout w' = stdout w
                ++ [ColorChain basecolor (scaled (binname_correction b) value0)
                               chain].
Proof.
  intro Hnone. rewrite emit_chain_run.
  destruct (defaultindex b) as [di |]; [ | discriminate ].
  destruct (Py.index binvalues di) as [value0 | e]; [ | discriminate ].
  intro H. injection H as <-. exists value0. cbn [stdout].
  unfold chain_block. rewrite Hnone. unfold assign_chain.
  cbn [dict_keys map fold_left]. rewrite bin_directives_empty. reflexivity.
Qed.

(** Chain B, of which the table [one_chain] knows nothing. *)
Lemma chain_without_scores_witness :
  exists value0,
    stdout (mkWorld [ColorChain "red" 0 "B"] [])
    = stdout empty_world
      ++ [ColorChain "red"
            (scaled (binname_correction (mkBinning None (Some 0) 0 (10 # 1)))
                    value0) "B"].
Proof.
  apply (chain_without_scores false one_chain [] "red" "grp"
           (mkBinning None (Some 0) 0 (10 # 1)) [0%Q; 4 # 1; 9 # 1] "B"
           empty_world).
  - reflexivity.
  - vm_compute. reflexivity.
Defined.

(** ** The derivation, once more *)

Local Open Scope Q_scope.

(** ** Rounding keeps the order *)

Lemma rint_mono x y : x <= y -> (Np.rint x <= Np.rint y)%Z.
Proof.
  intro Hxy. pose proof (Qfloor_resp_le x y Hxy) as Hf.
  pose proof (Qfloor_le x) as Hx0. pose proof (Qlt_floor x) as Hx1.
  pose proof (Qfloor_le y) as Hy0. pose proof (Qlt_floor y) as Hy1.
  rewrite inject_Z_plus in Hx1, Hy1. change (inject_Z 1) with 1 in Hx1, Hy1.
  unfold Np.rint.
  destruct (Z.eq_dec (Qfloor x) (Qfloor y)) as [Heq | Hne].
  - rewrite Heq in *.
    destruct (Qcompare_spec (x - inject_Z (Qfloor y)) (1 # 2)) as [E | E | E];
      destruct (Qcompare_spec (y - inject_Z (Qfloor y)) (1 # 2)) as [E' | E' | E'];
      destruct (Z.even (Qfloor y)); try lia; exfalso; lra.
  - assert (Hlt : (Qfloor x + 1 <= Qfloor y)%Z) by lia.
    destruct (x - inject_Z (Qfloor x) ?= 1 # 2);
      destruct (y - inject_Z (Qfloor y) ?= 1 # 2);
      destruct (Z.even (Qfloor x)); destruct (Z.even (Qfloor y)); lia.
Qed.

Lemma around_mono d x y : x <= y -> Np.around d x <= Np.around d y.
Proof.
  intro Hxy. unfold Np.around. pose proof (pow10_pos d) as Hp.
  assert (Hm : x * Py.pow10 d <= y * Py.pow10 d)
    by (apply Qmult_le_compat_r; lra).
  apply rint_mono in Hm. rewrite Zle_Qle in Hm.
  apply Qmult_le_compat_r with (z := / Py.pow10 d) in Hm;
    [ exact Hm | ].
  apply Qlt_le_weak. apply Qinv_lt_0_compat. exact Hp.
Qed.

Lemma around_zero d : Np.around d 0 == 0.
Proof.
  unfold Np.around.
  rewrite (rint_comp (0 * Py.pow10 d) 0) by ring.
  change (inject_Z (Np.rint 0)) with 0.
  pose proof (pow10_pos d) as Hp. field.
  intro C. rewrite C in Hp. discriminate Hp.
Qed.

Lemma sorted_app (l1 l2 : list Q) :
  StronglySorted Qlt l1 -> StronglySorted Qlt l2 ->
  (forall x y, In x l1 -> In y l2 -> x < y) ->
  StronglySorted Qlt (l1 ++ l2).
Proof.
  induction 1 as [| x l1 Hs IH Hx]; intros H2 Hcross; cbn [app];
    [ exact H2 | ].
  constructor.
  - apply IH; [ exact H2 | ].
    intros a b Ha Hb. apply Hcross; [ right; exact Ha | exact Hb ].
  - apply Forall_app. split; [ exact Hx | ].
    apply Forall_forall. intros y Hy. apply Hcross; [ left; reflexivity | exact Hy ].
Qed.

Lemma ramp_ge_start a s n y : 0 < s -> In y (Np.ramp a s n) -> a <= y.
Proof.
  intros Hs Hy. apply ramp_In in Hy. destruct Hy as [i [_ ->]].
  assert (Hi : 0 <= inject_Z (Z.of_nat i))
    by (change 0 with (inject_Z 0); rewrite <- Zle_Qle; lia).
  assert (0 <= inject_Z (Z.of_nat i) * s) by (apply Qmult_le_0_compat; lra).
  lra.
Qed.

(** ** The diverging branch (the scores span zero) *)

(** What a completed derivation has produced when the lowest score is
    negative. *)
Lemma derive_bins_negative_inv excl dcg rc zo scores lo w w' b :
  derive_bins excl dcg rc zo scores w = (w', Return b) ->
  py_min scores = Return lo -> lo < 0 ->
  exists hi,
    py_max scores = Return hi /\ lo < hi /\
    (hi <= 0 -> binvalues b = None) /\
    (0 < hi ->
     let c := Py.pow10 (Np.floor_log10 (hi - lo)) in
     let start := if Np.Qltb lo (rounded lo hi lo)
                  then rounded lo hi lo - c else rounded lo hi lo in
     exists low_set high_set,
       Np.arange start (zo + c / (10 # 1)) (Qabs (start / (4 # 1)))
       = Return low_set /\
       Np.arange (zo + c / (10 # 1))
                 (rounded lo hi hi + rounded lo hi hi / (4 # 1))
                 (rounded lo hi hi / (4 # 1))
       = Return high_set /\
       binvalues b = Some (low_set ++ high_set)).
Proof.
  intros Hrun Hmin Hneg.
  assert (E0 : Qle_bool 0 lo = false) by (apply Qle_bool_false; exact Hneg).
  assert (E1 : Np.Qltb lo 0 = true) by (apply Qltb_true; exact Hneg).
  revert Hrun. unfold derive_bins, default_unless_overridden, rounded. run_monad.
  rewrite Hmin.
  destruct (py_max scores) as [hi | e] eqn:Hmax; [ | intro H; inversion H ].
  destruct (Np.int_floor_log10 (hi - lo)) as [m | e] eqn:Hm;
    [ | intro H; inversion H ].
  apply int_floor_log10_inv in Hm. destruct Hm as [Hpos ->].
  intro Hrun. exists hi.
  split; [ reflexivity | ]. split; [ lra | ].
  destruct (Np.Qltb 0 hi) eqn:E2.
  - apply Qltb_true in E2. split; [ intro; lra | intros _ ]. cbv zeta.
    destruct (Np.Qltb lo (Np.around (Z.abs (Z.min (Np.floor_log10 (hi - lo)) 0)) lo));
      destruct dcg as [g |];
      destruct (Np.Qltb 1 (hi - lo) && Np.Qltb (hi - lo) (8 # 1))%bool;
      cbv beta iota zeta in Hrun; rewrite E0, E1 in Hrun;
      cbn [andb] in Hrun; cbv beta iota zeta in Hrun;
      match type of Hrun with
      | context [match Np.arange ?a ?b ?s with _ => _ end] =>
          destruct (Np.arange a b s) as [low_set | e] eqn:Hlow;
            [ | inversion Hrun ]
      end;
      cbv beta iota zeta in Hrun;
      match type of Hrun with
      | context [match Np.arange ?a ?b ?s with _ => _ end] =>
          destruct (Np.arange a b s) as [high_set | e] eqn:Hhigh;
            [ | inversion Hrun ]
      end;
      inversion Hrun; subst; cbn [binvalues];
      exists low_set, high_set;
      (split; [ reflexivity | split; reflexivity ]).
  - apply Qltb_false in E2. split; [ intros _ | intro; lra ].
    assert (E3 : Qle_bool hi 0 = true) by (apply Qle_bool_iff; exact E2).
    destruct (Np.Qltb lo (Np.around (Z.abs (Z.min (Np.floor_log10 (hi - lo)) 0)) lo));
      destruct dcg as [g |];
      destruct (Np.Qltb 1 (hi - lo) && Np.Qltb (hi - lo) (8 # 1))%bool;
      cbv beta iota zeta in Hrun; rewrite E0, E1 in Hrun;
      cbn [andb] in Hrun; rewrite E3 in Hrun;
      inversion Hrun; subst; reflexivity.
Qed.

(** What a completed derivation has produced when no score is negative, with
    the call of [arange] that produced it. *)
Lemma derive_bins_nonnegative_inv excl dcg rc zo scores lo w w' b :
  derive_bins excl dcg rc zo scores w = (w', Return b) ->
  py_min scores = Return lo -> 0 <= lo ->
  exists hi steps,
    py_max scores = Return hi /\ lo < hi /\
    let c := Py.pow10 (Np.floor_log10 (hi - lo)) in
    let start := if Np.Qltb lo (rounded lo hi lo)
                 then rounded lo hi lo - c else rounded lo hi lo in
    let step := (rounded lo hi hi - rounded lo hi lo) / (8 # 1) in
    Np.arange start (rounded lo hi hi + step) step = Return steps /\
    binvalues b = Some (steps ++ [rounded lo hi hi + c]).
Proof.
  intros Hrun Hmin H0.
  assert (E0 : Qle_bool 0 lo = true) by (apply Qle_bool_iff; exact H0).
  revert Hrun. unfold derive_bins, default_unless_overridden, rounded. run_monad.
  rewrite Hmin.
  destruct (py_max scores) as [hi | e] eqn:Hmax; [ | intro H; inversion H ].
  destruct (Np.int_floor_log10 (hi - lo)) as [m | e] eqn:Hm;
    [ | intro H; inversion H ].
  apply int_floor_log10_inv in Hm. destruct Hm as [Hpos ->].
  intro Hrun. exists hi. cbv zeta.
  destruct (Np.Qltb lo (Np.around (Z.abs (Z.min (Np.floor_log10 (hi - lo)) 0)) lo));
    destruct dcg as [g |];
    destruct (Np.Qltb 1 (hi - lo) && Np.Qltb (hi - lo) (8 # 1))%bool;
    cbv beta iota zeta in Hrun; rewrite E0 in Hrun;
    match type of Hrun with
    | context [Np.arange ?a ?b ?s] =>
        destruct (Np.arange a b s) as [steps | e] eqn:Har; [ | inversion Hrun ]
    end;
    cbv beta iota zeta in Hrun;
    match type of Hrun with
    | context [Py.index ?l 1] =>
        destruct (Py.index l 1) as [v | e] eqn:Hv; [ | inversion Hrun ]
    end;
    match type of Hrun with
    | context [if ?c then _ else _] => destruct c
    end;
    inversion Hrun; subst; cbn [binvalues]; exists steps;
    (split; [ reflexivity | split; [ lra | split; reflexivity ] ]).
Qed.

(** Over exact arithmetic, whenever the derivation yields bin values, in
    the sequential or in the diverging branch, they strictly increase. *)
Lemma bin_values_increase_exact excl dcg rc ZEROOVERRIDE scores w w' b bv :
  derive_bins excl dcg rc ZEROOVERRIDE scores w = (w', Return b) ->
  binvalues b = Some bv ->
  StronglySorted Qlt bv.
Proof.
  intros Hrun Hbv.
  destruct (py_min scores) as [lo | e] eqn:Hmin.
  2:{ revert Hrun. unfold derive_bins. run_monad. rewrite Hmin.
      intro H. inversion H. }
  destruct (Qlt_le_dec lo 0) as [Hneg | H0].
  - destruct (derive_bins_negative_inv _ _ _ _ _ _ _ _ _ Hrun Hmin Hneg)
      as (hi & Hmax & Hlt & Hnone & Hsome).
    destruct (Qlt_le_dec 0 hi) as [Hhi | Hhi];
      [ | rewrite (Hnone Hhi) in Hbv; discriminate ].
    destruct (Hsome Hhi) as (low_set & high_set & Hlow & Hhigh & Hb).
    rewrite Hb in Hbv. injection Hbv as <-.
    apply arange_inv in Hlow, Hhigh.
    destruct Hlow as [Hls ->]. destruct Hhigh as [Hhs ->].
    assert (Hlpos : 0 < Qabs ((if Np.Qltb lo (rounded lo hi lo)
                               then rounded lo hi lo
                                    - Py.pow10 (Np.floor_log10 (hi - lo))
                               else rounded lo hi lo) / (4 # 1))).
    { match goal with
      | |- 0 < Qabs ?x =>
          pose proof (Qabs_nonneg x) as Hn;
          destruct (Qlt_le_dec 0 (Qabs x)) as [Hp | Hp]; [ exact Hp | ];
          exfalso; apply Hls; lra
      end. }
    assert (Hhpos : 0 < rounded lo hi hi / (4 # 1)).
    { pose proof (around_mono (Z.abs (Z.min (Np.floor_log10 (hi - lo)) 0)) 0 hi
                    ltac:(lra)) as Hm.
      rewrite around_zero in Hm. fold (rounded lo hi hi) in Hm.
      destruct (Qlt_le_dec 0 (rounded lo hi hi / (4 # 1))) as [Hp | Hp];
        [ exact Hp | ].
      exfalso. apply Hhs.
      assert (rounded lo hi hi / (4 # 1) == rounded lo hi hi * (1 # 4))
        by (unfold Qdiv; reflexivity).
      lra. }
    apply sorted_app.
    + apply ramp_sorted. exact Hlpos.
    + apply ramp_sorted. exact Hhpos.
    + intros x y Hx Hy.
      apply (ramp_below_stop _ _ _ _ Hlpos) in Hx.
      apply (ramp_ge_start _ _ _ _ Hhpos) in Hy. lra.
  - destruct (derive_bins_nonnegative_inv _ _ _ _ _ _ _ _ _ Hrun Hmin H0)
      as (hi & steps & Hmax & Hlt & Har & Hb).
    rewrite Hb in Hbv. injection Hbv as <-.
    apply arange_inv in Har. destruct Har as [Hs ->].
    assert (Hround : rounded lo hi lo < rounded lo hi hi).
    { pose proof (around_mono (Z.abs (Z.min (Np.floor_log10 (hi - lo)) 0)) lo hi
                    ltac:(lra)) as Hm.
      fold (rounded lo hi lo) (rounded lo hi hi) in Hm.
      destruct (Qlt_le_dec (rounded lo hi lo) (rounded lo hi hi)) as [Hp | Hp];
        [ exact Hp | ].
      exfalso. apply Hs.
      assert ((rounded lo hi hi - rounded lo hi lo) / (8 # 1)
              == (rounded lo hi hi - rounded lo hi lo) * (1 # 8))
        by (unfold Qdiv; reflexivity).
      lra. }
    destruct (sequential_bins lo hi Hlt Hround) as (_ & _ & _ & Hsorted & _).
    exact Hsorted.
Qed.

(** Property X22 ([make_output_script], lines 176 to 224): when the
    minimum and the maximum of the scores the derivation receives are whole
    numbers of absolute value at most [10 ** 12] and the zero override is
    0, the bin values it yields, in the sequential or in the diverging
    branch, strictly increase and start at the minimum.  On these inputs
    the rounding of binary64 does not disturb them: the ends are rounded to
    themselves, the values of the sequential branch and the low values of
    the diverging branch are computed exactly, and its high values are a
    start above zero plus multiples of a quarter of the maximum. *)
Theorem bin_values_increase excl dcg rc ZEROOVERRIDE scores lo hi a b w w' bn bv :
  py_min scores = Return lo -> py_max scores = Return hi ->
  lo == inject_Z a -> hi == inject_Z b ->
  (- 10 ^ 12 <= a)%Z -> (a < b)%Z -> (b <= 10 ^ 12)%Z ->
  ZEROOVERRIDE == 0 ->
  derive_bins excl dcg rc ZEROOVERRIDE scores w = (w', Return bn) ->
  binvalues bn = Some bv ->
  StronglySorted Qlt bv /\
  exists first, nth_error bv 0 = Some first /\ first == lo.
Proof.
  intros Hmin Hmax Hlo Hhi Ha Hab Hb Hzo Hrun Hbv.
  split; [ exact (bin_values_increase_exact _ _ _ _ _ _ _ _ _ Hrun Hbv) | ].
  pose proof (whole_range lo hi a b Hlo Hhi Hab) as Hr.
  pose proof (rounded_whole lo hi lo a Hr Hlo) as Hr0.
  assert (Hcorr : Np.Qltb lo (rounded lo hi lo) = false)
    by (apply Qltb_false; lra).
  destruct (Qlt_le_dec lo 0) as [Hneg | H0].
  - destruct (derive_bins_negative_inv _ _ _ _ _ _ _ _ _ Hrun Hmin Hneg)
      as (hi' & Hmax' & _ & Hnone & Hsome).
    rewrite Hmax in Hmax'. injection Hmax' as <-.
    destruct (Qlt_le_dec 0 hi) as [Hhi0 | Hhi0];
      [ | rewrite (Hnone Hhi0) in Hbv; discriminate ].
    destruct (Hsome Hhi0) as (low_set & high_set & Hlow & _ & Hshape).
    rewrite Hbv in Hshape. injection Hshape as ->.
    rewrite Hcorr in Hlow. apply arange_inv in Hlow. destruct Hlow as [Hstep ->].
    pose proof (pow10_pos (Np.floor_log10 (hi - lo))) as Hc.
    set (c := Py.pow10 (Np.floor_log10 (hi - lo))) in *.
    set (ls := Qabs (rounded lo hi lo / (4 # 1))) in *.
    assert (Hls : 0 < ls).
    { pose proof (Qabs_nonneg (rounded lo hi lo / (4 # 1))) as Hn. fold ls in Hn.
      destruct (Qlt_le_dec 0 ls) as [Hp | Hp]; [ exact Hp | ].
      exfalso. apply Hstep. lra. }
    assert (Hq : 0 < (ZEROOVERRIDE + c / (10 # 1) - rounded lo hi lo) / ls).
    { apply Qlt_shift_div_l; [ exact Hls | ].
      assert (c / (10 # 1) == c * (1 # 10)) by (unfold Qdiv; reflexivity).
      lra. }
    assert (Hn : (1 <= Z.to_nat
                        (Qceiling ((ZEROOVERRIDE + c / (10 # 1) - rounded lo hi lo)
                                   / ls)))%nat).
    { pose proof (Qle_ceiling ((ZEROOVERRIDE + c / (10 # 1) - rounded lo hi lo)
                               / ls)) as Hle.
      assert (Hz : (0 < Qceiling ((ZEROOVERRIDE + c / (10 # 1) - rounded lo hi lo)
                                  / ls))%Z).
      { rewrite Zlt_Qlt. change (inject_Z 0) with 0. lra. }
      lia. }
    destruct (ramp_head (rounded lo hi lo) ls _ Hn) as (first & rest & Hramp & Hfirst).
    rewrite Hramp. exists first. split; [ reflexivity | lra ].
  - destruct (derive_bins_sequential_inv _ _ _ _ _ _ _ _ _ Hrun Hmin H0)
      as (hi' & n & Hmax' & _ & Hn & Hshape).
    rewrite Hmax in Hmax'. injection Hmax' as <-.
    rewrite Hbv in Hshape. injection Hshape as ->.
    rewrite Hcorr.
    destruct (ramp_head (rounded lo hi lo)
                ((rounded lo hi hi - rounded lo hi lo) / (8 # 1)) n Hn)
      as (first & rest & Hramp & Hfirst).
    rewrite Hramp. exists first. split; [ reflexivity | lra ].
Qed.

(** The scores -10 and 4, in the diverging branch. *)
Lemma bin_values_increase_witness :
  exists w' bn bv,
    derive_bins false None false 0 [-10 # 1; 4 # 1] empty_world = (w', Return bn) /\
    binvalues bn = Some bv /\
    StronglySorted Qlt bv /\
    exists first, nth_error bv 0 = Some first /\ first == -10 # 1.
Proof.
  assert (Hrun : exists w' bn bv,
             derive_bins false None false 0 [-10 # 1; 4 # 1] empty_world
             = (w', Return bn) /\ binvalues bn = Some bv)
    by (eexists; eexists; eexists;
        split; [ vm_compute; reflexivity | reflexivity ]).
  destruct Hrun as (w' & bn & bv & Hrun & Hbv).
  exists w', bn, bv. split; [ exact Hrun | split; [ exact Hbv | ] ].
  apply (bin_values_increase false None false 0 [-10 # 1; 4 # 1] (-10 # 1) (4 # 1)
           (-10) 4 empty_world w' bn bv); try reflexivity; try lia; assumption.
Defined.



Lemma known_palette basecolor :
  In basecolor palette_names ->
  exists palette, dict_get String.eqb basecolor colors = Some palette.
Proof.
  unfold palette_names. cbn [In].
  intro H.
  repeat match type of H with
         | _ \/ _ => destruct H as [H | H]; [ subst; eexists; reflexivity | ]
         end.
  destruct H.
Qed.

(** Property X24 ([make_output_script], lines 240 to 253): when the
    derivation has produced fewer than nine bin values and the palette
    exists, the run writes the four opening directives and one colour
    definition per bin value, and then fails with [IndexError] at
    [binvalues[i]]; no chain is coloured. *)
Theorem too_few_bin_values excl dcg rc ZEROOVERRIDE scoredict keepchains
        refoffsets groupname basecolor w scores w1 b bv :
  all_scores_of scoredict = Return scores ->
  derive_bins excl dcg rc ZEROOVERRIDE scores w = (w1, Return b) ->
  binvalues b = Some bv -> (List.length bv < 9)%nat ->
  In basecolor palette_names ->
  exists w' defs,
    make_output_script excl dcg rc ZEROOVERRIDE scoredict keepchains refoffsets
                       groupname basecolor w = (w', Raise IndexError) /\
    stdout w' = stdout w ++ preamble ++ defs /\
    List.length defs = List.length bv /\
    forallb is_set_color defs = true.
Proof.
  intros Hall Hrun Hbv Hlen Hin.
  destruct (known_palette basecolor Hin) as [palette Hp].
  pose proof (palette_length _ _ Hp) as Hpl.
  rewrite make_output_script_run, Hall, Hrun, Hbv. cbv zeta. rewrite Hp.
  apply derive_bins_stdout in Hrun.
  set (targetcolors := if rc then rev palette else palette).
  assert (Htl : List.length targetcolors = 9%nat).
  { subst targetcolors. destruct rc; [ rewrite length_rev | ]; exact Hpl. }
  assert (E : (List.length targetcolors <=? List.length bv)%nat = false)
    by (apply Nat.leb_gt; lia).
  rewrite E.
  destruct (color_defs_length basecolor targetcolors (binname_correction b) bv
              ltac:(lia)) as [Hdl Hset].
  eexists. eexists. split; [ reflexivity | ].
  cbn [stdout]. rewrite Hrun, <- app_assoc.
  split; [ reflexivity | split; [ exact Hdl | exact Hset ] ].
Qed.

(** The scores -100 and 1: five bin values below zero, none above. *)
Lemma too_few_bin_values_witness :
  exists w' defs,
    make_output_script false None false 0
      [("A", [(1%Z, -100 # 1); (2%Z, 1)])] ["A"] [] "grp" "div1w" empty_world
    = (w', Raise IndexError) /\
    stdout w' = stdout empty_world ++ preamble ++ defs /\
    List.length defs
    = List.length [-400 # 4; -300 # 4; -200 # 4; -100 # 4; 0 # 4] /\
    forallb is_set_color defs = true.
Proof.
  apply (too_few_bin_values false None false 0
           [("A", [(1%Z, -100 # 1); (2%Z, 1)])] ["A"] [] "grp" "div1w"
           empty_world [-100 # 1; 1]
           (mkWorld [] [MsgGeneratingBins;
                        MsgDataRange (-100 # 1) 1 (101 # 1) (-99 # 2);
                        MsgDiverging])
           (mkBinning (Some [-400 # 4; -300 # 4; -200 # 4; -100 # 4; 0 # 4])
                      (Some 4%Z) 2 0.10)
           [-400 # 4; -300 # 4; -200 # 4; -100 # 4; 0 # 4]).
  - reflexivity.
  - vm_compute. reflexivity.
  - reflexivity.
  - cbn. lia.
  - unfold palette_names. cbn. tauto.
Defined.

